(** * Serverless task scheduler: the executor tick, the status writes,
      recurrence expansion and task creation

    A shallow embedding of [lambda_functions/executor/executor_handler.py]
    and of [schedule_task] in [lambda_functions/api/api_handler.py],
    with the slice of Python's [str] and [datetime] and of the DynamoDB
    table that those functions run on. *)

From Stdlib Require Import ZArith Ascii String List Lia SpecFloat.
From stdpp Require Import base option list gmap strings fin_maps.

Local Open Scope string_scope.
Local Open Scope Z_scope.

(** ** Python exceptions and results *)

Inductive exn_class :=
  | ValueError | KeyError | AttributeError | TypeError | OverflowError
  | DecimalException | ClientError | RequestException.

(** An exception is its class and the text [str(e)] gives. *)
Record exn := Exn { exn_cls : exn_class; exn_msg : string }.

Inductive result (A : Type) :=
  | Ok (a : A)
  | Raise (e : exn).
Arguments Ok {A} a.
Arguments Raise {A} e.

Definition rbind {A B} (r : result A) (k : A -> result B) : result B :=
  match r with
  | Ok a => k a
  | Raise e => Raise e
  end.

Definition is_ok {A} (r : result A) : bool :=
  match r with Ok _ => true | Raise _ => false end.

(** ** Strings the way the handlers use them *)

Module PyStr.

(** [s[a:]]. *)
Definition slice_from (a : nat) (s : string) : string :=
  String.substring a (String.length s - a) s.

(** [s.replace(old, new)] for a non-empty [old]: occurrences are taken
    left to right and do not overlap.  [skip] counts the characters of
    a match still to be dropped. *)
Fixpoint replace_from (old new : string) (skip : nat) (s : string) : string :=
  match s with
  | EmptyString => EmptyString
  | String c s' =>
      match skip with
      | S k => replace_from old new k s'
      | O =>
          if String.prefix old s
          then new ++ replace_from old new (Nat.pred (String.length old)) s'
          else String c (replace_from old new O s')
      end
  end.

Definition replace (old new s : string) : string :=
  replace_from old new O s.

(** [s.upper()] on the ASCII letters, all that [== 'GET'] can see. *)
Definition upper_char (c : ascii) : ascii :=
  let n := nat_of_ascii c in
  if (97 <=? n)%nat && (n <=? 122)%nat then ascii_of_nat (n - 32) else c.

Fixpoint upper (s : string) : string :=
  match s with
  | EmptyString => EmptyString
  | String c s' => String (upper_char c) (upper s')
  end.

Definition digit_char (d : Z) : ascii := ascii_of_nat (48 + Z.to_nat d).

Fixpoint digits_go (fuel : nat) (n : Z) (acc : string) : string :=
  let acc' := String (digit_char (n mod 10)) acc in
  match fuel with
  | O => acc'
  | S f => if n <? 10 then acc' else digits_go f (n / 10) acc'
  end.

(** [str(n)] for an integer [n >= 0]. *)
Definition of_nonneg (n : Z) : string :=
  digits_go (Z.to_nat (Z.log2 n)) n "".

Fixpoint zeros (k : nat) : string :=
  match k with O => "" | S k' => String "0" (zeros k') end.

(** ["%0<w>d" % n] for [n >= 0]. *)
Definition fmt_d (w : nat) (n : Z) : string :=
  let s := of_nonneg n in
  zeros (w - String.length s) ++ s.

Definition digit_of (c : ascii) : option Z :=
  let n := Z.of_nat (nat_of_ascii c) in
  if (48 <=? n) && (n <=? 57) then Some (n - 48) else None.

End PyStr.

(** ** [datetime], as far as the handlers reach into it *)

Module Datetime.

(** [tzinfo] is [None] or a fixed offset from UTC, kept in
    microseconds; [Some 0] is [timezone.utc]. *)
Record datetime := mk_datetime {
  year : Z; month : Z; day : Z;
  hour : Z; minute : Z; second : Z; microsecond : Z;
  tzinfo : option Z
}.

Definition is_leap (y : Z) : bool :=
  (y mod 4 =? 0) && (negb (y mod 100 =? 0) || (y mod 400 =? 0)).

Definition days_in_month (y m : Z) : Z :=
  if m =? 2 then (if is_leap y then 29 else 28)
  else if (m =? 4) || (m =? 6) || (m =? 9) || (m =? 11) then 30
  else 31.

Definition value_error {A} (msg : string) : result A :=
  Raise (Exn ValueError msg).

(** The constructor's range checks, in the order CPython makes them. *)
Definition new_datetime (y mo d h mi s us : Z) (tz : option Z)
  : result datetime :=
  if negb ((1 <=? y) && (y <=? 9999)) then
    value_error ("year " ++ (if y <? 0 then "-" ++ PyStr.of_nonneg (- y)
                             else PyStr.of_nonneg y) ++ " is out of range")
  else if negb ((1 <=? mo) && (mo <=? 12)) then
    value_error "month must be in 1..12"
  else if negb ((1 <=? d) && (d <=? days_in_month y mo)) then
    value_error "day is out of range for month"
  else if negb ((0 <=? h) && (h <=? 23)) then
    value_error "hour must be in 0..23"
  else if negb ((0 <=? mi) && (mi <=? 59)) then
    value_error "minute must be in 0..59"
  else if negb ((0 <=? s) && (s <=? 59)) then
    value_error "second must be in 0..59"
  else if negb ((0 <=? us) && (us <=? 999999)) then
    value_error "microsecond must be in 0..999999"
  else Ok (mk_datetime y mo d h mi s us tz).

(** [dt.replace(year=.., month=.., day=..)]: a fresh datetime built
    through the constructor, so the new fields are range-checked. *)
Definition replace (dt : datetime) (y mo d : option Z) : result datetime :=
  new_datetime (default (year dt) y) (default (month dt) mo)
               (default (day dt) d)
               (hour dt) (minute dt) (second dt) (microsecond dt) (tzinfo dt).

(** *** Ordinals, for [datetime + timedelta] *)

Definition days_before_year (y : Z) : Z :=
  let p := y - 1 in p * 365 + p / 4 - p / 100 + p / 400.

Fixpoint days_before_month_go (y : Z) (m : nat) : Z :=
  match m with
  | O => 0
  | S k => days_before_month_go y k + days_in_month y (Z.of_nat k + 1)
  end.

(** Days of year [y] before the first of month [m]. *)
Definition days_before_month (y m : Z) : Z :=
  days_before_month_go y (Z.to_nat (m - 1)).

Definition ymd2ord (y m d : Z) : Z :=
  days_before_year y + days_before_month y m + d.

Definition DI400Y : Z := 146097.
Definition DI100Y : Z := 36524.
Definition DI4Y : Z := 1461.

Definition ord2ymd (ord : Z) : Z * Z * Z :=
  let n := ord - 1 in
  let n400 := n / DI400Y in
  let n := n mod DI400Y in
  let y := n400 * 400 + 1 in
  let n100 := n / DI100Y in
  let n := n mod DI100Y in
  let n4 := n / DI4Y in
  let n := n mod DI4Y in
  let n1 := n / 365 in
  let n := n mod 365 in
  let y := y + n100 * 100 + n4 * 4 + n1 in
  if (n1 =? 4) || (n100 =? 4) then (y - 1, 12, 31)
  else
    let leapyear := (n1 =? 3) && (negb (n4 =? 24) || (n100 =? 3)) in
    let m := Z.shiftr (n + 50) 5 in
    let preceding :=
      days_before_month 1 m + (if (2 <? m) && leapyear then 1 else 0) in
    if n <? preceding then
      let m' := m - 1 in
      let preceding' :=
        preceding - (days_in_month 1 m'
                     + (if (m' =? 2) && leapyear then 1 else 0)) in
      (y, m', n - preceding' + 1)
    else (y, m, n - preceding + 1).

Definition MAXORDINAL : Z := 3652059.

(** [dt + timedelta(...)], the delta given in microseconds. *)
Definition add_timedelta (dt : datetime) (delta_us : Z) : result datetime :=
  let day_us := 86400 * 1000000 in
  let total :=
    ymd2ord (year dt) (month dt) (day dt) * day_us
    + ((hour dt * 3600 + minute dt * 60 + second dt) * 1000000
       + microsecond dt)
    + delta_us in
  let days := total / day_us in
  let rem := total mod day_us in
  let secs := rem / 1000000 in
  let us := rem mod 1000000 in
  if (0 <? days) && (days <=? MAXORDINAL) then
    let '(y, m, d) := ord2ymd days in
    Ok (mk_datetime y m d (secs / 3600) ((secs mod 3600) / 60) (secs mod 60)
                    us (tzinfo dt))
  else Raise (Exn OverflowError "date value out of range").

(** [timedelta(hours=h, minutes=m)] in microseconds. *)
Definition timedelta (hours minutes : Z) : Z :=
  (hours * 3600 + minutes * 60) * 1000000.

(** *** Printing *)

(** [_format_offset]: [+HH:MM], with [:SS] and [.ffffff] only when
    they are not zero. *)
Definition format_offset (tz : option Z) : string :=
  match tz with
  | None => ""
  | Some off =>
      let sign := if off <? 0 then "-" else "+" in
      let a := Z.abs off in
      let hh := a / 3600000000 in
      let r := a mod 3600000000 in
      let mm := r / 60000000 in
      let ss := r mod 60000000 in
      sign ++ PyStr.fmt_d 2 hh ++ ":" ++ PyStr.fmt_d 2 mm
      ++ (if ss =? 0 then ""
          else ":" ++ PyStr.fmt_d 2 (ss / 1000000)
               ++ (if ss mod 1000000 =? 0 then ""
                   else "." ++ PyStr.fmt_d 6 (ss mod 1000000)))
  end.

(** [dt.isoformat()]: the fraction is printed only when the
    microsecond is not zero. *)
Definition isoformat (dt : datetime) : string :=
  PyStr.fmt_d 4 (year dt) ++ "-" ++ PyStr.fmt_d 2 (month dt) ++ "-"
  ++ PyStr.fmt_d 2 (day dt) ++ "T"
  ++ PyStr.fmt_d 2 (hour dt) ++ ":" ++ PyStr.fmt_d 2 (minute dt) ++ ":"
  ++ PyStr.fmt_d 2 (second dt)
  ++ (if microsecond dt =? 0 then ""
      else "." ++ PyStr.fmt_d 6 (microsecond dt))
  ++ format_offset (tzinfo dt).

(** [dt.strftime("%Y-%m-%dT%H:%M:%SZ")].  The year is printed on four
    digits, which is what every platform does from year 1000 on. *)
Definition strftime_YmdTHMSZ (dt : datetime) : string :=
  PyStr.fmt_d 4 (year dt) ++ "-" ++ PyStr.fmt_d 2 (month dt) ++ "-"
  ++ PyStr.fmt_d 2 (day dt) ++ "T"
  ++ PyStr.fmt_d 2 (hour dt) ++ ":" ++ PyStr.fmt_d 2 (minute dt) ++ ":"
  ++ PyStr.fmt_d 2 (second dt) ++ "Z".

(** *** Parsing: [datetime.fromisoformat] of CPython 3.9, the runtime
    the stack pins.  The interpreter runs the C implementation
    ([Modules/_datetimemodule.c]), which reads the UTF-8 text of the
    string through pointers; the functions below are laid out as the C
    functions of the same names.  A pointer is the text from it on, and
    reading at the end of the text gives the terminating NUL. *)

Definition NUL : ascii := Ascii.zero.

(** [*p] and [p + 1]. *)
Definition deref (p : string) : ascii :=
  match p with String c _ => c | EmptyString => NUL end.

Definition advance (p : string) : string :=
  match p with String _ p' => p' | EmptyString => EmptyString end.

(** [parse_digits(ptr, var, num_digits)]: [None] is the [NULL] it
    returns at the first character that is no digit. *)
Fixpoint parse_digits (ptr : string) (var : Z) (num_digits : nat)
  : option (string * Z) :=
  match num_digits with
  | O => Some (ptr, var)
  | S k =>
      match PyStr.digit_of (deref ptr) with
      | Some tmp => parse_digits (advance ptr) (var * 10 + tmp) k
      | None => None
      end
  end.

(** [parse_isoformat_date]: [YYYY-MM-DD] off the first ten characters;
    [None] stands for its negative return codes. *)
Definition parse_isoformat_date (dtstr : string) : option (Z * Z * Z) :=
  match parse_digits dtstr 0 4 with
  | None => None
  | Some (p, year) =>
      if negb (Ascii.eqb (deref p) "-") then None
      else
        match parse_digits (advance p) 0 2 with
        | None => None
        | Some (p, month) =>
            if negb (Ascii.eqb (deref p) "-") then None
            else
              match parse_digits (advance p) 0 2 with
              | None => None
              | Some (_, day) => Some (year, month, day)
              end
        end
  end.

(** How the loop of [parse_hh_mm_ss_ff] ends: with a [return], whose
    value is [1] when a character is left over, or at the fraction. *)
Inductive hms_next :=
  | Returns (left_over : bool)
  | Fraction (p : string).

(** The loop of [parse_hh_mm_ss_ff] over [HH[:MM[:SS]]], [todo]
    components still to read from [p].  [after_end] counts the
    characters from [p_end] on, so that [p >= p_end] reads
    [length p <= after_end]. *)
Fixpoint parse_hms_go (p : string) (after_end : nat) (todo : nat)
         (vals : list Z) : option (list Z * hms_next) :=
  match todo with
  | O => Some (vals, Fraction p)
  | S k =>
      match parse_digits p 0 2 with
      | None => None
      | Some (p, v) =>
          let c := deref p in
          let p := advance p in
          let vals := (vals ++ [v])%list in
          if (String.length p <=? after_end)%nat then
            Some (vals, Returns (negb (Ascii.eqb c NUL)))
          else if Ascii.eqb c ":" then parse_hms_go p after_end k vals
          else if Ascii.eqb c "." then Some (vals, Fraction p)
          else None
      end
  end.

(** [parse_hh_mm_ss_ff(tstr, tstr_end, ...)]: hour, minute, second and
    microsecond, and whether the return value is [1]; [None] stands for
    the negative codes.  A [:] after the seconds leads to the fraction
    as a [.] does, and so does a [.] after the hour or the minute. *)
Definition parse_hh_mm_ss_ff (tstr : string) (after_end : nat)
  : option (Z * Z * Z * Z * bool) :=
  match parse_hms_go tstr after_end 3 [] with
  | None => None
  | Some (vals, next) =>
      let hour := nth 0 vals 0 in
      let minute := nth 1 vals 0 in
      let second := nth 2 vals 0 in
      match next with
      | Returns left_over => Some (hour, minute, second, 0, left_over)
      | Fraction p =>
          let len_remains := (String.length p - after_end)%nat in
          if negb ((len_remains =? 6)%nat || (len_remains =? 3)%nat) then None
          else
            match parse_digits p 0 len_remains with
            | None => None
            | Some (p, us) =>
                Some (hour, minute, second,
                      if (len_remains =? 3)%nat then us * 1000 else us,
                      negb (Ascii.eqb (deref p) NUL))
            end
      end
  end.

(** The scan of [parse_isoformat_time] for the first [+] or [-]: the
    text from the sign on, empty when there is none. *)
Fixpoint tzinfo_scan (p : string) : string :=
  match p with
  | EmptyString => EmptyString
  | String c p' =>
      if Ascii.eqb c "+" || Ascii.eqb c "-" then p else tzinfo_scan p'
  end.

(** [parse_isoformat_time]: the time of day and, when a sign follows
    it, the offset in seconds with its microseconds.  A character left
    over before the sign is not looked at; one left over at the end of
    the text is an error. *)
Definition parse_isoformat_time (dtstr : string)
  : option (Z * Z * Z * Z * option (Z * Z)) :=
  let tzinfo_pos := tzinfo_scan dtstr in
  match parse_hh_mm_ss_ff dtstr (String.length tzinfo_pos) with
  | None => None
  | Some (hour, minute, second, microsecond, left_over) =>
      match tzinfo_pos with
      | EmptyString =>
          if left_over then None
          else Some (hour, minute, second, microsecond, None)
      | String sign tz =>
          let tzlen := String.length tzinfo_pos in
          if negb ((tzlen =? 6)%nat || (tzlen =? 9)%nat || (tzlen =? 16)%nat)
          then None
          else
            let tzsign := if Ascii.eqb sign "-" then -1 else 1 in
            match parse_hh_mm_ss_ff tz 0 with
            | None => None
            | Some (tzhour, tzminute, tzsecond, tzmicrosecond, left_over) =>
                if left_over then None
                else
                  Some (hour, minute, second, microsecond,
                        Some (tzsign * (tzhour * 3600 + tzminute * 60
                                        + tzsecond),
                              tzmicrosecond * tzsign))
            end
      end
  end.

(** [repr] of a [timedelta] of [us] microseconds. *)
Definition delta_repr (us : Z) : string :=
  let days := us / 86400000000 in
  let seconds := (us mod 86400000000) / 1000000 in
  let microseconds := us mod 1000000 in
  let part (name : string) (n : Z) : list string :=
    if n =? 0 then []
    else [name ++ "=" ++ (if n <? 0 then "-" ++ PyStr.of_nonneg (- n)
                          else PyStr.of_nonneg n)] in
  let fix join (l : list string) : string :=
    match l with
    | [] => ""
    | [x] => x
    | x :: l' => x ++ ", " ++ join l'
    end in
  let args := (part "days" days ++ part "seconds" seconds
               ++ part "microseconds" microseconds)%list in
  "datetime.timedelta("
  ++ (match args with [] => "0" | _ => join args end) ++ ")".

(** [timezone(offset)] accepts offsets strictly within a day. *)
Definition timezone (off_us : Z) : result Z :=
  if (- 86400000000 <? off_us) && (off_us <? 86400000000) then Ok off_us
  else value_error
    ("offset must be a timedelta strictly between -timedelta(hours=24) and timedelta(hours=24), not "
     ++ delta_repr off_us ++ ".").

(** [tzinfo_from_isoformat_results]: an offset of zero seconds is
    [timezone.utc], whatever its microseconds. *)
Definition tzinfo_from_isoformat_results (tz : option (Z * Z))
  : result (option Z) :=
  match tz with
  | None => Ok None
  | Some (tzoffset, tz_useconds) =>
      if tzoffset =? 0 then Ok (Some 0)
      else rbind (timezone (tzoffset * 1000000 + tz_useconds))
                 (fun off => Ok (Some off))
  end.

(** [datetime.fromisoformat(date_string)].  A text the parsers refuse
    is [ValueError('Invalid isoformat string: <repr>')]; [repr] is
    Python's [repr] on [str].  Range errors of the zone and of the
    constructor keep their own text.  A date alone is midnight; after
    it one character, of whatever UTF-8 length, is skipped and a time
    has to follow. *)
Definition fromisoformat (repr : string -> string) (date_string : string)
  : result datetime :=
  let invalid {A} : result A :=
    value_error ("Invalid isoformat string: " ++ repr date_string) in
  match parse_isoformat_date date_string with
  | None => invalid
  | Some (year, month, day) =>
      let time :=
        if (10 <? String.length date_string)%nat then
          let sep := nat_of_ascii (deref (PyStr.slice_from 10 date_string)) in
          let skip :=
            if (sep <? 128)%nat then 11%nat
            else if (sep / 16 =? 14)%nat then 13%nat
            else if (sep / 16 =? 15)%nat then 14%nat
            else 12%nat in
          parse_isoformat_time (PyStr.slice_from skip date_string)
        else Some (0, 0, 0, 0, None) in
      match time with
      | None => invalid
      | Some (hour, minute, second, microsecond, tz) =>
          rbind (tzinfo_from_isoformat_results tz) (fun tzinfo =>
            new_datetime year month day hour minute second microsecond
                         tzinfo)
      end
  end.

End Datetime.

(** ** Items, the table and what the handlers get from outside *)

Import Datetime.

#[local] Set Warnings "-register-all".

(** What a table item or a decoded JSON body can hold.  [VNum] is an
    integer, an [int] from JSON or a whole [Decimal] from the table;
    [VFloat] is a [float], which only JSON decoding yields. *)
Inductive value :=
  | VStr (s : string)
  | VNum (n : Z)
  | VFloat (f : spec_float)
  | VBool (b : bool)
  | VNull
  | VList (l : list value)
  | VMap (m : list (string * value)).

(** An item is a Python [dict] from attribute names to values. *)
Abbreviation item := (gmap string value).

(** The table, keyed by its primary key [(task_id, run_at)]. *)
Abbreviation table_t := (gmap (string * string) (gmap string value)).

Definition as_str (v : value) : option string :=
  match v with VStr s => Some s | _ => None end.

(** [v == s] against a string literal: only a [str] can be equal. *)
Definition eq_str (v : value) (s : string) : bool :=
  match v with VStr t => String.eqb t s | _ => false end.

(** Truth value of [v] in [if not v]. *)
Definition truthy (v : value) : bool :=
  match v with
  | VStr s => negb (String.eqb s "")
  | VNum n => negb (n =? 0)
  | VFloat f => match f with S754_zero _ => false | _ => true end
  | VBool b => b
  | VNull => false
  | VList l => match l with [] => false | _ => true end
  | VMap m => match m with [] => false | _ => true end
  end.

(** [type(v).__name__] as error texts quote it; [num] names the class
    numbers arrive in ([decimal.Decimal] from the table, [int] from
    JSON). *)
Definition type_name (num : string) (v : value) : string :=
  match v with
  | VStr _ => "str"
  | VNum _ => num
  | VFloat _ => "float"
  | VBool _ => "bool"
  | VNull => "NoneType"
  | VList _ => "list"
  | VMap _ => "dict"
  end.

Definition no_attribute {A} (num : string) (v : value) (attr : string)
  : result A :=
  Raise (Exn AttributeError
           ("'" ++ type_name num v ++ "' object has no attribute '"
            ++ attr ++ "'")).

(** [d.get(k)] on the entries of a dict. *)
Fixpoint dict_get (k : string) (m : list (string * value)) : option value :=
  match m with
  | [] => None
  | (k', v) :: m' => if String.eqb k k' then Some v else dict_get k m'
  end.

Inductive http_verb := GET | POST.

(** A call [requests.get(url, params=data, headers=headers, timeout=30)]
    or [requests.post(url, json=data, headers=headers, timeout=30)]. *)
Record http_request := mk_request {
  req_verb : http_verb;
  req_url : value;
  req_data : value;
  req_headers : value
}.

(** What a request meets: a response, or an exception of [requests]
    (connection error, timeout, bad URL). *)
Inductive http_outcome :=
  | HttpResponse (status_code : Z) (reason : string) (url : string)
                 (text : string)
  | HttpRaise (e : exn).

Inductive log_level := INFO | WARNING | ERROR.

(** The API Gateway proxy event: the dict [event] without its [body],
    and what [json.loads(event['body'])] gives. *)
Record event := mk_event {
  ev_fields : gmap string value;
  ev_body : result value
}.

(** Everything a run takes from outside the handlers' own code: the
    interpreter's [str] and [repr], the text [json.dumps] gives for an
    event, the text of the signal [decimal] raises for an integer that
    does not fit the table client's context, the clock, the identifiers
    [uuid.uuid4()] draws, the table calls that fail and the answers of
    the webhook endpoints.  The [k]-th call of a kind gets entry [k]. *)
Record host := mk_host {
  py_str : value -> string;
  py_repr : string -> string;
  json_dumps : event -> string;
  decimal_signal : Z -> string;
  utcnow_at : nat -> datetime;
  uuid4_at : nat -> string;
  store_fault : nat -> option exn;
  http_reply : nat -> http_request -> http_outcome
}.

(** The state a run changes; [log] holds the records of the module's
    logger, whose level is [INFO], in the order they are made. *)
Record world := mk_world {
  table : table_t;
  clock_reads : nat;
  uuid_draws : nat;
  store_calls : nat;
  http_sent : list http_request;
  log : list (log_level * string)
}.

Definition set_table (t : table_t) (w : world) : world :=
  mk_world t (clock_reads w) (uuid_draws w) (store_calls w) (http_sent w) (log w).

(** ** Handler code as state-and-exception computations *)

Definition M (A : Type) : Type := world -> result A * world.

Definition ret {A} (a : A) : M A := fun w => (Ok a, w).

Definition raise {A} (e : exn) : M A := fun w => (Raise e, w).

Definition bind {A B} (m : M A) (k : A -> M B) : M B :=
  fun w =>
    match m w with
    | (Ok a, w') => k a w'
    | (Raise e, w') => (Raise e, w')
    end.

(** [try: m except Exception as e: handler(e)]. *)
Definition try_except {A} (m : M A) (handler : exn -> M A) : M A :=
  fun w =>
    match m w with
    | (Ok a, w') => (Ok a, w')
    | (Raise e, w') => handler e w'
    end.

Definition lift {A} (r : result A) : M A := fun w => (r, w).

Declare Scope exec_scope.
Delimit Scope exec_scope with exec.
Notation "x <- m ;; k" := (bind m (fun x => k))
  (at level 100, m at next level, right associativity) : exec_scope.
Notation "m ;;; k" := (bind m (fun _ => k))
  (at level 100, right associativity) : exec_scope.

(** [for x in xs: body(x)]. *)
Fixpoint for_each {A} (body : A -> M unit) (xs : list A) : M unit :=
  match xs with
  | [] => ret tt
  | x :: xs' => bind (body x) (fun _ => for_each body xs')
  end.

Definition log_msg (lvl : log_level) (msg : string) : M unit :=
  fun w => (Ok tt, mk_world (table w) (clock_reads w) (uuid_draws w)
                            (store_calls w) (http_sent w)
                            (log w ++ [(lvl, msg)])).

(** [d[k]] on an item: [KeyError(k)], whose text is [repr(k)]. *)
Definition item_get (it : item) (k : string) : M value :=
  match it !! k with
  | Some v => ret v
  | None => raise (Exn KeyError ("'" ++ k ++ "'"))
  end.

Section WithHost.

Context (h : host).

(** [datetime.utcnow()]: a naive datetime read off the clock. *)
Definition utcnow : M datetime :=
  fun w => (Ok (utcnow_at h (clock_reads w)),
            mk_world (table w) (S (clock_reads w)) (uuid_draws w)
                     (store_calls w) (http_sent w) (log w)).

(** [str(uuid.uuid4())]. *)
Definition uuid4 : M string :=
  fun w => (Ok (uuid4_at h (uuid_draws w)),
            mk_world (table w) (clock_reads w) (S (uuid_draws w))
                     (store_calls w) (http_sent w) (log w)).

(** *** The table client *)

(** What the client does to a value of a call before any request is
    made ([TypeSerializer]): a [float] is refused with [TypeError]; an
    integer goes through [decimal] in a context of 38 digits that traps
    rounding, so one of more digits is refused with the signal raised;
    lists and dicts are walked in order.  [None] when the value is
    taken. *)
Fixpoint refusal (v : value) : option exn :=
  match v with
  | VFloat _ =>
      Some (Exn TypeError
              "Float types are not supported. Use Decimal types instead.")
  | VNum n =>
      if Z.abs n <? 10 ^ 38 then None
      else Some (Exn DecimalException (decimal_signal h n))
  | VList l =>
      (fix first (l : list value) : option exn :=
         match l with
         | [] => None
         | x :: l' =>
             match refusal x with Some e => Some e | None => first l' end
         end) l
  | VMap m =>
      (fix first (m : list (string * value)) : option exn :=
         match m with
         | [] => None
         | kv :: m' =>
             match refusal (snd kv) with
             | Some e => Some e
             | None => first m'
             end
         end) m
  | _ => None
  end.

Fixpoint first_refusal (vs : list value) : option exn :=
  match vs with
  | [] => None
  | v :: vs' =>
      match refusal v with Some e => Some e | None => first_refusal vs' end
  end.

(** The values of a call, serialised in the order the call lists
    them. *)
Definition serialize (vs : list value) : M unit :=
  match first_refusal vs with
  | Some e => raise e
  | None => ret tt
  end.

(** Every request to the table is counted and may fail as the host
    says. *)
Definition table_call : M unit :=
  fun w =>
    let w' := mk_world (table w) (clock_reads w) (uuid_draws w)
                       (S (store_calls w)) (http_sent w) (log w) in
    match store_fault h (store_calls w) with
    | Some e => (Raise e, w')
    | None => (Ok tt, w')
    end.

Definition validation_exception {A} (msg : string) : M A :=
  raise (Exn ClientError
           ("An error occurred (ValidationException): " ++ msg)).

(** The two key attributes are strings in the schema, and the service
    takes no empty string for a key. *)
Definition key_of (task_id run_at : value) : M (string * string) :=
  match task_id, run_at with
  | VStr t, VStr r =>
      if String.eqb t "" || String.eqb r "" then
        validation_exception "empty string value for a key attribute"
      else ret (t, r)
  | _, _ =>
      validation_exception "the provided key element does not match the schema"
  end.

Definition set_attrs (sets : list (string * value)) (it : item) : item :=
  fold_left (fun acc kv => <[kv.1 := kv.2]> acc) sets it.

(** [table.update_item(Key=.., UpdateExpression="SET a = :a, ...")]:
    the named attributes are written into the item under the key;
    when there is no such item the call creates one holding the key
    and those attributes. *)
Definition update_item (task_id run_at : value)
           (sets : list (string * value)) : M unit :=
  (serialize ([task_id; run_at] ++ (snd <$> sets)) ;;;
   table_call ;;;
   k <- key_of task_id run_at ;;
   fun w =>
     let old :=
       default (<["task_id" := task_id]> (<["run_at" := run_at]> ∅))
               (table w !! k) in
     (Ok tt, set_table (<[k := set_attrs sets old]> (table w)) w))%exec.

(** [table.put_item(Item=it)]: insert or replace the whole item under
    its key.  [names] lists the attributes in the order the dict holds
    them, which is the order they are serialised in.  [status] keys the
    secondary index, so it has to be a string when present. *)
Definition put_item (names : list string) (it : item) : M unit :=
  (serialize (omap (fun a => it !! a) names) ;;;
   table_call ;;;
   match it !! "task_id", it !! "run_at" with
   | Some t, Some r =>
       k <- key_of t r ;;
       match it !! "status" with
       | Some (VStr _) | None =>
           fun w => (Ok tt, set_table (<[k := it]> (table w)) w)
       | Some _ =>
           validation_exception "type mismatch for an index key"
       end
   | _, _ => validation_exception "missing the key of the item"
   end)%exec.

Definition run_at_of (it : item) : string :=
  default "" (it !! "run_at" ≫= as_str).

Fixpoint insert_by_run_at (it : item) (l : list item) : list item :=
  match l with
  | [] => [it]
  | x :: l' =>
      if String.leb (run_at_of x) (run_at_of it)
      then x :: insert_by_run_at it l'
      else it :: x :: l'
  end.

Definition sort_by_run_at (l : list item) : list item :=
  fold_right insert_by_run_at [] l.

Definition in_status_index (status bound : string) (it : item) : bool :=
  match it !! "status", it !! "run_at" with
  | Some (VStr st), Some (VStr r) => String.eqb st status && String.leb r bound
  | _, _ => false
  end.

(** [table.query(IndexName='status-index',
    KeyConditionExpression='#status = :status AND #run_at <= :current_time')]
    then [response.get('Items', [])]: the items of the index partition
    [status] whose sort key [run_at], compared as a string, is at most
    the bound, in ascending [run_at] (one page of results). *)
Definition query_status_index (status bound : string) : M (list item) :=
  (table_call ;;;
   fun w =>
     (Ok (sort_by_run_at
            (filter (fun it => in_status_index status bound it = true)
                    (snd <$> map_to_list (table w)))), w))%exec.

End WithHost.

(** ** [executor_handler.py] *)

Section Executor.

Context (h : host).

Local Open Scope exec_scope.

(** The attributes the [SET] expression of [update_task_status]
    names, with their values: [error_message] joins the update only
    when it is truthy, that is, given and not the empty string. *)
Definition status_update (status stamp : string)
           (error_message : option string) : list (string * value) :=
  let values := [("status", VStr status); ("updated_at", VStr stamp)] in
  match error_message with
  | Some msg =>
      if truthy (VStr msg)
      then (values ++ [("error_message", VStr msg)])%list
      else values
  | None => values
  end.

(** [update_task_status(task_id, run_at, status, error_message=None)].
    [updated_at] is read off the clock while the values are put
    together. *)
Definition update_task_status (task_id run_at : value) (status : string)
           (error_message : option string) : M unit :=
  now <- utcnow h ;;
  update_item h task_id run_at
    (status_update status (isoformat now ++ "Z") error_message) ;;;
  log_msg INFO ("Updated task " ++ py_str h task_id ++ " status to "
                ++ status).

(** [payload.get(k, default)]; a payload that is no dict has no
    [get]. *)
Definition payload_get (payload : value) (k : string) (dflt : value)
  : M value :=
  match payload with
  | VMap m => ret (default dflt (dict_get k m))
  | _ => lift (no_attribute "decimal.Decimal" payload "get")
  end.

(** [requests.get(...)] or [requests.post(...)]: the request is sent
    and meets what the host holds for it. *)
Definition send (rq : http_request) : M http_outcome :=
  fun w =>
    (Ok (http_reply h (length (http_sent w)) rq),
     mk_world (table w) (clock_reads w) (uuid_draws w) (store_calls w)
              (http_sent w ++ [rq]) (log w)).

(** [response.raise_for_status()]. *)
Definition raise_for_status (status_code : Z) (reason url : string)
  : M unit :=
  if (400 <=? status_code) && (status_code <? 500) then
    raise (Exn RequestException
             (PyStr.of_nonneg status_code ++ " Client Error: " ++ reason
              ++ " for url: " ++ url))
  else if (500 <=? status_code) && (status_code <? 600) then
    raise (Exn RequestException
             (PyStr.of_nonneg status_code ++ " Server Error: " ++ reason
              ++ " for url: " ++ url))
  else ret tt.

(** [execute_webhook(payload)]. *)
Definition execute_webhook (payload : value) : M Z :=
  url <- payload_get payload "url" VNull ;;
  data <- payload_get payload "data" (VMap []) ;;
  method <- payload_get payload "method" (VStr "POST") ;;
  headers <- payload_get payload "headers"
               (VMap [("Content-Type", VStr "application/json")]) ;;
  if negb (truthy url) then
    raise (Exn ValueError "Webhook URL is required")
  else
    log_msg INFO ("Making " ++ py_str h method ++ " request to "
                  ++ py_str h url) ;;;
    match method with
    | VStr m =>
        let verb :=
          if String.eqb (PyStr.upper m) "GET" then GET else POST in
        out <- send (mk_request verb url data headers) ;;
        match out with
        | HttpRaise e => raise e
        | HttpResponse status_code reason rurl text =>
            raise_for_status status_code reason rurl ;;;
            log_msg INFO ("Webhook response: " ++ py_str h (VNum status_code)
                          ++ "| " ++ text) ;;;
            ret status_code
        end
    | _ => lift (no_attribute "decimal.Decimal" method "upper")
    end.

(** [execute_message(payload)]: reads the two fields, logs them and
    returns [True]; nothing is sent. *)
Definition execute_message (payload : value) : M bool :=
  message <- payload_get payload "message" (VStr "") ;;
  recipient <- payload_get payload "recipient" (VStr "") ;;
  log_msg INFO ("Sending message to " ++ py_str h recipient ++ ": "
                ++ py_str h message) ;;;
  ret true.

(** The three recurrence patterns of [schedule_next_occurrence], each
    a [replace] of the parsed [run_at]; [None] for any other tag. *)
Definition next_run (recurrence : value) (current_time : datetime)
  : option (result datetime) :=
  if eq_str recurrence "daily" then
    Some (Datetime.replace current_time None None
                           (Some (day current_time + 1)))
  else if eq_str recurrence "weekly" then
    Some (Datetime.replace current_time None None
                           (Some (day current_time + 7)))
  else if eq_str recurrence "monthly" then
    if month current_time =? 12 then
      Some (Datetime.replace current_time (Some (year current_time + 1))
                             (Some 1) None)
    else
      Some (Datetime.replace current_time None
                             (Some (month current_time + 1)) None)
  else None.

(** [datetime.fromisoformat(run_at.replace('Z', '+00:00'))]. *)
Definition parse_run_at (run_at : value) : result datetime :=
  match run_at with
  | VStr r => fromisoformat (py_repr h) (PyStr.replace "Z" "+00:00" r)
  | _ => no_attribute "decimal.Decimal" run_at "replace"
  end.

(** The dict [new_task] that [schedule_next_occurrence] builds. *)
Definition new_task (task_id recurrence action payload : value)
           (new_task_id next_run_at created_at updated_at : string) : item :=
  <["task_id" := VStr new_task_id]> (
  <["action" := action]> (
  <["payload" := payload]> (
  <["run_at" := VStr next_run_at]> (
  <["status" := VStr "scheduled"]> (
  <["recurrence" := recurrence]> (
  <["created_at" := VStr created_at]> (
  <["updated_at" := VStr updated_at]> (
  <["parent_task_id" := task_id]> ∅)))))))).

(** [schedule_next_occurrence(task)]. *)
Definition schedule_next_occurrence (task : item) : M unit :=
  recurrence <- item_get task "recurrence" ;;
  task_id <- item_get task "task_id" ;;
  run_at <- item_get task "run_at" ;;
  current_time <- lift (parse_run_at run_at) ;;
  match next_run recurrence current_time with
  | None =>
      log_msg WARNING
        ("Unsupported recurrence pattern: " ++ py_str h recurrence)
  | Some r =>
      next <- lift r ;;
      let next_run_at := PyStr.replace "+00:00" "Z" (isoformat next) in
      let new_task_id := py_str h task_id ++ "-" ++ next_run_at in
      action <- item_get task "action" ;;
      payload <- item_get task "payload" ;;
      created <- utcnow h ;;
      updated <- utcnow h ;;
      put_item h ["task_id"; "action"; "payload"; "run_at"; "status";
                  "recurrence"; "created_at"; "updated_at"; "parent_task_id"]
               (new_task task_id recurrence action payload
                         new_task_id next_run_at
                         (isoformat created ++ "Z")
                         (isoformat updated ++ "Z")) ;;;
      log_msg INFO ("Scheduled next occurrence of task " ++ py_str h task_id
                    ++ " as " ++ new_task_id ++ " at " ++ next_run_at)
  end.

(** The [if]/[elif]/[else] on the action inside [execute_task]:
    [true] when a strategy ran and the code goes on to [completed],
    [false] for the branch that writes [failed] and returns. *)
Definition dispatch (task_id run_at action payload : value) : M bool :=
  if eq_str action "webhook" then
    execute_webhook payload ;;; ret true
  else if eq_str action "message" then
    execute_message payload ;;; ret true
  else
    log_msg WARNING ("Unsupported action type: " ++ py_str h action) ;;;
    update_task_status task_id run_at "failed"
      (Some ("Unsupported action type: " ++ py_str h action)) ;;;
    ret false.

(** The body of the [try] in [execute_task]. *)
Definition execute_task_body (task : item)
           (task_id run_at action payload : value) : M unit :=
  update_task_status task_id run_at "running" None ;;;
  dispatched <- dispatch task_id run_at action payload ;;
  if dispatched then
    update_task_status task_id run_at "completed" None ;;;
    match task !! "recurrence" with
    | Some _ => schedule_next_occurrence task
    | None => ret tt
    end
  else ret tt.

(** [execute_task(task)]: the four reads come before the [try]; the
    [except] clause logs and writes [failed] with [str(e)]. *)
Definition execute_task (task : item) : M unit :=
  task_id <- item_get task "task_id" ;;
  run_at <- item_get task "run_at" ;;
  action <- item_get task "action" ;;
  payload <- item_get task "payload" ;;
  log_msg INFO ("Executing task " ++ py_str h task_id ++ " with action "
                ++ py_str h action) ;;;
  try_except
    (execute_task_body task task_id run_at action payload)
    (fun e =>
       log_msg ERROR ("Task execution failed: " ++ exn_msg e) ;;;
       update_task_status task_id run_at "failed" (Some (exn_msg e))).

(** What a handler returns; [body] is the object it hands to
    [json.dumps]. *)
Record response := mk_response { statusCode : Z; body : value }.

(** [handler(event, context)] of the executor: one tick. *)
Definition handler : M response :=
  log_msg INFO "Starting task execution check" ;;;
  try_except
    (now <- utcnow h ;;
     shifted <- lift (add_timedelta now (timedelta 5 30)) ;;
     let current_time := strftime_YmdTHMSZ shifted in
     log_msg INFO ("Current time: " ++ current_time) ;;;
     tasks <- query_status_index h "scheduled" current_time ;;
     log_msg INFO ("Found " ++ PyStr.of_nonneg (Z.of_nat (length tasks))
                   ++ " tasks to execute") ;;;
     for_each execute_task tasks ;;;
     ret (mk_response 200
            (VMap [("message",
                    VStr ("Processed "
                          ++ PyStr.of_nonneg (Z.of_nat (length tasks))
                          ++ " tasks"));
                   ("timestamp", VStr current_time)])))
    (fun e =>
       log_msg ERROR ("Error: " ++ exn_msg e) ;;;
       ret (mk_response 500 (VMap [("error", VStr (exn_msg e))]))).

End Executor.

(** ** [schedule_task] of [api_handler.py] *)

Section Api.

Context (h : host).

Local Open Scope exec_scope.

(** [field not in body], negated: key lookup on a dict, element
    equality on a list, substring on a string; other values are not
    iterable. *)
Definition contains (body : value) (field : string) : M bool :=
  match body with
  | VMap m => ret (bool_decide (is_Some (dict_get field m)))
  | VList l => ret (existsb (fun v => eq_str v field) l)
  | VStr s => ret (bool_decide (is_Some (String.index 0 field s)))
  | _ =>
      raise (Exn TypeError
               ("argument of type '" ++ type_name "int" body
                ++ "' is not iterable"))
  end.

(** [body[k]] with a string [k]. *)
Definition subscript (body : value) (k : string) : M value :=
  match body with
  | VMap m =>
      match dict_get k m with
      | Some v => ret v
      | None => raise (Exn KeyError ("'" ++ k ++ "'"))
      end
  | VList _ =>
      raise (Exn TypeError "list indices must be integers or slices, not str")
  | VStr _ => raise (Exn TypeError "string indices must be integers")
  | _ =>
      raise (Exn TypeError
               ("'" ++ type_name "int" body ++ "' object is not subscriptable"))
  end.

(** The loop over [required_fields]: the first missing one, if any. *)
Fixpoint first_missing (body : value) (fields : list string)
  : M (option string) :=
  match fields with
  | [] => ret None
  | f :: fs =>
      present <- contains body f ;;
      if present then first_missing body fs else ret (Some f)
  end.

Definition error_body (msg : string) : value := VMap [("error", VStr msg)].

(** The inner [try] of [schedule_task]: only [ValueError] is caught
    there.  [inl] is the 400 it returns, [inr] the accepted [run_at]. *)
Definition check_run_at (body : value) : M (response + value) :=
  fun w =>
    match
      (run_at <- subscript body "run_at" ;;
       match run_at with
       | VStr r =>
           lift (fromisoformat (py_repr h) (PyStr.replace "Z" "+00:00" r)) ;;;
           ret run_at
       | _ => lift (no_attribute "int" run_at "replace")
       end) w
    with
    | (Ok run_at, w') => (Ok (inr run_at), w')
    | (Raise e, w') =>
        match exn_cls e with
        | ValueError =>
            (Ok (inl (mk_response 400 (error_body
               "Invalid run_at format. Use ISO8601 format (YYYY-MM-DDTHH:MM:SSZ)"))),
             w')
        | _ => (Raise e, w')
        end
    end.

(** The dict [task_item] that [schedule_task] starts from. *)
Definition task_item (task_id : string) (action payload run_at : value)
           (current_time : string) : item :=
  <["task_id" := VStr task_id]> (
  <["action" := action]> (
  <["payload" := payload]> (
  <["run_at" := run_at]> (
  <["status" := VStr "scheduled"]> (
  <["created_at" := VStr current_time]> (
  <["updated_at" := VStr current_time]> ∅)))))).

(** [schedule_task(event)]; [loaded] is what
    [json.loads(event['body'])] gives. *)
Definition schedule_task (loaded : result value) : M response :=
  fun w =>
    match
      (body <- lift loaded ;;
       missing <- first_missing body ["action"; "payload"; "run_at"] ;;
       match missing with
       | Some field =>
           ret (mk_response 400
                  (error_body ("Missing required field: " ++ field)))
       | None =>
           task_id <- uuid4 h ;;
           checked <- check_run_at body ;;
           match checked with
           | inl resp => ret resp
           | inr run_at =>
               now <- utcnow h ;;
               let current_time := isoformat now ++ "Z" in
               action <- subscript body "action" ;;
               payload <- subscript body "payload" ;;
               let task_item := task_item task_id action payload run_at
                                          current_time in
               has_recurrence <- contains body "recurrence" ;;
               task_item <-
                 (if has_recurrence then
                    recurrence <- subscript body "recurrence" ;;
                    ret (<["recurrence" := recurrence]> task_item)
                  else ret task_item) ;;
               put_item h ["task_id"; "action"; "payload"; "run_at";
                           "status"; "created_at"; "updated_at";
                           "recurrence"] task_item ;;;
               ret (mk_response 201
                      (VMap [("message", VStr "Task scheduled successfully");
                             ("task_id", VStr task_id)]))
           end
       end) w
    with
    | (Ok resp, w') => (Ok resp, w')
    | (Raise e, w') =>
        match exn_cls e with
        | ClientError =>
            (log_msg ERROR ("DynamoDB error: " ++ exn_msg e) ;;;
             ret (mk_response 500 (error_body "Failed to schedule task"))) w'
        | _ =>
            (log_msg ERROR ("Error: " ++ exn_msg e) ;;;
             ret (mk_response 500 (error_body (exn_msg e)))) w'
        end
    end.

End Api.

(** ** The read and delete routes and the router of [api_handler.py] *)

(** An item as the object [json.dumps(..., cls=DecimalEncoder)] is
    given; integers stay integers under [DecimalEncoder]. *)
Definition item_value (it : item) : value := VMap (map_to_list it).

Section ApiRoutes.

Context (h : host).

Local Open Scope exec_scope.

(** [d.get(k, default)] on a value of the API side. *)
Definition value_get (d : value) (k : string) (dflt : value) : M value :=
  match d with
  | VMap m => ret (default dflt (dict_get k m))
  | _ => lift (no_attribute "int" d "get")
  end.

Fixpoint insert_by_sort_key (kv : string * string * item)
         (l : list (string * string * item)) : list (string * string * item) :=
  match l with
  | [] => [kv]
  | x :: l' =>
      if String.leb (snd (fst x)) (snd (fst kv))
      then x :: insert_by_sort_key kv l'
      else kv :: x :: l'
  end.

Definition sort_by_sort_key (l : list (string * string * item))
  : list (string * string * item) :=
  fold_right insert_by_sort_key [] l.

(** [table.query(KeyConditionExpression='task_id = :task_id')] then
    [response.get('Items', [])]: the items of the partition [task_id] in
    ascending sort key [run_at] (one page of results). *)
Definition query_task_id (task_id : value) : M (list item) :=
  serialize h [task_id] ;;;
  table_call h ;;;
  match task_id with
  | VStr t =>
      if String.eqb t "" then
        validation_exception "empty string value for a key attribute"
      else
        fun w =>
          (Ok (snd <$> sort_by_sort_key
                 (filter (fun kv => fst (fst kv) = t) (map_to_list (table w)))),
           w)
  | _ => validation_exception "the condition parameter does not match the schema"
  end.

Definition in_status_partition (status : string) (it : item) : bool :=
  match it !! "status", it !! "run_at" with
  | Some (VStr st), Some (VStr _) => String.eqb st status
  | _, _ => false
  end.

(** [table.query(IndexName='status-index',
    KeyConditionExpression='#status = :status')] then
    [response.get('Items', [])]. *)
Definition query_status (status : value) : M (list item) :=
  serialize h [status] ;;;
  table_call h ;;;
  match status with
  | VStr st =>
      if String.eqb st "" then
        validation_exception "empty string value for a key attribute"
      else
        fun w =>
          (Ok (sort_by_run_at
                 (filter (fun it => in_status_partition st it = true)
                         (snd <$> map_to_list (table w)))), w)
  | _ => validation_exception "the condition parameter does not match the schema"
  end.

(** [table.scan()] then [response.get('Items', [])]: every item, in the
    order the table hands them out (one page of results). *)
Definition scan : M (list item) :=
  table_call h ;;;
  fun w => (Ok (snd <$> map_to_list (table w)), w).

(** [table.delete_item(Key=..)]: the item under the key goes, if there
    is one. *)
Definition delete_item (task_id run_at : value) : M unit :=
  serialize h [task_id; run_at] ;;;
  table_call h ;;;
  k <- key_of task_id run_at ;;
  fun w => (Ok tt, set_table (delete k (table w)) w).

(** The [except Exception] clause the three routes share. *)
Definition answer_500 (e : exn) : M response :=
  log_msg ERROR ("Error: " ++ exn_msg e) ;;;
  ret (mk_response 500 (error_body (exn_msg e))).

(** [list_tasks(event)]. *)
Definition list_tasks (ev : event) : M response :=
  try_except
    (let got := default (VMap []) (ev_fields ev !! "queryStringParameters") in
     let query_params := if truthy got then got else VMap [] in
     status_filter <- value_get query_params "status" VNull ;;
     tasks <- (if truthy status_filter then query_status status_filter
               else scan) ;;
     ret (mk_response 200 (VMap [("tasks", VList (item_value <$> tasks))])))
    answer_500.

(** [event['pathParameters']['task_id']]. *)
Definition path_task_id (ev : event) : M value :=
  params <- item_get (ev_fields ev) "pathParameters" ;;
  subscript params "task_id".

(** [get_task(event)]. *)
Definition get_task (ev : event) : M response :=
  try_except
    (task_id <- path_task_id ev ;;
     tasks <- query_task_id task_id ;;
     match tasks with
     | [] => ret (mk_response 404 (error_body "Task not found"))
     | first :: _ =>
         ret (mk_response 200 (VMap [("task", item_value first)]))
     end)
    answer_500.

(** [delete_task(event)]. *)
Definition delete_task (ev : event) : M response :=
  try_except
    (task_id <- path_task_id ev ;;
     tasks <- query_task_id task_id ;;
     match tasks with
     | [] => ret (mk_response 404 (error_body "Task not found"))
     | first :: _ =>
         run_at <- item_get first "run_at" ;;
         delete_item task_id run_at ;;;
         ret (mk_response 200
                (VMap [("message", VStr "Task deleted successfully")]))
     end)
    answer_500.

(** [handler(event, context)] of the API: the router.  The two reads of
    the event are outside any [try]. *)
Definition api_handler (ev : event) : M response :=
  log_msg INFO ("Event: " ++ json_dumps h ev) ;;;
  http_method <- item_get (ev_fields ev) "httpMethod" ;;
  resource_path <- item_get (ev_fields ev) "resource" ;;
  if eq_str http_method "POST" && eq_str resource_path "/tasks" then
    schedule_task h (ev_body ev)
  else if eq_str http_method "GET" && eq_str resource_path "/tasks" then
    list_tasks ev
  else if eq_str http_method "GET" && eq_str resource_path "/tasks/{task_id}" then
    get_task ev
  else if eq_str http_method "DELETE" && eq_str resource_path "/tasks/{task_id}" then
    delete_task ev
  else
    ret (mk_response 400 (error_body "Unsupported route")).

End ApiRoutes.

(** ** Vocabulary of the statements *)

(** The item a write lands on: the stored one, or the bare key. *)
Definition target_item (w : world) (t r : string) : item :=
  default (<["task_id" := VStr t]> (<["run_at" := VStr r]> ∅))
          (table w !! (t, r)).

(** The [updated_at] text a write made in world [w] carries. *)
Definition stamp_at (h : host) (w : world) : string :=
  isoformat (utcnow_at h (clock_reads w)) ++ "Z".

(** The records [execute_task] and [update_task_status] log at
    [INFO]. *)
Definition executing (h : host) (task_id action : value)
  : log_level * string :=
  (INFO, "Executing task " ++ py_str h task_id ++ " with action "
         ++ py_str h action).

Definition updated (h : host) (task_id : value) (status : string)
  : log_level * string :=
  (INFO, "Updated task " ++ py_str h task_id ++ " status to " ++ status).

(** The record of [execute_message] for a payload with entries [p],
    the two of [execute_webhook], and the one of
    [schedule_next_occurrence]. *)
Definition sending (h : host) (p : list (string * value))
  : log_level * string :=
  (INFO, "Sending message to "
         ++ py_str h (default (VStr "") (dict_get "recipient" p)) ++ ": "
         ++ py_str h (default (VStr "") (dict_get "message" p))).

Definition making (h : host) (p : list (string * value))
  : log_level * string :=
  (INFO, "Making " ++ py_str h (default (VStr "POST") (dict_get "method" p))
         ++ " request to " ++ py_str h (default VNull (dict_get "url" p))).

Definition webhook_response (h : host) (status_code : Z) (text : string)
  : log_level * string :=
  (INFO, "Webhook response: " ++ py_str h (VNum status_code) ++ "| " ++ text).

Definition scheduled_next (h : host) (parent : value)
           (new_task_id next_run_at : string) : log_level * string :=
  (INFO, "Scheduled next occurrence of task " ++ py_str h parent ++ " as "
         ++ new_task_id ++ " at " ++ next_run_at).

(** The world after a status write that the store accepts, its record
    in the log included. *)
Definition after_status_write (h : host) (w : world) (t r status : string)
           (msg : option string) : world :=
  mk_world
    (<[(t, r) := set_attrs (status_update status (stamp_at h w) msg)
                           (target_item w t r)]> (table w))
    (S (clock_reads w)) (uuid_draws w) (S (store_calls w))
    (http_sent w)
    (log w ++ [updated h (VStr t) status]).

(** The status an item of the table shows. *)
Definition status_of (w : world) (task_id run_at : string) : option value :=
  table w !! (task_id, run_at) ≫= (.!! "status").

Definition error_message_of (w : world) (task_id run_at : string)
  : option value :=
  table w !! (task_id, run_at) ≫= (.!! "error_message").

(** The [run_at] of the successor of [task], when its recurrence is one
    of the three patterns and the date arithmetic goes through. *)
Definition next_run_at_of (h : host) (task : item) : option string :=
  match task !! "recurrence", task !! "run_at" with
  | Some recurrence, Some run_at =>
      match parse_run_at h run_at with
      | Ok current_time =>
          match next_run recurrence current_time with
          | Some (Ok next) => Some (PyStr.replace "+00:00" "Z" (isoformat next))
          | _ => None
          end
      | Raise _ => None
      end
  | _, _ => None
  end.

(** The [task_id] of a successor, from its parent's and its [run_at]. *)
Definition successor_id (h : host) (parent : value) (next_run_at : string)
  : string :=
  py_str h parent ++ "-" ++ next_run_at.


(** The fields of a datetime are in the ranges the constructor asks
    for. *)
Definition valid_datetime (dt : datetime) : Prop :=
  1 <= year dt <= 9999 /\ 1 <= month dt <= 12
  /\ 1 <= day dt <= days_in_month (year dt) (month dt)
  /\ 0 <= hour dt <= 23 /\ 0 <= minute dt <= 59 /\ 0 <= second dt <= 59
  /\ 0 <= microsecond dt <= 999999.

(** [dt] with another date and the same time of day and zone. *)
Definition on_date (dt : datetime) (y m d : Z) : datetime :=
  mk_datetime y m d (hour dt) (minute dt) (second dt) (microsecond dt)
              (tzinfo dt).

Definition day_out_of_range : exn :=
  Exn ValueError "day is out of range for month".

(** A computation changes the table at keys in [K] only, whatever the
    world it starts in and however it ends. *)
Definition touches_only {A} (K : string * string -> Prop) (m : M A) : Prop :=
  forall (w : world) (k : string * string),
    ~ K k -> table (snd (m w)) !! k = table w !! k.

(** [k] is the key the four reads of [execute_task] give for [task]. *)
Definition own_key (task : item) (k : string * string) : Prop :=
  task !! "task_id" = Some (VStr (fst k))
  /\ task !! "run_at" = Some (VStr (snd k)).

(** [k] is the key under which the expansion of [task] puts its
    successor. *)
Definition successor_key (h : host) (task : item) (k : string * string)
  : Prop :=
  exists parent : value,
    task !! "task_id" = Some parent
    /\ next_run_at_of h task = Some (snd k)
    /\ fst k = successor_id h parent (snd k).

(** The timestamp a tick started in [w] compares [run_at] with. *)
Definition tick_bound (h : host) (w : world) : option string :=
  match add_timedelta (utcnow_at h (clock_reads w)) (timedelta 5 30) with
  | Ok shifted => Some (strftime_YmdTHMSZ shifted)
  | Raise _ => None
  end.

(** The exception [execute_webhook] ends with for what a request met:
    the one [requests] raised, or the [HTTPError] of
    [raise_for_status] for a 4xx or 5xx answer. *)
Inductive reply_raises : http_outcome -> exn -> Prop :=
  | raises_exn (e : exn) : reply_raises (HttpRaise e) e
  | raises_client_error (c : Z) (reason url text : string) :
      400 <= c < 500 ->
      reply_raises (HttpResponse c reason url text)
                   (Exn RequestException
                        (PyStr.of_nonneg c ++ " Client Error: " ++ reason
                         ++ " for url: " ++ url))
  | raises_server_error (c : Z) (reason url text : string) :
      500 <= c < 600 ->
      reply_raises (HttpResponse c reason url text)
                   (Exn RequestException
                        (PyStr.of_nonneg c ++ " Server Error: " ++ reason
                         ++ " for url: " ++ url)).

(** The request [execute_webhook] makes for a payload with entries [p]
    whose [method] is the string [m]: [GET] when [m] upper-cases to
    ["GET"], [POST] for every other method. *)
Definition request_for (p : list (string * value)) (m : string) : http_request :=
  mk_request (if String.eqb (PyStr.upper m) "GET" then GET else POST)
             (default VNull (dict_get "url" p))
             (default (VMap []) (dict_get "data" p))
             (default (VMap [("Content-Type", VStr "application/json")])
                      (dict_get "headers" p)).

(** [w] with one more request sent. *)
Definition after_request (w : world) (rq : http_request) : world :=
  mk_world (table w) (clock_reads w) (uuid_draws w) (store_calls w)
           (http_sent w ++ [rq]) (log w).

(** The item [schedule_task] puts for a body with entries [m] whose
    [action], [payload] and [run_at] are the given ones, when started
    in [w]. *)
Definition created_item (h : host) (w : world) (m : list (string * value))
           (action payload : value) (r : string) : item :=
  let base := task_item (uuid4_at h (uuid_draws w)) action payload (VStr r)
                        (stamp_at h w) in
  match dict_get "recurrence" m with
  | Some rec => <["recurrence" := rec]> base
  | None => base
  end.

(** [w] after [schedule_task] drew its identifier and read the clock. *)
Definition before_put (w : world) : world :=
  mk_world (table w) (S (clock_reads w)) (S (uuid_draws w)) (store_calls w)
           (http_sent w) (log w).

(** The answer of [schedule_task] when the put went through. *)
Definition created_response (h : host) (w : world) : response :=
  mk_response 201
    (VMap [("message", VStr "Task scheduled successfully");
           ("task_id", VStr (uuid4_at h (uuid_draws w)))]).

(** [w] with one more record in the log. *)
Definition after_log (w : world) (lvl : log_level) (msg : string) : world :=
  mk_world (table w) (clock_reads w) (uuid_draws w) (store_calls w)
           (http_sent w) (log w ++ [(lvl, msg)]).

(** No item of the table has [t] as its [task_id] key. *)
Definition no_task_with (t : string) (tbl : table_t) : Prop :=
  forall (k : string * string) (it : item), tbl !! k = Some it -> fst k ≠ t.

(** [it], under [(t, r)], is the one item of the table with [t] as its
    [task_id] key. *)
Definition only_task_with (t r : string) (it : item) (tbl : table_t) : Prop :=
  tbl !! (t, r) = Some it
  /\ forall (k : string * string) (it' : item),
       tbl !! k = Some it' -> fst k = t -> k = (t, r).

(** The event of a request on [/tasks/{task_id}]. *)
Definition path_event (task_id : string) : event :=
  mk_event {["pathParameters" := VMap (("task_id", VStr task_id) :: nil)]}
           (Raise (Exn TypeError "the JSON object must be str, bytes or bytearray, not NoneType")).

(** The event names [t] as [pathParameters.task_id]. *)
Definition names_task (ev : event) (t : string) : Prop :=
  exists pm : list (string * value),
    ev_fields ev !! "pathParameters" = Some (VMap pm)
    /\ dict_get "task_id" pm = Some (VStr t).

(** [w] after one more call to the table. *)
Definition after_call (w : world) : world :=
  mk_world (table w) (clock_reads w) (uuid_draws w) (S (store_calls w))
           (http_sent w) (log w).

Definition not_found : response :=
  mk_response 404 (error_body "Task not found").

(** The event asks for no status filter: the query parameters are
    absent, null or a dict, and in the last case [status] is absent,
    null or the empty string. *)
Definition no_status_filter (ev : event) : Prop :=
  ev_fields ev !! "queryStringParameters" = None
  \/ ev_fields ev !! "queryStringParameters" = Some VNull
  \/ exists qm : list (string * value),
       ev_fields ev !! "queryStringParameters" = Some (VMap qm)
       /\ (dict_get "status" qm = None
           \/ dict_get "status" qm = Some VNull
           \/ dict_get "status" qm = Some (VStr "")).

(** The answer of [list_tasks] for a list of items. *)
Definition listed (tasks : list item) : response :=
  mk_response 200 (VMap [("tasks", VList (item_value <$> tasks))]).

(** The [w] low decimal digits of [n], most significant first, in
    front of [acc]: the text ["%0<w>d" % n] of an [n] below [10^w]. *)
Fixpoint digits (w : nat) (n : Z) (acc : string) : string :=
  match w with
  | O => acc
  | S k => digits k (n / 10) (String (PyStr.digit_char (n mod 10)) acc)
  end.

(** The shape of what [isoformat] prints: [YYYY-MM-DD] and
    [HH:MM:SS[.ffffff]], each in front of the rest of the text. *)
Definition date_digits (y m d : Z) (rest : string) : string :=
  digits 4 y (String "-" (digits 2 m (String "-" (digits 2 d rest)))).

Definition time_digits (h mi s us : Z) (rest : string) : string :=
  digits 2 h (String ":" (digits 2 mi (String ":" (digits 2 s
    (if us =? 0 then rest else String "." (digits 6 us rest)))))).

(** ** Concrete runs *)

(** [str] for the hosts of the runs below: exact on strings, integers,
    booleans and [None], which is all these runs print; containers are
    abbreviated. *)
Definition sample_str (v : value) : string :=
  match v with
  | VStr s => s
  | VNum n => if n <? 0 then "-" ++ PyStr.of_nonneg (- n) else PyStr.of_nonneg n
  | VFloat _ => "1.5"
  | VBool b => if b then "True" else "False"
  | VNull => "None"
  | VList _ => "[...]"
  | VMap _ => "{...}"
  end.

Definition sample_uuid : string := "0b5c1d9e-7a43-4f0e-9d2b-3c6f5a8e1b47".

(** A host whose clock stands at [now], whose table fails as [fault]
    says and whose endpoints answer 200. *)
Definition sample_host (now : datetime) (fault : nat -> option exn) : host :=
  mk_host sample_str (fun s => "'" ++ s ++ "'") (fun _ => "{...}")
          (fun _ => "[<class 'decimal.Rounded'>]") (fun _ => now)
          (fun _ => sample_uuid) fault
          (fun _ _ => HttpResponse 200 "OK" "" "ok").

Definition no_fault : nat -> option exn := fun _ => None.

Definition mk_task (task_id action : string) (payload : value) (run_at : string)
           (recurrence : option string) : item :=
  let base : item :=
    <["task_id" := VStr task_id]> (
    <["action" := VStr action]> (
    <["payload" := payload]> (
    <["run_at" := VStr run_at]> (
    <["status" := VStr "scheduled"]> (
    <["created_at" := VStr "2023-12-01T00:00:00Z"]> (
    <["updated_at" := VStr "2023-12-01T00:00:00Z"]> ∅)))))) in
  match recurrence with
  | Some r => <["recurrence" := VStr r]> base
  | None => base
  end.

Definition table_of (tasks : list item) : table_t :=
  foldr (fun it t => <[(sample_str (default VNull (it !! "task_id")), run_at_of it) := it]> t) ∅ tasks.

Definition world_of (tasks : list item) : world :=
  mk_world (table_of tasks) 0 0 0 [] [].

(** A message task due on the last day of January, and the hosts of
    the runs below. *)
Definition jan31 : string := "2024-01-31T10:00:00Z".

Definition daily_jan31 : item :=
  mk_task "t1" "message" (VMap []) jan31 (Some "daily").

Definition monthly_jan31 : item :=
  mk_task "t1" "message"
          (VMap [("recipient", VStr "ops"); ("message", VStr "report")])
          jan31 (Some "monthly").

Definition monthly_dec15 : item :=
  mk_task "t2" "message" (VMap []) "2024-12-15T10:00:00Z" (Some "monthly").

Definition daily_jan01 : item :=
  mk_task "t3" "message" (VMap []) "2024-01-01T00:00:00Z" (Some "daily").

(** The clock stands at midnight UTC, 1 February 2024. *)
Definition host_feb01 : host :=
  sample_host (mk_datetime 2024 2 1 0 0 0 0 None) no_fault.

(** The clock stands at midnight UTC, 1 January 2024. *)
Definition host_jan01 : host :=
  sample_host (mk_datetime 2024 1 1 0 0 0 0 None) no_fault.

(** A task due three hours after that midnight. *)
Definition due_at_three : item :=
  mk_task "t1" "message" (VMap []) "2024-01-01T03:00:00Z" None.

(** Two tasks due before that midnight.  On [host_t1_refused] the table
    answers the query (call 0) and then refuses the next two calls, the
    two writes for the first task. *)
Definition first_due : item :=
  mk_task "t1" "message" (VMap []) "2023-12-31T23:00:00Z" None.

Definition second_due : item :=
  mk_task "t2" "message" (VMap []) "2023-12-31T23:30:00Z" None.

Definition throttled : exn :=
  Exn ClientError
      "An error occurred (ProvisionedThroughputExceededException) when calling the UpdateItem operation".

Definition host_t1_refused : host :=
  sample_host (mk_datetime 2024 1 1 0 0 0 0 None)
              (fun k => match k with
                        | 1%nat | 2%nat => Some throttled
                        | _ => None
                        end).

(** A task with an action the dispatcher does not know. *)
Definition email_task : item :=
  mk_task "t9" "email" (VMap []) "2023-12-31T23:00:00Z" (Some "daily").

(** The table takes the query and the write of [running] and refuses
    the two writes of [failed] that follow. *)
Definition host_failed_refused : host :=
  sample_host (mk_datetime 2024 1 1 0 0 0 0 None)
              (fun k => match k with
                        | 2%nat | 3%nat => Some throttled
                        | _ => None
                        end).


(** The answer [schedule_task] gives on success. *)
Definition created_201 : response :=
  mk_response 201
    (VMap [("message", VStr "Task scheduled successfully");
           ("task_id", VStr sample_uuid)]).

(** Dates the arithmetic of the expansion is shown at: a day inside
    the month, a day in its last week and the end of the year. *)
Definition mar03 : datetime := mk_datetime 2024 3 3 9 15 0 0 (Some 0).
Definition mar28 : datetime := mk_datetime 2024 3 28 9 15 0 0 (Some 0).
Definition dec31 : datetime := mk_datetime 2024 12 31 23 59 59 0 (Some 0).

(** Inputs of the further runs: a webhook task, a task with a
    recurrence the expansion does not know, hosts whose endpoint or
    table fails, a create body and the events of the API routes. *)
Definition hook_task : item :=
  mk_task "t5" "webhook" (VMap [("url", VStr "https://example.com/ok")])
          "2023-12-31T23:00:00Z" None.

Definition yearly_task : item :=
  mk_task "t6" "message" (VMap []) "2023-12-31T23:00:00Z" (Some "yearly").

Definition refused : exn := Exn RequestException "Connection refused".

(** The endpoint cannot be reached. *)
Definition host_unreachable : host :=
  mk_host sample_str (fun s => "'" ++ s ++ "'") (fun _ => "{...}")
          (fun _ => "[<class 'decimal.Rounded'>]")
          (fun _ => mk_datetime 2024 1 1 0 0 0 0 None)
          (fun _ => sample_uuid) no_fault
          (fun _ _ => HttpRaise refused).

(** The table refuses its first call and takes the others. *)
Definition host_first_refused : host :=
  sample_host (mk_datetime 2024 1 1 0 0 0 0 None)
              (fun k => match k with O => Some throttled | _ => None end).

(** The table refuses every call. *)
Definition host_table_down : host :=
  sample_host (mk_datetime 2024 1 1 0 0 0 0 None) (fun _ => Some throttled).

Definition message_body : list (string * value) :=
  [("action", VStr "message");
   ("payload", VMap [("recipient", VStr "ops"); ("message", VStr "report")]);
   ("run_at", VStr "2024-01-01T00:00:00Z");
   ("recurrence", VStr "daily")].

Definition body_without_payload : list (string * value) :=
  [("action", VStr "message"); ("run_at", VStr "2024-01-01T00:00:00Z")].

Definition body_with_bad_run_at : list (string * value) :=
  [("action", VStr "message"); ("payload", VMap []);
   ("run_at", VStr "tomorrow")].

(** Two bodies whose payload the table client refuses: the first holds
    the float 1.5, the second the integer [10 ^ 38], of 39 digits. *)
Definition body_with_float : list (string * value) :=
  [("action", VStr "message");
   ("payload", VMap [("ratio", VFloat (S754_finite false 3 (-1)))]);
   ("run_at", VStr "2024-01-01T00:00:00Z")].

Definition body_with_wide_integer : list (string * value) :=
  [("action", VStr "message");
   ("payload", VMap [("count", VNum (10 ^ 38))]);
   ("run_at", VStr "2024-01-01T00:00:00Z")].

Definition no_body : result value :=
  Raise (Exn TypeError
             "the JSON object must be str, bytes or bytearray, not NoneType").

(** [GET /tasks?status=<st>], [GET /tasks] and a request on a route. *)
Definition status_event (st : string) : event :=
  mk_event {["queryStringParameters" := VMap (("status", VStr st) :: nil)]}
           no_body.

Definition plain_event : event := mk_event ∅ no_body.

Definition route_event (method resource : string) : event :=
  mk_event (<["httpMethod" := VStr method]> {["resource" := VStr resource]})
           no_body.

Definition key_first_due : string * string := ("t1", "2023-12-31T23:00:00Z").
Definition key_second_due : string * string := ("t2", "2023-12-31T23:30:00Z").
Definition key_dec15 : string * string := ("t2", "2024-12-15T10:00:00Z").

(** * Properties *)

(** ** The status write *)

(** The log of a chain of worlds, as one list. *)
Ltac log_eq :=
  repeat match goal with w := _ : world |- _ => subst w end;
  unfold after_status_write, after_log, after_request; cbn [log];
  rewrite <- ?app_assoc; reflexivity.

Lemma log_msg_eq (lvl : log_level) (msg : string) (w : world) :
  log_msg lvl msg w = (Ok tt, after_log w lvl msg).
Proof. reflexivity. Qed.

Section StatusWrite.

Context (h : host).

(** The values of a status write are strings, which the client
    takes. *)
Lemma first_refusal_status_update (status stamp : string)
      (msg : option string) :
  first_refusal h (snd <$> status_update status stamp msg) = None.
Proof.
  unfold status_update.
  destruct msg as [m|]; [destruct (truthy (VStr m))|]; reflexivity.
Qed.

Lemma update_task_status_ok (w : world) (t r status : string)
      (msg : option string) :
  t ≠ "" -> r ≠ "" -> store_fault h (store_calls w) = None ->
  update_task_status h (VStr t) (VStr r) status msg w
  = (Ok tt, after_status_write h w t r status msg).
Proof.
  intros Ht Hr Hf.
  apply String.eqb_neq in Ht. apply String.eqb_neq in Hr.
  unfold update_task_status, update_item, bind, utcnow, serialize.
  cbn [app first_refusal refusal]. rewrite first_refusal_status_update.
  unfold ret, table_call, key_of, log_msg.
  cbn [store_calls clock_reads table]. rewrite Hf, Ht, Hr. reflexivity.
Qed.

(** A status write that the store refuses leaves every item alone. *)
Lemma update_task_status_fault (w : world) (t r : string)
      (status : string) (msg : option string) (e : exn) :
  store_fault h (store_calls w) = Some e ->
  update_task_status h (VStr t) (VStr r) status msg w
  = (Raise e, mk_world (table w) (S (clock_reads w)) (uuid_draws w)
                       (S (store_calls w)) (http_sent w) (log w)).
Proof.
  intros Hf.
  unfold update_task_status, update_item, bind, utcnow, serialize.
  cbn [app first_refusal refusal]. rewrite first_refusal_status_update.
  unfold ret, table_call.
  cbn [store_calls clock_reads table]. rewrite Hf. reflexivity.
Qed.

Lemma status_update_status (status stamp : string) (msg : option string)
      (it : item) :
  set_attrs (status_update status stamp msg) it !! "status"
  = Some (VStr status).
Proof.
  unfold status_update.
  destruct msg as [m|]; [destruct (truthy (VStr m))|]; cbn;
    by simplify_map_eq.
Qed.


Lemma status_update_message (status stamp m : string) (it : item) :
  m ≠ "" ->
  set_attrs (status_update status stamp (Some m)) it !! "error_message"
  = Some (VStr m).
Proof.
  intros Hm. apply String.eqb_neq in Hm.
  unfold status_update, truthy. rewrite Hm. cbn. by simplify_map_eq.
Qed.

Lemma status_update_no_message (status stamp : string) (msg : option string)
      (it : item) :
  msg = None \/ msg = Some "" ->
  set_attrs (status_update status stamp msg) it !! "error_message"
  = it !! "error_message".
Proof.
  intros [-> | ->]; cbn; by simplify_map_eq.
Qed.


End StatusWrite.


(** ** Tasks the dispatcher has no strategy for *)




(** ** Recurrence expansion *)

Lemma put_item_inv (h : host) (names : list string) (it : item)
      (w w' : world) :
  put_item h names it w = (Ok tt, w') ->
  exists t r : string,
    it !! "task_id" = Some (VStr t) /\ it !! "run_at" = Some (VStr r)
    /\ table w' = <[(t, r) := it]> (table w).
Proof.
  unfold put_item, bind, serialize.
  destruct (first_refusal h _); [discriminate|].
  unfold ret, table_call.
  destruct (store_fault h (store_calls w)); [discriminate|].
  destruct (it !! "task_id") as [tv|]; [|discriminate].
  destruct (it !! "run_at") as [rv|]; [|destruct tv; discriminate].
  unfold key_of.
  destruct tv as [t| | | | | |]; try discriminate.
  destruct rv as [r| | | | | |]; try discriminate.
  destruct (String.eqb t "" || String.eqb r ""); [discriminate|].
  unfold ret.
  destruct (it !! "status") as [[st| | | | | |]|]; try discriminate;
    intros [= <-]; exists t, r; cbn; auto.
Qed.

(** One run of the expansion that returns: either the recurrence tag is
    none of the three and the table is as before, or one item went in
    under the successor's key. *)
Lemma schedule_next_occurrence_inv (h : host) (task : item) (w w' : world) :
  schedule_next_occurrence h task w = (Ok tt, w') ->
  (next_run_at_of h task = None /\ table w' = table w)
  \/ exists (parent : value) (nr : string) (it : item),
       task !! "task_id" = Some parent
       /\ next_run_at_of h task = Some nr
       /\ it !! "task_id" = Some (VStr (successor_id h parent nr))
       /\ it !! "run_at" = Some (VStr nr)
       /\ it !! "parent_task_id" = Some parent
       /\ table w' = <[(successor_id h parent nr, nr) := it]> (table w).
Proof.
  unfold schedule_next_occurrence, next_run_at_of, bind, item_get, lift.
  destruct (task !! "recurrence") as [rec|]; [|discriminate].
  destruct (task !! "task_id") as [parent|]; [|discriminate].
  destruct (task !! "run_at") as [rat|]; [|discriminate].
  cbn [ret].
  destruct (parse_run_at h rat) as [dt|e]; [|discriminate].
  destruct (next_run rec dt) as [[next|e]|]; [| discriminate |].
  - destruct (task !! "action") as [action|]; [|discriminate].
    destruct (task !! "payload") as [payload|]; [|discriminate].
    cbn [ret utcnow].
    match goal with
    | |- context [put_item h ?ns ?it ?w0] =>
        destruct (put_item h ns it w0) as [[[]|e] wp] eqn:Hput; [|discriminate]
    end.
    rewrite log_msg_eq. intros [= <-].
    apply put_item_inv in Hput as (t & r & Ht & Hr & Htab).
    right. exists parent.
    exists (PyStr.replace "+00:00" "Z" (isoformat next)).
    eexists. unfold new_task in Ht, Hr.
    rewrite lookup_insert_eq in Ht.
    do 3 (rewrite lookup_insert_ne in Hr by discriminate).
    rewrite lookup_insert_eq in Hr.
    injection Ht as <-. injection Hr as <-.
    repeat split; [| | | exact Htab]; unfold new_task; by simplify_map_eq.
  - rewrite log_msg_eq. intros [= <-]. left. auto.
Qed.

(** C6.  The successor's [task_id] is [successor_id] of the parent's
    [task_id] and the new [run_at], and nothing else.  Two runs of the
    expansion for one task, the second in the world the first left,
    write under one and the same key: the second item takes the place
    of the first, and the table holds as many items after the second
    run as after the first. *)
Theorem expansion_twice_one_successor (h : host) (task : item)
        (w w1 w2 : world) :
  schedule_next_occurrence h task w = (Ok tt, w1) ->
  schedule_next_occurrence h task w1 = (Ok tt, w2) ->
  (next_run_at_of h task = None /\ table w1 = table w /\ table w2 = table w)
  \/ exists (parent : value) (nr : string) (it1 it2 : item),
       task !! "task_id" = Some parent
       /\ next_run_at_of h task = Some nr
       /\ it1 !! "task_id" = Some (VStr (successor_id h parent nr))
       /\ it2 !! "task_id" = Some (VStr (successor_id h parent nr))
       /\ it1 !! "run_at" = Some (VStr nr)
       /\ it2 !! "run_at" = Some (VStr nr)
       /\ table w1 = <[(successor_id h parent nr, nr) := it1]> (table w)
       /\ table w2 = <[(successor_id h parent nr, nr) := it2]> (table w)
       /\ dom (table w2) = dom (table w1)
       /\ size (table w2) = size (table w1).
Proof.
  intros H1 H2.
  apply schedule_next_occurrence_inv in H1. apply schedule_next_occurrence_inv in H2.
  destruct H1 as [[Hn1 Ht1] | (p1 & nr1 & it1 & Hp1 & Hnr1 & Hid1 & Hr1 & _ & Ht1)];
    destruct H2 as [[Hn2 Ht2] | (p2 & nr2 & it2 & Hp2 & Hnr2 & Hid2 & Hr2 & _ & Ht2)];
    try congruence.
  - left. repeat split; congruence.
  - right. assert (p2 = p1) as -> by congruence.
    assert (nr2 = nr1) as -> by congruence.
    exists p1, nr1, it1, it2.
    assert (Hw2 : table w2 = <[(successor_id h p1 nr1, nr1) := it2]> (table w))
      by (rewrite Ht2, Ht1; apply insert_insert_eq).
    assert (Hdom : dom (table w2) = dom (table w1))
      by (rewrite Hw2, Ht1, !dom_insert_L; reflexivity).
    repeat split; try assumption.
    rewrite <- !size_dom. by rewrite Hdom.
Qed.

(** ** Creating a task *)

Lemma put_item_ok (h : host) (names : list string) (it : item) (w : world)
      (t r st : string) :
  it !! "task_id" = Some (VStr t) -> it !! "run_at" = Some (VStr r) ->
  it !! "status" = Some (VStr st) ->
  t ≠ "" -> r ≠ "" ->
  first_refusal h (omap (fun a => it !! a) names) = None ->
  store_fault h (store_calls w) = None ->
  put_item h names it w
  = (Ok tt, mk_world (<[(t, r) := it]> (table w)) (clock_reads w)
                     (uuid_draws w) (S (store_calls w)) (http_sent w) (log w)).
Proof.
  intros Ht Hr Hst Hte Hre Hser Hf.
  apply String.eqb_neq in Hte. apply String.eqb_neq in Hre.
  unfold put_item, bind, serialize. rewrite Hser.
  unfold ret, table_call, key_of.
  rewrite Hf, Ht, Hr, Hst, Hte, Hre. reflexivity.
Qed.

(** The item of a create request goes through the client when the
    values taken from the body do. *)
Lemma created_item_taken (h : host) (w : world) (m : list (string * value))
      (action payload : value) (r : string) :
  refusal h action = None -> refusal h payload = None ->
  (forall rec, dict_get "recurrence" m = Some rec -> refusal h rec = None) ->
  first_refusal h
    (omap (fun a => created_item h w m action payload r !! a)
          ["task_id"; "action"; "payload"; "run_at"; "status"; "created_at";
           "updated_at"; "recurrence"]) = None.
Proof.
  intros Ha Hp Hrec. unfold created_item, task_item.
  destruct (dict_get "recurrence" m) as [rec|];
    [specialize (Hrec rec eq_refl)|clear Hrec];
    cbn [omap list_omap];
    repeat (rewrite lookup_insert_eq
            || rewrite lookup_insert_ne by discriminate
            || rewrite lookup_empty);
    cbn [first_refusal refusal]; rewrite Ha, Hp, ?Hrec; reflexivity.
Qed.

Lemma contains_present (m : list (string * value)) (k : string) (v : value)
      (w : world) :
  dict_get k m = Some v -> contains (VMap m) k w = (Ok true, w).
Proof. intros H. unfold contains. rewrite H. reflexivity. Qed.

Lemma subscript_present (m : list (string * value)) (k : string) (v : value)
      (w : world) :
  dict_get k m = Some v -> subscript (VMap m) k w = (Ok v, w).
Proof. intros H. unfold subscript. rewrite H. reflexivity. Qed.

Lemma parsed_run_at_nonempty (repr : string -> string) (r : string) :
  is_ok (fromisoformat repr (PyStr.replace "Z" "+00:00" r)) = true -> r ≠ "".
Proof. intros H ->. cbn in H. discriminate. Qed.






(** ** Runs that show what the code does at the month's end, with the
       shifted clock, and when the table refuses writes *)

(** C3.  [daily] on 2024-01-31T10:00:00Z: the date parses, and
    [replace(day=32)] raises [ValueError]; the table is not called and
    holds the one task as before.  On
    2024-01-01T00:00:00Z the same branch gives 2024-01-02T00:00:00Z. *)
Lemma daily_on_last_day_of_month_raises :
  (rbind (parse_run_at host_feb01 (VStr jan31))
         (fun dt => Ok (next_run (VStr "daily") dt))
   = Ok (Some (Raise (Exn ValueError "day is out of range for month"))))
  /\ (let '(r, w) :=
        schedule_next_occurrence host_feb01 daily_jan31 (world_of [daily_jan31]) in
      r = Raise (Exn ValueError "day is out of range for month")
      /\ store_calls w = 0%nat /\ size (table w) = 1%nat)
  /\ next_run_at_of host_feb01 daily_jan01 = Some "2024-01-02T00:00:00Z".
Proof. vm_compute. repeat split; reflexivity. Qed.

(** C5.  [monthly] on 2024-12-15T10:00:00Z rolls into
    2025-01-15T10:00:00Z; on 2024-01-31T10:00:00Z the code asks for
    31 February and [replace] raises [ValueError] instead of clamping. *)
Lemma monthly_into_shorter_month_raises :
  next_run_at_of host_feb01 monthly_dec15 = Some "2025-01-15T10:00:00Z"
  /\ (rbind (parse_run_at host_feb01 (VStr jan31))
            (fun dt => Ok (next_run (VStr "monthly") dt))
      = Ok (Some (Raise (Exn ValueError "day is out of range for month"))))
  /\ (let '(r, w) :=
        schedule_next_occurrence host_feb01 monthly_jan31
                                 (world_of [monthly_jan31]) in
      r = Raise (Exn ValueError "day is out of range for month")
      /\ store_calls w = 0%nat /\ size (table w) = 1%nat).
Proof. vm_compute. repeat split; reflexivity. Qed.

(** C1.  The task [daily_jan31]: the body of the [try] writes
    [completed] and then raises out of the expansion; the [except]
    clause of [execute_task] writes [failed] over it. *)
Lemma completed_task_rewritten_to_failed :
  let w0 := world_of [daily_jan31] in
  let '(r_body, w_body) :=
    execute_task_body host_feb01 daily_jan31 (VStr "t1") (VStr jan31)
                      (VStr "message") (VMap []) w0 in
  let '(r, w) := execute_task host_feb01 daily_jan31 w0 in
  r_body = Raise (Exn ValueError "day is out of range for month")
  /\ status_of w_body "t1" jan31 = Some (VStr "completed")
  /\ store_calls w_body = 2%nat
  /\ r = Ok tt
  /\ status_of w "t1" jan31 = Some (VStr "failed")
  /\ error_message_of w "t1" jan31
     = Some (VStr "day is out of range for month")
  /\ store_calls w = 3%nat.
Proof. vm_compute. repeat split; reflexivity. Qed.

(** C2.  The clock reads 2024-01-01T00:00:00 UTC and [due_at_three] is
    due three hours later; the tick compares against 05:30:00, returns
    the task from the query and runs it to [completed]. *)
Lemma tick_runs_task_due_in_three_hours :
  let now := utcnow_at host_jan01 0 in
  let '(r, w) := handler host_jan01 (world_of [due_at_three]) in
  String.ltb (strftime_YmdTHMSZ now) (run_at_of due_at_three) = true
  /\ fst (query_status_index host_jan01 "scheduled" (strftime_YmdTHMSZ now)
                             (world_of [due_at_three])) = Ok []
  /\ r = Ok (mk_response 200
               (VMap [("message", VStr "Processed 1 tasks");
                      ("timestamp", VStr "2024-01-01T05:30:00Z")]))
  /\ status_of w "t1" "2024-01-01T03:00:00Z" = Some (VStr "completed").
Proof. vm_compute. repeat split; reflexivity. Qed.

(** C4.  Two due tasks, and a table that refuses the two writes made
    for the first: the [except] clause of [execute_task] logs and then
    raises itself, the tick ends in the 500 answer, and the second task
    is never started. *)
Lemma refused_writes_abort_the_tick :
  let '(r, w) := handler host_t1_refused (world_of [first_due; second_due]) in
  r = Ok (mk_response 500 (VMap [("error", VStr (exn_msg throttled))]))
  /\ log w = [(INFO, "Starting task execution check");
              (INFO, "Current time: 2024-01-01T05:30:00Z");
              (INFO, "Found 2 tasks to execute");
              (INFO, "Executing task t1 with action message");
              (ERROR, "Task execution failed: " ++ exn_msg throttled);
              (ERROR, "Error: " ++ exn_msg throttled)]
  /\ store_calls w = 3%nat
  /\ status_of w "t2" "2023-12-31T23:30:00Z" = Some (VStr "scheduled").
Proof. vm_compute. repeat split; reflexivity. Qed.

(** C10.  [execute_message] returns [True] on any dict, having logged
    the two fields and nothing else, yet the message
    task [monthly_jan31], picked up by a tick on a table that refuses
    nothing, ends the tick [failed]. *)
Lemma recurring_message_task_ends_failed :
  (forall (h : host) (p : list (string * value)) (w : world),
     execute_message h (VMap p) w
     = (Ok true,
        after_log w INFO
          ("Sending message to "
           ++ py_str h (default (VStr "") (dict_get "recipient" p)) ++ ": "
           ++ py_str h (default (VStr "") (dict_get "message" p)))))
  /\ (let '(r, w) := handler host_feb01 (world_of [monthly_jan31]) in
      r = Ok (mk_response 200
                (VMap [("message", VStr "Processed 1 tasks");
                       ("timestamp", VStr "2024-02-01T05:30:00Z")]))
      /\ status_of w "t1" jan31 = Some (VStr "failed")
      /\ error_message_of w "t1" jan31
         = Some (VStr "day is out of range for month")).
Proof.
  split; [reflexivity|].
  vm_compute. repeat split; reflexivity.
Qed.

(** ** The general statements at concrete inputs *)


(** The clock of [host_feb01] reads the same instant at every call, as
    two reads within one microsecond do: the write of [completed] that
    follows the write of [running] changes the status and leaves
    [updated_at] as the first write set it. *)
Lemma same_clock_reading_keeps_updated_at :
  let updated_at_of (w : world) :=
    table w !! ("t1", jan31) ≫= (.!! "updated_at") in
  let w1 := snd (update_task_status host_feb01 (VStr "t1") (VStr jan31)
                                    "running" None (world_of [daily_jan31])) in
  let w2 := snd (update_task_status host_feb01 (VStr "t1") (VStr jan31)
                                    "completed" None w1) in
  status_of w1 "t1" jan31 = Some (VStr "running")
  /\ status_of w2 "t1" jan31 = Some (VStr "completed")
  /\ updated_at_of w1 = Some (VStr "2024-02-01T00:00:00Z")
  /\ updated_at_of w2 = updated_at_of w1.
Proof. vm_compute. repeat split; reflexivity. Qed.


(** The same task on a table that refuses the writes of [failed]: the
    write in the dispatcher raises, the one in the [except] clause
    raises again, the tick ends in the 500 answer, the task stays
    [running] without an [error_message], and the task due after it is
    never started. *)
Lemma unsupported_action_with_refused_writes_aborts_tick :
  let '(r, w) := handler host_failed_refused
                         (world_of [email_task; second_due]) in
  r = Ok (mk_response 500 (VMap [("error", VStr (exn_msg throttled))]))
  /\ status_of w "t9" "2023-12-31T23:00:00Z" = Some (VStr "running")
  /\ error_message_of w "t9" "2023-12-31T23:00:00Z" = None
  /\ store_calls w = 4%nat
  /\ status_of w "t2" "2023-12-31T23:30:00Z" = Some (VStr "scheduled").
Proof. vm_compute. repeat split; reflexivity. Qed.

(** Witness of C6: the expansion of [daily_jan01], run twice in a row. *)
Lemma expansion_twice_one_successor_witness :
  let w := world_of [daily_jan01] in
  let w1 := snd (schedule_next_occurrence host_jan01 daily_jan01 w) in
  let w2 := snd (schedule_next_occurrence host_jan01 daily_jan01 w1) in
  (next_run_at_of host_jan01 daily_jan01 = None
   /\ table w1 = table w /\ table w2 = table w)
  \/ exists (parent : value) (nr : string) (it1 it2 : item),
       daily_jan01 !! "task_id" = Some parent
       /\ next_run_at_of host_jan01 daily_jan01 = Some nr
       /\ it1 !! "task_id" = Some (VStr (successor_id host_jan01 parent nr))
       /\ it2 !! "task_id" = Some (VStr (successor_id host_jan01 parent nr))
       /\ it1 !! "run_at" = Some (VStr nr)
       /\ it2 !! "run_at" = Some (VStr nr)
       /\ table w1 = <[(successor_id host_jan01 parent nr, nr) := it1]> (table w)
       /\ table w2 = <[(successor_id host_jan01 parent nr, nr) := it2]> (table w)
       /\ dom (table w2) = dom (table w1)
       /\ size (table w2) = size (table w1).
Proof.
  intros w w1 w2.
  assert (E1 : fst (schedule_next_occurrence host_jan01 daily_jan01 w) = Ok tt)
    by (vm_compute; reflexivity).
  assert (E2 : fst (schedule_next_occurrence host_jan01 daily_jan01 w1) = Ok tt)
    by (vm_compute; reflexivity).
  apply (expansion_twice_one_successor host_jan01 daily_jan01 w w1 w2).
  - rewrite (surjective_pairing (schedule_next_occurrence host_jan01 daily_jan01 w)).
    rewrite E1. reflexivity.
  - rewrite (surjective_pairing (schedule_next_occurrence host_jan01 daily_jan01 w1)).
    rewrite E2. reflexivity.
Defined.

(** * Further properties of the handlers *)

(** ** The date arithmetic of the expansion *)

Lemma new_datetime_ok (y mo d hh mi s us : Z) (tz : option Z) :
  valid_datetime (mk_datetime y mo d hh mi s us tz) ->
  new_datetime y mo d hh mi s us tz = Ok (mk_datetime y mo d hh mi s us tz).
Proof.
  unfold valid_datetime, new_datetime. cbn [year month day hour minute second microsecond].
  intros (Hy & Hm & Hd & Hh & Hmi & Hs & Hus).
  repeat match goal with
         | |- context [negb (?a && ?b)] =>
             replace (a && b) with true by (symmetry; apply andb_true_intro; split; lia)
         end.
  reflexivity.
Qed.

Lemma new_datetime_inv (y mo d hh mi s us : Z) (tz : option Z) (dt : datetime) :
  new_datetime y mo d hh mi s us tz = Ok dt ->
  dt = mk_datetime y mo d hh mi s us tz /\ valid_datetime dt.
Proof.
  unfold new_datetime, value_error.
  repeat match goal with
         | |- context [negb (?a && ?b)] =>
             destruct (a && b) eqn:?; cbn [negb]; [|discriminate]
         end.
  intros [= <-]. split; [reflexivity|].
  unfold valid_datetime. cbn [year month day hour minute second microsecond].
  repeat match goal with
         | H : (_ && _) = true |- _ => apply andb_prop in H as [? ?]
         end.
  lia.
Qed.

Lemma new_datetime_day_out_of_range (y mo d hh mi s us : Z) (tz : option Z) :
  1 <= y <= 9999 -> 1 <= mo <= 12 -> days_in_month y mo < d ->
  new_datetime y mo d hh mi s us tz = Raise day_out_of_range.
Proof.
  intros Hy Hm Hd. unfold new_datetime.
  replace ((1 <=? y) && (y <=? 9999)) with true
    by (symmetry; apply andb_true_intro; split; lia).
  replace ((1 <=? mo) && (mo <=? 12)) with true
    by (symmetry; apply andb_true_intro; split; lia).
  replace ((1 <=? d) && (d <=? days_in_month y mo)) with false
    by (symmetry; apply andb_false_intro2; lia).
  reflexivity.
Qed.

(** X1.  [daily] on a valid date: the next day of the same month at the
    same time of day while there is one, and [ValueError] on the last
    day of every month. *)
Theorem daily_next_run (dt : datetime) :
  valid_datetime dt ->
  (day dt < days_in_month (year dt) (month dt) ->
   next_run (VStr "daily") dt
   = Some (Ok (on_date dt (year dt) (month dt) (day dt + 1))))
  /\ (day dt = days_in_month (year dt) (month dt) ->
      next_run (VStr "daily") dt = Some (Raise day_out_of_range)).
Proof.
  intros Hv. pose proof Hv as (Hy & Hm & Hd & Hrest).
  unfold next_run, Datetime.replace. cbn [eq_str String.eqb Ascii.eqb Bool.eqb default].
  split; intros Hday.
  - f_equal. apply new_datetime_ok. unfold valid_datetime, on_date.
    cbn [year month day hour minute second microsecond]. unfold id. lia.
  - f_equal. apply new_datetime_day_out_of_range; unfold id; lia.
Qed.

Lemma daily_next_run_witness :
  (day mar03 < days_in_month (year mar03) (month mar03) ->
   next_run (VStr "daily") mar03
   = Some (Ok (on_date mar03 (year mar03) (month mar03) (day mar03 + 1))))
  /\ (day mar03 = days_in_month (year mar03) (month mar03) ->
      next_run (VStr "daily") mar03 = Some (Raise day_out_of_range)).
Proof. apply (daily_next_run mar03). unfold valid_datetime. cbn. lia. Defined.

(** X2.  [weekly] on a valid date: seven days on within the same month,
    and [ValueError] whenever fewer than seven days of the month are
    left. *)
Theorem weekly_next_run (dt : datetime) :
  valid_datetime dt ->
  (day dt + 7 <= days_in_month (year dt) (month dt) ->
   next_run (VStr "weekly") dt
   = Some (Ok (on_date dt (year dt) (month dt) (day dt + 7))))
  /\ (days_in_month (year dt) (month dt) < day dt + 7 ->
      next_run (VStr "weekly") dt = Some (Raise day_out_of_range)).
Proof.
  intros Hv. pose proof Hv as (Hy & Hm & Hd & Hrest).
  unfold next_run, Datetime.replace. cbn [eq_str String.eqb Ascii.eqb Bool.eqb default].
  split; intros Hday.
  - f_equal. apply new_datetime_ok. unfold valid_datetime, on_date.
    cbn [year month day hour minute second microsecond]. unfold id. lia.
  - f_equal. apply new_datetime_day_out_of_range; unfold id; lia.
Qed.

Lemma weekly_next_run_witness :
  (day mar28 + 7 <= days_in_month (year mar28) (month mar28) ->
   next_run (VStr "weekly") mar28
   = Some (Ok (on_date mar28 (year mar28) (month mar28) (day mar28 + 7))))
  /\ (days_in_month (year mar28) (month mar28) < day mar28 + 7 ->
      next_run (VStr "weekly") mar28 = Some (Raise day_out_of_range)).
Proof. apply (weekly_next_run mar28). unfold valid_datetime. cbn. lia. Defined.

Lemma days_in_month_bounds (y m : Z) : 28 <= days_in_month y m <= 31.
Proof.
  unfold days_in_month.
  destruct (m =? 2); [destruct (is_leap y); lia|].
  destruct ((m =? 4) || (m =? 6) || (m =? 9) || (m =? 11)); lia.
Qed.

(** X3.  [monthly] on a valid date.  Before December: the same day of
    the next month when that month has it, [ValueError] when it is
    shorter.  In December: the same day of January of the next year,
    except in year 9999, where the year runs out of range. *)
Theorem monthly_next_run (dt : datetime) :
  valid_datetime dt ->
  (month dt < 12 -> day dt <= days_in_month (year dt) (month dt + 1) ->
   next_run (VStr "monthly") dt
   = Some (Ok (on_date dt (year dt) (month dt + 1) (day dt))))
  /\ (month dt < 12 -> days_in_month (year dt) (month dt + 1) < day dt ->
      next_run (VStr "monthly") dt = Some (Raise day_out_of_range))
  /\ (month dt = 12 -> year dt < 9999 ->
      next_run (VStr "monthly") dt
      = Some (Ok (on_date dt (year dt + 1) 1 (day dt))))
  /\ (month dt = 12 -> year dt = 9999 ->
      next_run (VStr "monthly") dt
      = Some (Raise (Exn ValueError "year 10000 is out of range"))).
Proof.
  intros Hv. pose proof Hv as (Hy & Hm & Hd & Hrest).
  pose proof (days_in_month_bounds (year dt) (month dt)) as Hb.
  unfold next_run, Datetime.replace. cbn [eq_str String.eqb Ascii.eqb Bool.eqb default].
  repeat split.
  - intros Hmo Hday. replace (month dt =? 12) with false by (symmetry; lia).
    f_equal. apply new_datetime_ok. unfold valid_datetime, on_date.
    cbn [year month day hour minute second microsecond]. unfold id. lia.
  - intros Hmo Hday. replace (month dt =? 12) with false by (symmetry; lia).
    f_equal. apply new_datetime_day_out_of_range; unfold id; lia.
  - intros Hmo Hyear. replace (month dt =? 12) with true by (symmetry; lia).
    f_equal. apply new_datetime_ok. unfold valid_datetime.
    cbn [year month day hour minute second microsecond]. unfold id.
    assert (days_in_month (year dt + 1) 1 = 31) by reflexivity. lia.
  - intros Hmo Hyear. replace (month dt =? 12) with true by (symmetry; lia).
    rewrite Hyear. reflexivity.
Qed.

Lemma monthly_next_run_witness :
  (month dec31 < 12 -> day dec31 <= days_in_month (year dec31) (month dec31 + 1) ->
   next_run (VStr "monthly") dec31
   = Some (Ok (on_date dec31 (year dec31) (month dec31 + 1) (day dec31))))
  /\ (month dec31 < 12 -> days_in_month (year dec31) (month dec31 + 1) < day dec31 ->
      next_run (VStr "monthly") dec31 = Some (Raise day_out_of_range))
  /\ (month dec31 = 12 -> year dec31 < 9999 ->
      next_run (VStr "monthly") dec31
      = Some (Ok (on_date dec31 (year dec31 + 1) 1 (day dec31))))
  /\ (month dec31 = 12 -> year dec31 = 9999 ->
      next_run (VStr "monthly") dec31
      = Some (Raise (Exn ValueError "year 10000 is out of range"))).
Proof. apply (monthly_next_run dec31). unfold valid_datetime. cbn. lia. Defined.

(** ** Which items a run can change *)

Section Frame.

Context (h : host).

Lemma touches_only_weaken {A} (K K' : string * string -> Prop) (m : M A) :
  (forall k, K k -> K' k) -> touches_only K m -> touches_only K' m.
Proof. intros HK Hm w k Hk. apply Hm. intros HKk. apply Hk, HK, HKk. Qed.

Lemma touches_only_ret {A} (K : string * string -> Prop) (a : A) :
  touches_only K (ret a).
Proof. intros w k _. reflexivity. Qed.

Lemma touches_only_raise {A} (K : string * string -> Prop) (e : exn) :
  touches_only K (@raise A e).
Proof. intros w k _. reflexivity. Qed.

Lemma touches_only_lift {A} (K : string * string -> Prop) (r : result A) :
  touches_only K (lift r).
Proof. intros w k _. reflexivity. Qed.

Lemma touches_only_log_msg (K : string * string -> Prop) (lvl : log_level)
      (msg : string) :
  touches_only K (log_msg lvl msg).
Proof. intros w k _. reflexivity. Qed.

Lemma touches_only_utcnow (K : string * string -> Prop) :
  touches_only K (utcnow h).
Proof. intros w k _. reflexivity. Qed.

Lemma touches_only_item_get (K : string * string -> Prop) (it : item)
      (f : string) :
  touches_only K (item_get it f).
Proof. intros w k _. unfold item_get. by destruct (it !! f). Qed.

Lemma touches_only_bind {A B} (K : string * string -> Prop) (m : M A)
      (f : A -> M B) :
  touches_only K m -> (forall a, touches_only K (f a)) ->
  touches_only K (bind m f).
Proof.
  intros Hm Hf w k Hk. unfold bind.
  specialize (Hm w k Hk). destruct (m w) as [[a|e] w1]; cbn in *.
  - rewrite <- Hm. by apply Hf.
  - exact Hm.
Qed.

Lemma touches_only_try_except {A} (K : string * string -> Prop) (m : M A)
      (handler : exn -> M A) :
  touches_only K m -> (forall e, touches_only K (handler e)) ->
  touches_only K (try_except m handler).
Proof.
  intros Hm Hf w k Hk. unfold try_except.
  specialize (Hm w k Hk). destruct (m w) as [[a|e] w1]; cbn in *.
  - exact Hm.
  - rewrite <- Hm. by apply Hf.
Qed.

Lemma touches_only_for_each {A} (K : string * string -> Prop)
      (body : A -> M unit) (xs : list A) :
  (forall x, x ∈ xs -> touches_only K (body x)) ->
  touches_only K (for_each body xs).
Proof.
  induction xs as [|x xs IH]; intros Hb; cbn [for_each].
  - apply touches_only_ret.
  - apply touches_only_bind.
    + apply Hb. left.
    + intros _. apply IH. intros y Hy. apply Hb. by right.
Qed.

Lemma key_of_inv (tid rat : value) (w w' : world) (k : string * string) :
  key_of tid rat w = (Ok k, w') ->
  tid = VStr (fst k) /\ rat = VStr (snd k) /\ w' = w.
Proof.
  unfold key_of. destruct tid, rat; try discriminate.
  destruct (String.eqb s "" || String.eqb s0 ""); [discriminate|].
  intros [= <- <-]. auto.
Qed.

Lemma key_of_world (tid rat : value) (w : world) :
  snd (key_of tid rat w) = w.
Proof.
  unfold key_of. destruct tid, rat; try reflexivity.
  by destruct (String.eqb s "" || String.eqb s0 "").
Qed.

(** A write through [update_item] lands on the key it is given. *)
Lemma touches_only_update_item (tid rat : value) (sets : list (string * value)) :
  touches_only (fun k => tid = VStr (fst k) /\ rat = VStr (snd k))
               (update_item h tid rat sets).
Proof.
  intros w k Hk. unfold update_item, bind, serialize.
  destruct (first_refusal h _); [reflexivity|].
  unfold ret, table_call.
  destruct (store_fault h (store_calls w)); [reflexivity|].
  destruct (key_of tid rat _) as [[k0|e] w1] eqn:Hkey.
  - apply key_of_inv in Hkey as (Ht & Hr & ->). cbn.
    apply lookup_insert_ne. intros <-. by apply Hk.
  - apply (f_equal snd) in Hkey. rewrite key_of_world in Hkey.
    cbn in Hkey. by subst w1.
Qed.

Lemma touches_only_update_task_status (tid rat : value) (status : string)
      (msg : option string) :
  touches_only (fun k => tid = VStr (fst k) /\ rat = VStr (snd k))
               (update_task_status h tid rat status msg).
Proof.
  unfold update_task_status. apply touches_only_bind.
  - apply touches_only_utcnow.
  - intros now. apply touches_only_bind.
    + apply touches_only_update_item.
    + intros _. apply touches_only_log_msg.
Qed.

Lemma touches_only_put_item (names : list string) (it : item) :
  touches_only (fun k => it !! "task_id" = Some (VStr (fst k))
                         /\ it !! "run_at" = Some (VStr (snd k)))
               (put_item h names it).
Proof.
  intros w k Hk. unfold put_item, bind, serialize.
  destruct (first_refusal h _); [reflexivity|].
  unfold ret, table_call.
  destruct (store_fault h (store_calls w)); [reflexivity|].
  destruct (it !! "task_id") as [tv|]; [|reflexivity].
  destruct (it !! "run_at") as [rv|]; [|reflexivity].
  destruct (key_of tv rv _) as [[k0|e] w1] eqn:Hkey.
  - apply key_of_inv in Hkey as (-> & -> & ->).
    destruct (it !! "status") as [[| | | | | |]|]; try reflexivity;
      cbn; apply lookup_insert_ne; intros <-; by apply Hk.
  - apply (f_equal snd) in Hkey. rewrite key_of_world in Hkey.
    cbn in Hkey. by subst w1.
Qed.

Lemma touches_only_send (K : string * string -> Prop) (rq : http_request) :
  touches_only K (send h rq).
Proof. intros w k _. reflexivity. Qed.

Lemma touches_only_payload_get (K : string * string -> Prop) (p : value)
      (f : string) (d : value) :
  touches_only K (payload_get p f d).
Proof. intros w k _. unfold payload_get. by destruct p. Qed.

Lemma touches_only_raise_for_status (K : string * string -> Prop) (c : Z)
      (reason url : string) :
  touches_only K (raise_for_status c reason url).
Proof.
  intros w k _. unfold raise_for_status.
  destruct ((400 <=? c) && (c <? 500)); [reflexivity|].
  by destruct ((500 <=? c) && (c <? 600)).
Qed.

(** Dispatching a webhook or a message writes nothing to the table. *)
Lemma touches_only_execute_webhook (K : string * string -> Prop) (p : value) :
  touches_only K (execute_webhook h p).
Proof.
  unfold execute_webhook.
  repeat (apply touches_only_bind; [apply touches_only_payload_get|intros ?]).
  destruct (negb (truthy a)); [apply touches_only_raise|].
  apply touches_only_bind; [apply touches_only_log_msg|intros _].
  destruct a1; try apply touches_only_lift.
  apply touches_only_bind; [apply touches_only_send|intros out].
  destruct out; [|apply touches_only_raise].
  apply touches_only_bind; [apply touches_only_raise_for_status|intros _].
  apply touches_only_bind; [apply touches_only_log_msg|intros _].
  apply touches_only_ret.
Qed.

Lemma touches_only_execute_message (K : string * string -> Prop) (p : value) :
  touches_only K (execute_message h p).
Proof.
  unfold execute_message.
  repeat (apply touches_only_bind; [apply touches_only_payload_get|intros ?]).
  apply touches_only_bind; [apply touches_only_log_msg|intros _].
  apply touches_only_ret.
Qed.

(** The expansion writes under the successor's key or not at all. *)
Lemma touches_only_schedule_next_occurrence (task : item) :
  touches_only (successor_key h task) (schedule_next_occurrence h task).
Proof.
  intros w k Hk.
  unfold schedule_next_occurrence, bind, item_get, lift.
  destruct (task !! "recurrence") as [rec|] eqn:Hrec; [|reflexivity].
  destruct (task !! "task_id") as [parent|] eqn:Hid; [|reflexivity].
  destruct (task !! "run_at") as [rat|] eqn:Hrat; [|reflexivity].
  cbn [ret].
  destruct (parse_run_at h rat) as [dt|e] eqn:Hparse; [|reflexivity].
  destruct (next_run rec dt) as [[next|e]|] eqn:Hnext; [| reflexivity | reflexivity].
  destruct (task !! "action") as [action|]; [|reflexivity].
  destruct (task !! "payload") as [payload|]; [|reflexivity].
  cbn [ret utcnow].
  match goal with
  | |- context [put_item h ?ns ?it ?w0] =>
      pose proof (touches_only_put_item ns it w0 k) as Hput;
      destruct (put_item h ns it w0) as [[[]|e] wp]
  end;
    (etransitivity; [apply Hput|reflexivity]);
    intros [Hk1 Hk2]; apply Hk; exists parent;
    unfold new_task in Hk1, Hk2;
    rewrite lookup_insert_eq in Hk1;
    do 3 (rewrite lookup_insert_ne in Hk2 by discriminate);
    rewrite lookup_insert_eq in Hk2;
    injection Hk1 as Hk1; injection Hk2 as Hk2;
    (split; [exact Hid|]); split;
    [unfold next_run_at_of; by rewrite Hrec, Hrat, Hparse, Hnext, Hk2
    |unfold successor_id; by rewrite <- Hk2, <- Hk1
    |unfold next_run_at_of; by rewrite Hrec, Hrat, Hparse, Hnext, Hk2
    |unfold successor_id; by rewrite <- Hk2, <- Hk1].
Qed.

Lemma touches_only_execute_task_body (task : item)
      (tid rat action payload : value) :
  touches_only (fun k => (tid = VStr (fst k) /\ rat = VStr (snd k))
                         \/ successor_key h task k)
               (execute_task_body h task tid rat action payload).
Proof.
  unfold execute_task_body, dispatch.
  apply touches_only_bind;
    [eapply touches_only_weaken; [|apply touches_only_update_task_status]; auto|intros _].
  apply touches_only_bind.
  - destruct (eq_str action "webhook").
    { apply touches_only_bind; [apply touches_only_execute_webhook|intros _].
      apply touches_only_ret. }
    destruct (eq_str action "message").
    { apply touches_only_bind; [apply touches_only_execute_message|intros _].
      apply touches_only_ret. }
    apply touches_only_bind; [apply touches_only_log_msg|intros _].
    apply touches_only_bind;
      [eapply touches_only_weaken; [|apply touches_only_update_task_status]; auto|intros _].
    apply touches_only_ret.
  - intros [|]; [|apply touches_only_ret].
    apply touches_only_bind;
      [eapply touches_only_weaken; [|apply touches_only_update_task_status]; auto|intros _].
    destruct (task !! "recurrence"); [|apply touches_only_ret].
    eapply touches_only_weaken; [|apply touches_only_schedule_next_occurrence]; auto.
Qed.

Lemma touches_only_execute_task (task : item) :
  touches_only (fun k => own_key task k \/ successor_key h task k)
               (execute_task h task).
Proof.
  intros w k Hk. unfold execute_task, bind, item_get.
  destruct (task !! "task_id") as [tid|] eqn:Hid; [|reflexivity].
  destruct (task !! "run_at") as [rat|] eqn:Hrat; [|reflexivity].
  destruct (task !! "action") as [action|]; [|reflexivity].
  destruct (task !! "payload") as [payload|]; [|reflexivity].
  cbn [ret]. rewrite log_msg_eq.
  change (table w) with (table (after_log w INFO
            ("Executing task " ++ py_str h tid ++ " with action "
             ++ py_str h action))).
  assert (Hfr : touches_only
                  (fun k => (tid = VStr (fst k) /\ rat = VStr (snd k))
                            \/ successor_key h task k)
                  (try_except
                     (execute_task_body h task tid rat action payload)
                     (fun e =>
                        bind (log_msg ERROR ("Task execution failed: " ++ exn_msg e))
                             (fun _ => update_task_status h tid rat "failed"
                                                          (Some (exn_msg e)))))).
  { apply touches_only_try_except; [apply touches_only_execute_task_body|].
    intros e. apply touches_only_bind; [apply touches_only_log_msg|intros _].
    eapply touches_only_weaken; [|apply touches_only_update_task_status]; auto. }
  apply Hfr. intros [[-> ->]|Hs]; apply Hk; [left|right]; [|exact Hs].
  split; assumption.
Qed.

End Frame.

Lemma elem_of_insert_by_run_at (x it : item) (l : list item) :
  x ∈ insert_by_run_at it l <-> x = it \/ x ∈ l.
Proof.
  induction l as [|y l IH]; cbn [insert_by_run_at].
  - rewrite list_elem_of_singleton, elem_of_nil. tauto.
  - destruct (String.leb (run_at_of y) (run_at_of it)).
    + rewrite !elem_of_cons, IH. tauto.
    + rewrite !elem_of_cons. tauto.
Qed.

Lemma elem_of_sort_by_run_at (x : item) (l : list item) :
  x ∈ sort_by_run_at l <-> x ∈ l.
Proof.
  unfold sort_by_run_at. induction l as [|y l IH]; cbn [fold_right].
  - reflexivity.
  - rewrite elem_of_insert_by_run_at, IH, elem_of_cons. tauto.
Qed.

(** What the due-task query returns: items of the table in status
    [status] whose [run_at] is at most the bound. *)
Lemma query_status_index_sound (h : host) (status bound : string) (w w' : world)
      (tasks : list item) (task : item) :
  query_status_index h status bound w = (Ok tasks, w') ->
  task ∈ tasks ->
  table w' = table w
  /\ in_status_index status bound task = true
  /\ exists k, table w !! k = Some task.
Proof.
  unfold query_status_index, bind, table_call.
  destruct (store_fault h (store_calls w)); [discriminate|].
  intros [= <- <-] Hin. split; [reflexivity|].
  apply elem_of_sort_by_run_at, list_elem_of_filter in Hin as [Hp Hin].
  split; [exact Hp|].
  apply list_elem_of_fmap in Hin as ([k it] & -> & Hin).
  exists k. by apply elem_of_map_to_list.
Qed.

(** X4.  Running one task changes the table under that task's own key
    and under the key of its successor, and nowhere else: whatever the
    action, the payload, the answers of the endpoint and the failures of
    the table, every other item is after the run what it was before. *)
Theorem execute_task_leaves_other_items (h : host) (task : item) (w : world)
        (k : string * string) :
  ~ own_key task k -> ~ successor_key h task k ->
  table (snd (execute_task h task w)) !! k = table w !! k.
Proof.
  intros Hown Hsucc. apply (touches_only_execute_task h task).
  intros [?|?]; auto.
Qed.

(** X5.  A tick changes only items that its query returned, and the
    successors of those: an item that is not in status [scheduled] with
    [run_at] at most the tick's bound, and that does not sit under the
    successor key of such an item, is after the tick what it was
    before. *)
Theorem tick_leaves_other_items (h : host) (w : world) (k : string * string) :
  (forall (task : item) (bound : string) (k0 : string * string),
     tick_bound h w = Some bound ->
     table w !! k0 = Some task ->
     in_status_index "scheduled" bound task = true ->
     ~ own_key task k /\ ~ successor_key h task k) ->
  table (snd (handler h w)) !! k = table w !! k.
Proof.
  intros Hdue. unfold handler, try_except, bind, utcnow, lift, log_msg.
  cbn [ret table clock_reads uuid_draws store_calls http_sent log].
  unfold tick_bound in Hdue.
  destruct (add_timedelta (utcnow_at h (clock_reads w)) (timedelta 5 30))
    as [shifted|e]; [|reflexivity].
  match goal with
  | |- context [query_status_index h ?st ?b ?w0] =>
      destruct (query_status_index h st b w0) as [[tasks|e] w1] eqn:Hq;
      [|apply (f_equal snd) in Hq; cbn in Hq;
        unfold query_status_index, bind, table_call in Hq; cbn in Hq;
        destruct (store_fault h (store_calls w)); cbn in Hq; by subst w1]
  end.
  assert (Htab : table w1 = table w).
  { unfold query_status_index, bind, table_call in Hq. cbn in Hq.
    destruct (store_fault h (store_calls w)); [discriminate|].
    by injection Hq as <- <-. }
  assert (Hloop : forall wl : world,
             table wl = table w1 ->
             table (snd (for_each (execute_task h) tasks wl)) !! k
             = table w1 !! k).
  { intros wl Hwl. rewrite <- Hwl.
    apply (touches_only_for_each
             (fun k => exists task, task ∈ tasks
                                    /\ (own_key task k \/ successor_key h task k))).
    - intros task Hin. eapply touches_only_weaken;
        [|apply (touches_only_execute_task h task)].
      intros k' Hk'. exists task. auto.
    - intros (task & Hin & Hk).
      destruct (query_status_index_sound _ _ _ _ _ _ task Hq Hin)
        as (_ & Hp & k0 & Hk0).
      destruct (Hdue task _ k0 eq_refl Hk0 Hp) as [Hn1 Hn2].
      destruct Hk; auto. }
  match goal with
  | |- context [for_each (execute_task h) tasks ?wl] =>
      specialize (Hloop wl eq_refl);
      destruct (for_each (execute_task h) tasks wl) as [[[]|e] w2]
  end;
    cbn in *; by rewrite Hloop, Htab.
Qed.

(** ** How a single task ends *)


Lemma target_item_after_write (h : host) (w : world) (t r status : string)
      (msg : option string) :
  target_item (after_status_write h w t r status msg) t r
  = set_attrs (status_update status (stamp_at h w) msg) (target_item w t r).
Proof.
  unfold target_item at 1, after_status_write. cbn [table].
  by rewrite lookup_insert_eq.
Qed.


(** [execute_webhook] on a payload with a truthy [url] and a string
    [method]: the request is logged and goes out, and what it meets
    decides; an answer that [raise_for_status] lets through is logged
    as well. *)
Lemma execute_webhook_sends (h : host) (p : list (string * value)) (m : string)
      (w : world) :
  truthy (default VNull (dict_get "url" p)) = true ->
  default (VStr "POST") (dict_get "method" p) = VStr m ->
  let w1 := after_request (after_log w INFO (snd (making h p)))
                          (request_for p m) in
  execute_webhook h (VMap p) w
  = match http_reply h (length (http_sent w)) (request_for p m) with
    | HttpRaise e => (Raise e, w1)
    | HttpResponse c reason url text =>
        if (400 <=? c) && (c <? 500) then
          (Raise (Exn RequestException
                      (PyStr.of_nonneg c ++ " Client Error: " ++ reason
                       ++ " for url: " ++ url)), w1)
        else if (500 <=? c) && (c <? 600) then
          (Raise (Exn RequestException
                      (PyStr.of_nonneg c ++ " Server Error: " ++ reason
                       ++ " for url: " ++ url)), w1)
        else (Ok c, after_log w1 INFO (snd (webhook_response h c text)))
    end.
Proof.
  intros Hurl Hm w1. unfold execute_webhook, bind, payload_get. cbn [ret].
  rewrite Hurl. cbn [negb]. rewrite log_msg_eq, Hm.
  unfold send, request_for.
  cbn [http_sent after_log table clock_reads uuid_draws store_calls log].
  subst w1. unfold making, after_request, after_log. cbn [snd]. rewrite Hm.
  cbn [http_sent table clock_reads uuid_draws store_calls log].
  destruct (http_reply h _ _) as [c reason url text|e]; [|reflexivity].
  unfold raise_for_status.
  destruct ((400 <=? c) && (c <? 500)); [reflexivity|].
  destruct ((500 <=? c) && (c <? 600)); [reflexivity|].
  reflexivity.
Qed.

Lemma execute_webhook_raises (h : host) (p : list (string * value)) (m : string)
      (w : world) (e : exn) :
  truthy (default VNull (dict_get "url" p)) = true ->
  default (VStr "POST") (dict_get "method" p) = VStr m ->
  reply_raises (http_reply h (length (http_sent w)) (request_for p m)) e ->
  execute_webhook h (VMap p) w
  = (Raise e, after_request (after_log w INFO (snd (making h p)))
                            (request_for p m)).
Proof.
  intros Hurl Hm Hr. rewrite (execute_webhook_sends h p m w Hurl Hm).
  destruct Hr as [e|c reason url text Hc|c reason url text Hc].
  - reflexivity.
  - replace ((400 <=? c) && (c <? 500)) with true
      by (symmetry; apply andb_true_intro; split; lia).
    reflexivity.
  - replace ((400 <=? c) && (c <? 500)) with false
      by (symmetry; apply andb_false_intro2; lia).
    replace ((500 <=? c) && (c <? 600)) with true
      by (symmetry; apply andb_true_intro; split; lia).
    reflexivity.
Qed.



(** X8.  The same webhook task when the request fails, by an exception
    of [requests] or by a 4xx or 5xx answer: one request is sent, the
    failure is logged at [ERROR] after the records of the start, of
    the write of [running] and of the request, and the task ends
    [failed].  Its [error_message] is the text of the exception; an
    exception with an empty text leaves [error_message] as it was. *)
Theorem webhook_task_fails (h : host) (task : item) (w : world)
        (t r m : string) (p : list (string * value)) (e : exn) :
  task !! "task_id" = Some (VStr t) ->
  task !! "run_at" = Some (VStr r) ->
  task !! "action" = Some (VStr "webhook") ->
  task !! "payload" = Some (VMap p) ->
  t ≠ "" -> r ≠ "" ->
  truthy (default VNull (dict_get "url" p)) = true ->
  default (VStr "POST") (dict_get "method" p) = VStr m ->
  reply_raises (http_reply h (length (http_sent w)) (request_for p m)) e ->
  store_fault h (store_calls w) = None ->
  store_fault h (S (store_calls w)) = None ->
  exists (w' : world) (final : item),
    execute_task h task w = (Ok tt, w')
    /\ table w' = <[(t, r) := final]> (table w)
    /\ final !! "status" = Some (VStr "failed")
    /\ final !! "error_message"
       = (if String.eqb (exn_msg e) "" then target_item w t r !! "error_message"
          else Some (VStr (exn_msg e)))
    /\ http_sent w' = (http_sent w ++ [request_for p m])%list
    /\ log w'
       = (log w ++ [executing h (VStr t) (VStr "webhook");
                    updated h (VStr t) "running";
                    making h p;
                    (ERROR, ("Task execution failed: " ++ exn_msg e)%string);
                    updated h (VStr t) "failed"])%list.
Proof.
  intros Hid Hrun Hact Hpay Ht Hr Hurl Hm Hreply Hf1 Hf2.
  set (w0 := after_log w INFO (snd (executing h (VStr t) (VStr "webhook")))).
  set (w1 := after_status_write h w0 t r "running" None).
  set (w2 := after_request (after_log w1 INFO (snd (making h p)))
                           (request_for p m)).
  set (w3 := after_log w2 ERROR ("Task execution failed: " ++ exn_msg e)).
  exists (after_status_write h w3 t r "failed" (Some (exn_msg e))).
  exists (set_attrs (status_update "failed" (stamp_at h w3) (Some (exn_msg e)))
                    (target_item w3 t r)).
  split.
  { unfold execute_task, bind, item_get.
    rewrite Hid, Hrun, Hact, Hpay. cbn [ret].
    rewrite log_msg_eq. change (after_log w INFO _) with w0.
    unfold try_except, execute_task_body, bind.
    rewrite (update_task_status_ok h w0 t r "running" None Ht Hr Hf1).
    fold w1. unfold dispatch. cbn [eq_str String.eqb Ascii.eqb Bool.eqb].
    unfold bind.
    rewrite (execute_webhook_raises h p m w1 e Hurl Hm Hreply).
    fold w2. rewrite log_msg_eq. fold w3.
    by rewrite (update_task_status_ok h w3 t r "failed" (Some (exn_msg e)) Ht Hr Hf2). }
  split; [unfold after_status_write, w3, after_log, w2, after_request,
            after_log, w1, after_status_write, w0, after_log;
          cbn; by rewrite insert_insert_eq|].
  split; [apply status_update_status|].
  split; [|split; [reflexivity|log_eq]].
  assert (Htarget : target_item w3 t r = target_item w1 t r) by reflexivity.
  rewrite Htarget. unfold w1. rewrite target_item_after_write.
  change (target_item w0 t r) with (target_item w t r).
  destruct (String.eqb (exn_msg e) "") eqn:Hmsg.
  - apply String.eqb_eq in Hmsg. rewrite Hmsg.
    rewrite status_update_no_message by auto.
    apply status_update_no_message. auto.
  - apply String.eqb_neq in Hmsg. by apply status_update_message.
Qed.

Lemma append_nonempty_r (a : string) (c : ascii) (b : string) :
  a ++ String c b ≠ "".
Proof. destruct a; discriminate. Qed.

Lemma isoformat_nonempty (dt : datetime) : isoformat dt ≠ "".
Proof. unfold isoformat. apply append_nonempty_r. Qed.

Lemma replace_nonempty (old : string) (c : ascii) (new s : string) :
  s ≠ "" -> PyStr.replace old (String c new) s ≠ "".
Proof.
  destruct s as [|d s']; [congruence|]. intros _.
  unfold PyStr.replace. cbn [PyStr.replace_from].
  destruct (String.prefix old (String d s')); discriminate.
Qed.

Lemma next_run_at_of_inv (h : host) (task : item) (nr : string) :
  next_run_at_of h task = Some nr ->
  exists (rec rat : value) (dt next : datetime),
    task !! "recurrence" = Some rec /\ task !! "run_at" = Some rat
    /\ parse_run_at h rat = Ok dt /\ next_run rec dt = Some (Ok next)
    /\ nr = PyStr.replace "+00:00" "Z" (isoformat next).
Proof.
  unfold next_run_at_of.
  destruct (task !! "recurrence") as [rec|]; [|discriminate].
  destruct (task !! "run_at") as [rat|]; [|discriminate].
  destruct (parse_run_at h rat) as [dt|] eqn:Hparse; [|discriminate].
  destruct (next_run rec dt) as [[next|]|] eqn:Hnext; try discriminate.
  intros [= <-]. exists rec, rat, dt, next. repeat split; assumption.
Qed.

(** A recurrence that [next_run] knows is a string. *)
Lemma next_run_some_str (rec : value) (dt : datetime)
      (res : result datetime) :
  next_run rec dt = Some res -> exists s : string, rec = VStr s.
Proof.
  unfold next_run. destruct rec; cbn [eq_str]; try discriminate.
  intros _. eexists. reflexivity.
Qed.

(** The successor goes through the client when the values copied from
    the parent do. *)
Lemma new_task_taken (h : host) (parent action payload : value)
      (rec new_task_id next_run_at created updated : string) :
  refusal h parent = None -> refusal h action = None ->
  refusal h payload = None ->
  first_refusal h
    (omap (fun a => new_task parent (VStr rec) action payload new_task_id
                             next_run_at created updated !! a)
          ["task_id"; "action"; "payload"; "run_at"; "status"; "recurrence";
           "created_at"; "updated_at"; "parent_task_id"]) = None.
Proof.
  intros Hp Ha Hpl.
  set (it := new_task _ _ _ _ _ _ _ _).
  assert (L1 : it !! "task_id" = Some (VStr new_task_id))
    by (unfold it, new_task; by simplify_map_eq).
  assert (L2 : it !! "action" = Some action)
    by (unfold it, new_task; by simplify_map_eq).
  assert (L3 : it !! "payload" = Some payload)
    by (unfold it, new_task; by simplify_map_eq).
  assert (L4 : it !! "run_at" = Some (VStr next_run_at))
    by (unfold it, new_task; by simplify_map_eq).
  assert (L5 : it !! "status" = Some (VStr "scheduled"))
    by (unfold it, new_task; by simplify_map_eq).
  assert (L6 : it !! "recurrence" = Some (VStr rec))
    by (unfold it, new_task; by simplify_map_eq).
  assert (L7 : it !! "created_at" = Some (VStr created))
    by (unfold it, new_task; by simplify_map_eq).
  assert (L8 : it !! "updated_at" = Some (VStr updated))
    by (unfold it, new_task; by simplify_map_eq).
  assert (L9 : it !! "parent_task_id" = Some parent)
    by (unfold it, new_task; by simplify_map_eq).
  cbn [omap list_omap]. rewrite L1, L2, L3, L4, L5, L6, L7, L8, L9.
  cbn [first_refusal refusal]. by rewrite Ha, Hpl, Hp.
Qed.

(** X9.  When the date arithmetic goes through, the table client takes
    the parent's [task_id], action and payload, and the table takes the
    call, the expansion puts exactly one item: the successor, under the
    key made of [successor_id] and the new [run_at], in status
    [scheduled], with the parent's action, payload and recurrence, its
    [task_id] as [parent_task_id], and no [error_message]; and it logs
    the two identifiers and the new [run_at]. *)
Theorem expansion_puts_successor (h : host) (task : item) (w : world)
        (parent action payload : value) (nr : string) :
  task !! "task_id" = Some parent ->
  task !! "action" = Some action ->
  task !! "payload" = Some payload ->
  next_run_at_of h task = Some nr ->
  refusal h parent = None ->
  refusal h action = None ->
  refusal h payload = None ->
  store_fault h (store_calls w) = None ->
  exists (w' : world) (succ : item),
    schedule_next_occurrence h task w = (Ok tt, w')
    /\ table w' = <[(successor_id h parent nr, nr) := succ]> (table w)
    /\ store_calls w' = S (store_calls w)
    /\ succ !! "task_id" = Some (VStr (successor_id h parent nr))
    /\ succ !! "run_at" = Some (VStr nr)
    /\ succ !! "status" = Some (VStr "scheduled")
    /\ succ !! "action" = Some action
    /\ succ !! "payload" = Some payload
    /\ succ !! "recurrence" = task !! "recurrence"
    /\ succ !! "parent_task_id" = Some parent
    /\ succ !! "created_at" = Some (VStr (stamp_at h w))
    /\ succ !! "error_message" = None
    /\ log w'
       = (log w ++ [scheduled_next h parent (successor_id h parent nr) nr])%list.
Proof.
  intros Hid Hact Hpay Hnr Htp Hta Htpl Hf.
  destruct (next_run_at_of_inv h task nr Hnr)
    as (rec & rat & dt & next & Hrec & Hrat & Hparse & Hnext & ->).
  destruct (next_run_some_str _ _ _ Hnext) as [recs ->].
  set (nr := PyStr.replace "+00:00" "Z" (isoformat next)).
  set (w1 := mk_world (table w) (S (S (clock_reads w))) (uuid_draws w)
                      (store_calls w) (http_sent w) (log w)).
  set (succ := new_task parent (VStr recs) action payload
                        (successor_id h parent nr) nr
                        (stamp_at h w)
                        (isoformat (utcnow_at h (S (clock_reads w))) ++ "Z")).
  exists (mk_world (<[(successor_id h parent nr, nr) := succ]> (table w))
                   (clock_reads w1) (uuid_draws w1) (S (store_calls w1))
                   (http_sent w1)
                   (log w1 ++ [scheduled_next h parent
                                 (successor_id h parent nr) nr])).
  exists succ.
  split.
  { unfold schedule_next_occurrence, bind, item_get, lift.
    rewrite Hrec, Hid, Hrat. cbn [ret]. rewrite Hparse, Hnext, Hact, Hpay.
    cbn [ret utcnow clock_reads]. fold nr.
    erewrite (put_item_ok h _ _ _ (successor_id h parent nr) nr "scheduled");
      [reflexivity
      |unfold new_task; by simplify_map_eq
      |unfold new_task; by simplify_map_eq
      |unfold new_task; by simplify_map_eq
      |unfold successor_id; apply append_nonempty_r
      |apply replace_nonempty, isoformat_nonempty
      |by apply new_task_taken
      |exact Hf]. }
  split; [reflexivity|]. split; [reflexivity|].
  rewrite Hrec. unfold succ, new_task.
  repeat split; by simplify_map_eq.
Qed.

(** X10.  A message task whose [run_at] parses and whose recurrence is
    none of [daily], [weekly], [monthly]: the task ends [completed], a
    warning names the pattern after the four records of a completed
    message task, and the table is called for the two status writes
    only, so no successor is put. *)
Theorem unknown_recurrence_completes_without_successor
        (h : host) (task : item) (w : world) (t r : string)
        (p : list (string * value)) (rec : value) (dt : datetime) :
  task !! "task_id" = Some (VStr t) ->
  task !! "run_at" = Some (VStr r) ->
  task !! "action" = Some (VStr "message") ->
  task !! "payload" = Some (VMap p) ->
  task !! "recurrence" = Some rec ->
  eq_str rec "daily" = false ->
  eq_str rec "weekly" = false ->
  eq_str rec "monthly" = false ->
  parse_run_at h (VStr r) = Ok dt ->
  t ≠ "" -> r ≠ "" ->
  store_fault h (store_calls w) = None ->
  store_fault h (S (store_calls w)) = None ->
  exists (w' : world) (final : item),
    execute_task h task w = (Ok tt, w')
    /\ table w' = <[(t, r) := final]> (table w)
    /\ final !! "status" = Some (VStr "completed")
    /\ store_calls w' = S (S (store_calls w))
    /\ log w'
       = (log w ++ [executing h (VStr t) (VStr "message");
                    updated h (VStr t) "running";
                    sending h p;
                    updated h (VStr t) "completed";
                    (WARNING, ("Unsupported recurrence pattern: "
                               ++ py_str h rec)%string)])%list.
Proof.
  intros Hid Hrun Hact Hpay Hrec Hd Hw Hm Hparse Ht Hr Hf1 Hf2.
  set (w0 := after_log w INFO (snd (executing h (VStr t) (VStr "message")))).
  set (w1 := after_status_write h w0 t r "running" None).
  set (w1' := after_log w1 INFO (snd (sending h p))).
  set (w2 := after_status_write h w1' t r "completed" None).
  exists (after_log w2 WARNING ("Unsupported recurrence pattern: "
                                ++ py_str h rec)).
  exists (set_attrs (status_update "completed" (stamp_at h w1') None)
                    (target_item w1' t r)).
  split.
  { unfold execute_task, bind, item_get.
    rewrite Hid, Hrun, Hact, Hpay. cbn [ret].
    rewrite log_msg_eq. change (after_log w INFO _) with w0.
    unfold try_except, execute_task_body, bind.
    rewrite (update_task_status_ok h w0 t r "running" None Ht Hr Hf1).
    fold w1. unfold dispatch. cbn [eq_str String.eqb Ascii.eqb Bool.eqb].
    unfold bind, execute_message, bind, payload_get. cbn [ret].
    rewrite log_msg_eq. change (after_log w1 INFO _) with w1'. cbn [ret].
    rewrite (update_task_status_ok h w1' t r "completed" None Ht Hr Hf2).
    fold w2. rewrite Hrec.
    unfold schedule_next_occurrence, bind, item_get, lift.
    rewrite Hrec, Hid, Hrun. cbn [ret]. rewrite Hparse.
    unfold next_run. rewrite Hd, Hw, Hm. reflexivity. }
  split; [unfold after_log, w2, after_status_write, w1', after_log, w1,
            after_status_write, w0, after_log; cbn;
          by rewrite insert_insert_eq|].
  split; [apply status_update_status|].
  split; [reflexivity|log_eq].
Qed.

(** X11.  When the write of [running] is refused and the next write is
    taken, the [except] clause turns the refusal into the task's end:
    nothing is dispatched, the failure is logged, the task is [failed]
    with the text of the exception, and [execute_task] returns, so the
    loop of the tick goes on. *)
Theorem refused_pickup_write_marks_failed
        (h : host) (task : item) (w : world) (t r : string)
        (action payload : value) (e : exn) :
  task !! "task_id" = Some (VStr t) ->
  task !! "run_at" = Some (VStr r) ->
  task !! "action" = Some action ->
  task !! "payload" = Some payload ->
  t ≠ "" -> r ≠ "" ->
  store_fault h (store_calls w) = Some e ->
  store_fault h (S (store_calls w)) = None ->
  exists (w' : world) (final : item),
    execute_task h task w = (Ok tt, w')
    /\ table w' = <[(t, r) := final]> (table w)
    /\ final !! "status" = Some (VStr "failed")
    /\ final !! "error_message"
       = (if String.eqb (exn_msg e) "" then target_item w t r !! "error_message"
          else Some (VStr (exn_msg e)))
    /\ http_sent w' = http_sent w
    /\ log w'
       = (log w ++ [executing h (VStr t) action;
                    (ERROR, ("Task execution failed: " ++ exn_msg e)%string);
                    updated h (VStr t) "failed"])%list
    /\ forall rest : list item,
         for_each (execute_task h) (task :: rest) w
         = for_each (execute_task h) rest w'.
Proof.
  intros Hid Hrun Hact Hpay Ht Hr Hf1 Hf2.
  set (w0 := after_log w INFO (snd (executing h (VStr t) action))).
  set (w1 := mk_world (table w0) (S (clock_reads w0)) (uuid_draws w0)
                      (S (store_calls w0)) (http_sent w0)
                      (log w0 ++ [(ERROR, "Task execution failed: " ++ exn_msg e)])).
  set (w2 := after_status_write h w1 t r "failed" (Some (exn_msg e))).
  assert (Hrun_task : execute_task h task w = (Ok tt, w2)).
  { unfold execute_task, bind, item_get.
    rewrite Hid, Hrun, Hact, Hpay. cbn [ret].
    rewrite log_msg_eq. change (after_log w INFO _) with w0.
    unfold try_except, execute_task_body, bind.
    rewrite (update_task_status_fault h w0 t r "running" None e Hf1).
    unfold log_msg. cbn [table clock_reads uuid_draws store_calls http_sent log exn_msg].
    fold w1.
    by rewrite (update_task_status_ok h w1 t r "failed" (Some (exn_msg e)) Ht Hr Hf2). }
  exists w2.
  exists (set_attrs (status_update "failed" (stamp_at h w1) (Some (exn_msg e)))
                    (target_item w1 t r)).
  split; [exact Hrun_task|].
  split; [reflexivity|].
  split; [apply status_update_status|].
  split.
  { assert (Htarget : target_item w1 t r = target_item w t r) by reflexivity.
    rewrite Htarget.
    destruct (String.eqb (exn_msg e) "") eqn:Hmsg.
    - apply String.eqb_eq in Hmsg. rewrite Hmsg.
      apply status_update_no_message. auto.
    - apply String.eqb_neq in Hmsg. by apply status_update_message. }
  split; [reflexivity|]. split; [log_eq|].
  intros rest. cbn [for_each]. unfold bind at 1. by rewrite Hrun_task.
Qed.

Lemma bind_ok_inv {A B} (m : M A) (f : A -> M B) (w w' : world) (b : B) :
  bind m f w = (Ok b, w') ->
  exists (a : A) (w1 : world), m w = (Ok a, w1) /\ f a w1 = (Ok b, w').
Proof.
  unfold bind. destruct (m w) as [[a|e] w1]; [|discriminate]. eauto.
Qed.

Lemma ret_ok_inv {A} (a b : A) (w w' : world) :
  ret a w = (Ok b, w') -> b = a.
Proof. by intros [= -> _]. Qed.

(** X12.  The tick always answers: no exception leaves [handler], and
    the answer is 200 or 500. *)
Theorem handler_always_answers (h : host) (w : world) :
  exists (resp : response) (w' : world),
    handler h w = (Ok resp, w')
    /\ (statusCode resp = 200 \/ statusCode resp = 500).
Proof.
  unfold handler. unfold bind at 1. rewrite log_msg_eq. unfold try_except.
  match goal with
  | |- context [match ?m ?w0 with _ => _ end] =>
      destruct (m w0) as [[resp|e] w1] eqn:Hm
  end.
  - exists resp, w1. split; [reflexivity|]. left.
    repeat (apply bind_ok_inv in Hm as (? & ? & _ & Hm)).
    apply ret_ok_inv in Hm as ->. reflexivity.
  - unfold bind, log_msg, ret. eexists _, _. split; [reflexivity|]. by right.
Qed.



(** ** Creating a task, in general *)

Lemma contains_dict (m : list (string * value)) (k : string) (w : world) :
  contains (VMap m) k w = (Ok (bool_decide (is_Some (dict_get k m))), w).
Proof. reflexivity. Qed.

(** A body with the three fields and a [run_at] that parses: what
    [schedule_task] answers is decided by the put. *)
Lemma schedule_task_reaches_put (h : host) (w : world)
      (m : list (string * value)) (action payload : value) (r : string) :
  dict_get "action" m = Some action ->
  dict_get "payload" m = Some payload ->
  dict_get "run_at" m = Some (VStr r) ->
  is_ok (fromisoformat (py_repr h) (PyStr.replace "Z" "+00:00" r)) = true ->
  schedule_task h (Ok (VMap m)) w
  = match put_item h ["task_id"; "action"; "payload"; "run_at"; "status";
                      "created_at"; "updated_at"; "recurrence"]
                   (created_item h w m action payload r) (before_put w) with
    | (Ok _, w') => (Ok (created_response h w), w')
    | (Raise e, w') =>
        match exn_cls e with
        | ClientError =>
            (Ok (mk_response 500 (error_body "Failed to schedule task")),
             after_log w' ERROR ("DynamoDB error: " ++ exn_msg e))
        | _ =>
            (Ok (mk_response 500 (error_body (exn_msg e))),
             after_log w' ERROR ("Error: " ++ exn_msg e))
        end
    end.
Proof.
  intros Hact Hpay Hrun Hparse.
  unfold schedule_task, bind, lift. cbn [first_missing]. unfold bind.
  rewrite (contains_present m "action" _ w Hact).
  rewrite (contains_present m "payload" _ w Hpay).
  rewrite (contains_present m "run_at" _ w Hrun).
  cbn [ret uuid4]. unfold check_run_at, bind.
  rewrite (subscript_present m "run_at" _ _ Hrun). unfold lift.
  destruct (fromisoformat (py_repr h) (PyStr.replace "Z" "+00:00" r))
    as [dt|e]; [|discriminate].
  cbn [ret utcnow clock_reads].
  rewrite (subscript_present m "action" _ _ Hact).
  rewrite (subscript_present m "payload" _ _ Hpay).
  rewrite contains_dict. unfold subscript, created_item, stamp_at.
  destruct (dict_get "recurrence" m) as [rec|] eqn:Hrec;
    [rewrite bool_decide_true by (eexists; reflexivity)
    |rewrite bool_decide_false by (intros [? ?]; discriminate)];
    cbn [ret];
    (match goal with
     | |- context [put_item h ?ns ?it ?w0] =>
         change w0 with (before_put w);
         destruct (put_item h ns it (before_put w)) as [[[]|e] w1]
     end; [reflexivity|by destruct (exn_cls e)]).
Qed.

(** What the client refuses it refuses with [TypeError] or with a
    signal of [decimal], never as an error of the table. *)
Lemma refusal_class (h : host) :
  forall (v : value) (e : exn),
    refusal h v = Some e ->
    exn_cls e = TypeError \/ exn_cls e = DecimalException.
Proof.
  fix IH 1. intros [s|n|f|b| |l|m] e; cbn [refusal]; try discriminate.
  - destruct (Z.abs n <? 10 ^ 38); [discriminate|].
    intros [= <-]. by right.
  - intros [= <-]. by left.
  - induction l as [|x l IHl]; [discriminate|].
    destruct (refusal h x) as [e0|] eqn:E; [|exact IHl].
    intros [= <-]. by apply (IH x).
  - induction m as [|kv m IHm]; [discriminate|].
    destruct (refusal h (snd kv)) as [e0|] eqn:E; [|exact IHm].
    intros [= <-]. by apply (IH (snd kv)).
Qed.

Lemma created_item_lookups (h : host) (w : world) (m : list (string * value))
      (action payload : value) (r : string) :
  let it := created_item h w m action payload r in
  it !! "task_id" = Some (VStr (uuid4_at h (uuid_draws w)))
  /\ it !! "run_at" = Some (VStr r)
  /\ it !! "status" = Some (VStr "scheduled")
  /\ it !! "action" = Some action
  /\ it !! "payload" = Some payload
  /\ it !! "created_at" = Some (VStr (stamp_at h w))
  /\ it !! "updated_at" = Some (VStr (stamp_at h w))
  /\ it !! "recurrence" = dict_get "recurrence" m
  /\ it !! "error_message" = None
  /\ it !! "parent_task_id" = None.
Proof.
  unfold created_item, task_item.
  destruct (dict_get "recurrence" m); cbn zeta; repeat split; by simplify_map_eq.
Qed.

(** X14.  A body with [action], [payload] and a [run_at] that parses,
    on a table that takes the put: the answer is 201 with the drawn
    identifier, and one item is put under that identifier and [run_at].
    The table client has to take the values copied from the body, which
    it does when they hold no float and no integer of more than 38
    digits.  The item
    is [scheduled], carries the body's action and payload as they
    came, its recurrence when the body has one, the clock reading as
    both [created_at] and [updated_at], and neither [error_message] nor
    [parent_task_id]. *)
Theorem create_stores_scheduled_task (h : host) (w : world)
        (m : list (string * value)) (action payload : value) (r : string) :
  dict_get "action" m = Some action ->
  dict_get "payload" m = Some payload ->
  dict_get "run_at" m = Some (VStr r) ->
  is_ok (fromisoformat (py_repr h) (PyStr.replace "Z" "+00:00" r)) = true ->
  uuid4_at h (uuid_draws w) ≠ "" ->
  refusal h action = None ->
  refusal h payload = None ->
  (forall rec, dict_get "recurrence" m = Some rec -> refusal h rec = None) ->
  store_fault h (store_calls w) = None ->
  let task_id := uuid4_at h (uuid_draws w) in
  exists (w' : world) (stored : item),
    schedule_task h (Ok (VMap m)) w = (Ok (created_response h w), w')
    /\ table w' = <[(task_id, r) := stored]> (table w)
    /\ store_calls w' = S (store_calls w)
    /\ stored !! "task_id" = Some (VStr task_id)
    /\ stored !! "run_at" = Some (VStr r)
    /\ stored !! "status" = Some (VStr "scheduled")
    /\ stored !! "action" = Some action
    /\ stored !! "payload" = Some payload
    /\ stored !! "created_at" = Some (VStr (stamp_at h w))
    /\ stored !! "updated_at" = Some (VStr (stamp_at h w))
    /\ stored !! "recurrence" = dict_get "recurrence" m
    /\ stored !! "error_message" = None
    /\ stored !! "parent_task_id" = None.
Proof.
  intros Hact Hpay Hrun Hparse Hid Hta Htp Htr Hf task_id.
  pose proof (parsed_run_at_nonempty _ _ Hparse) as Hr.
  pose proof (created_item_lookups h w m action payload r) as Hl.
  pose proof (created_item_taken h w m action payload r Hta Htp Htr) as Hser.
  cbn zeta in Hl.
  destruct Hl as (L1 & L2 & L3 & Lrest).
  eexists. exists (created_item h w m action payload r).
  split.
  { rewrite (schedule_task_reaches_put h w m action payload r Hact Hpay Hrun Hparse).
    by rewrite (put_item_ok h _ _ (before_put w) task_id r "scheduled"
                  L1 L2 L3 Hid Hr Hser Hf). }
  split; [reflexivity|]. split; [reflexivity|].
  split; [exact L1|]. split; [exact L2|]. split; [exact L3|]. exact Lrest.
Qed.

(** X15.  The table refuses the put of a valid request whose values
    the table client takes: the answer is 500, with
    [Failed to schedule task] for a [ClientError] and the text of the
    exception for any other, the failure is logged and the table is as
    it was. *)
Theorem create_answers_500_when_put_fails (h : host) (w : world)
        (m : list (string * value)) (action payload : value) (r : string)
        (e : exn) :
  dict_get "action" m = Some action ->
  dict_get "payload" m = Some payload ->
  dict_get "run_at" m = Some (VStr r) ->
  is_ok (fromisoformat (py_repr h) (PyStr.replace "Z" "+00:00" r)) = true ->
  refusal h action = None ->
  refusal h payload = None ->
  (forall rec, dict_get "recurrence" m = Some rec -> refusal h rec = None) ->
  store_fault h (store_calls w) = Some e ->
  exists w' : world,
    schedule_task h (Ok (VMap m)) w
    = (Ok (mk_response 500
             (error_body (match exn_cls e with
                          | ClientError => "Failed to schedule task"
                          | _ => exn_msg e
                          end))), w')
    /\ table w' = table w
    /\ log w'
       = (log w ++ [(ERROR, (match exn_cls e with
                             | ClientError => "DynamoDB error: "
                             | _ => "Error: "
                             end ++ exn_msg e)%string)])%list.
Proof.
  intros Hact Hpay Hrun Hparse Hta Htp Htr Hf.
  pose proof (created_item_taken h w m action payload r Hta Htp Htr) as Hser.
  rewrite (schedule_task_reaches_put h w m action payload r Hact Hpay Hrun Hparse).
  unfold put_item, bind, serialize. rewrite Hser.
  unfold ret, table_call. cbn [before_put store_calls].
  rewrite Hf.
  destruct (exn_cls e); eexists; (split; [reflexivity|split; reflexivity]).
Qed.

(** X27.  A valid request whose payload the table client refuses, for
    a float or an integer of more than 38 digits in it, is answered 500
    with the text of the [TypeError] or of the [decimal] signal; no
    request reaches the table and nothing is stored. *)
Theorem create_refuses_unserialisable_payload (h : host) (w : world)
        (m : list (string * value)) (action payload : value) (r : string)
        (e : exn) :
  dict_get "action" m = Some action ->
  dict_get "payload" m = Some payload ->
  dict_get "run_at" m = Some (VStr r) ->
  is_ok (fromisoformat (py_repr h) (PyStr.replace "Z" "+00:00" r)) = true ->
  refusal h action = None ->
  refusal h payload = Some e ->
  exists w' : world,
    schedule_task h (Ok (VMap m)) w
    = (Ok (mk_response 500 (error_body (exn_msg e))), w')
    /\ table w' = table w
    /\ store_calls w' = store_calls w
    /\ log w' = (log w ++ [(ERROR, ("Error: " ++ exn_msg e)%string)])%list.
Proof.
  intros Hact Hpay Hrun Hparse Hta Hre.
  rewrite (schedule_task_reaches_put h w m action payload r Hact Hpay Hrun Hparse).
  pose proof (created_item_lookups h w m action payload r) as Hl.
  cbn zeta in Hl. destruct Hl as (L1 & _ & _ & L4 & L5 & _).
  unfold put_item, bind, serialize. cbn [omap list_omap].
  rewrite L1, L4, L5. cbn [first_refusal refusal]. rewrite Hta, Hre.
  unfold raise.
  destruct (refusal_class h payload e Hre) as [-> | ->];
    eexists; (split; [reflexivity|repeat split; reflexivity]).
Qed.

(** X16.  A dict body that lacks one of [action], [payload], [run_at]
    is answered 400 naming the first of them that is missing, in that
    order; nothing is drawn, read or written. *)
Theorem create_rejects_missing_field (h : host) (w : world)
        (m : list (string * value)) (field : string) :
  find (fun f => negb (bool_decide (is_Some (dict_get f m))))
       ["action"; "payload"; "run_at"] = Some field ->
  schedule_task h (Ok (VMap m)) w
  = (Ok (mk_response 400 (error_body ("Missing required field: " ++ field))), w).
Proof.
  cbn [find]. unfold schedule_task, bind, lift. cbn [first_missing].
  unfold bind. rewrite contains_dict.
  destruct (bool_decide (is_Some (dict_get "action" m))); cbn [negb ret];
    [|by intros [= <-]].
  rewrite contains_dict.
  destruct (bool_decide (is_Some (dict_get "payload" m))); cbn [negb ret];
    [|by intros [= <-]].
  rewrite contains_dict.
  destruct (bool_decide (is_Some (dict_get "run_at" m))); cbn [negb ret];
    [discriminate|by intros [= <-]].
Qed.

Lemma new_datetime_raises_value_error (y mo d hh mi s us : Z) (tz : option Z)
      (e : exn) :
  new_datetime y mo d hh mi s us tz = Raise e -> exn_cls e = ValueError.
Proof.
  unfold new_datetime, value_error.
  repeat match goal with
         | |- context [if ?b then _ else _] => destruct b
         end; by intros [= <-].
Qed.

Lemma fromisoformat_raises_value_error (repr : string -> string) (s : string)
      (e : exn) :
  fromisoformat repr s = Raise e -> exn_cls e = ValueError.
Proof.
  unfold fromisoformat, value_error.
  destruct (parse_isoformat_date _) as [[[y mo] d]|]; [|by intros [= <-]].
  match goal with
  | |- context [match ?t with Some _ => _ | None => _ end] =>
      destruct t as [[[[[hh mi] sec] us] tz]|]; [|by intros [= <-]]
  end.
  unfold tzinfo_from_isoformat_results, timezone, value_error.
  destruct tz as [[off tz_us]|]; cbn [rbind];
    [|apply new_datetime_raises_value_error].
  destruct (off =? 0); cbn [rbind]; [apply new_datetime_raises_value_error|].
  destruct (_ && _); cbn [rbind];
    [apply new_datetime_raises_value_error|by intros [= <-]].
Qed.

(** X17.  A body with the three fields whose [run_at] is a string that
    does not parse is answered 400 with the format hint; a [run_at]
    that is no string at all is answered 500 with the text of the
    [AttributeError].  Either way an identifier was drawn and the table
    was not called. *)
Theorem create_rejects_bad_run_at (h : host) (w : world)
        (m : list (string * value)) (action payload run_at : value) :
  dict_get "action" m = Some action ->
  dict_get "payload" m = Some payload ->
  dict_get "run_at" m = Some run_at ->
  let drawn := mk_world (table w) (clock_reads w) (S (uuid_draws w))
                        (store_calls w) (http_sent w) (log w) in
  (forall r : string,
     run_at = VStr r ->
     is_ok (fromisoformat (py_repr h) (PyStr.replace "Z" "+00:00" r)) = false ->
     schedule_task h (Ok (VMap m)) w
     = (Ok (mk_response 400 (error_body
              "Invalid run_at format. Use ISO8601 format (YYYY-MM-DDTHH:MM:SSZ)")),
        drawn))
  /\ (as_str run_at = None ->
      exists msg : string,
        msg = "'" ++ type_name "int" run_at ++ "' object has no attribute 'replace'"
        /\ schedule_task h (Ok (VMap m)) w
           = (Ok (mk_response 500 (error_body msg)),
              after_log drawn ERROR ("Error: " ++ msg))).
Proof.
  intros Hact Hpay Hrun drawn.
  split.
  - intros r -> Hparse.
    unfold schedule_task, bind, lift. cbn [first_missing]. unfold bind.
    rewrite (contains_present m "action" _ w Hact).
    rewrite (contains_present m "payload" _ w Hpay).
    rewrite (contains_present m "run_at" _ w Hrun).
    cbn [ret uuid4]. unfold check_run_at, bind.
    rewrite (subscript_present m "run_at" _ _ Hrun). unfold lift.
    destruct (fromisoformat (py_repr h) (PyStr.replace "Z" "+00:00" r))
      as [dt|e] eqn:Hp; [discriminate|].
    by rewrite (fromisoformat_raises_value_error _ _ _ Hp).
  - intros Hns. eexists. split; [reflexivity|].
    unfold schedule_task, bind, lift. cbn [first_missing]. unfold bind.
    rewrite (contains_present m "action" _ w Hact).
    rewrite (contains_present m "payload" _ w Hpay).
    rewrite (contains_present m "run_at" _ w Hrun).
    cbn [ret uuid4]. unfold check_run_at, bind.
    rewrite (subscript_present m "run_at" _ _ Hrun). unfold lift.
    destruct run_at; try discriminate; reflexivity.
Qed.

(** ** Reading and deleting tasks *)

Lemma filter_none_with (t : string) (tbl : table_t) :
  no_task_with t tbl ->
  filter (fun kv : string * string * item => fst (fst kv) = t) (map_to_list tbl) = [].
Proof.
  intros Hno. apply elem_of_nil_inv. intros [k it] Hin.
  apply list_elem_of_filter in Hin as [Hp Hin].
  apply elem_of_map_to_list in Hin. by apply (Hno k it Hin).
Qed.

Lemma filter_only_with (t r : string) (it : item) (tbl : table_t) :
  only_task_with t r it tbl ->
  filter (fun kv : string * string * item => fst (fst kv) = t) (map_to_list tbl)
  = [((t, r), it)].
Proof.
  intros [Hin Honly]. apply Permutation_singleton_r.
  rewrite <- (map_to_list_delete tbl (t, r) it Hin).
  rewrite filter_cons_True by reflexivity.
  rewrite filter_none_with; [reflexivity|].
  intros k it' Hk Hfst.
  destruct (decide (k = (t, r))) as [->|Hne].
  - by rewrite lookup_delete_eq in Hk.
  - rewrite lookup_delete_ne in Hk by congruence. by apply Hne, (Honly k it').
Qed.

Lemma query_task_id_ok (h : host) (t : string) (w : world) :
  t ≠ "" -> store_fault h (store_calls w) = None ->
  query_task_id h (VStr t) w
  = (Ok (snd <$> sort_by_sort_key
           (filter (fun kv => fst (fst kv) = t) (map_to_list (table w)))),
     after_call w).
Proof.
  intros Ht Hf. apply String.eqb_neq in Ht.
  unfold query_task_id, bind, serialize. cbn [first_refusal refusal].
  unfold ret, table_call. by rewrite Hf, Ht.
Qed.

Lemma path_task_id_ok (ev : event) (t : string) (w : world) :
  names_task ev t -> path_task_id ev w = (Ok (VStr t), w).
Proof.
  intros (pm & Hp & Ht). unfold path_task_id, bind, item_get.
  rewrite Hp. cbn [ret]. unfold subscript. by rewrite Ht.
Qed.

Lemma get_task_none (h : host) (ev : event) (w : world) (t : string) :
  names_task ev t -> t ≠ "" -> store_fault h (store_calls w) = None ->
  no_task_with t (table w) ->
  get_task h ev w = (Ok not_found, after_call w).
Proof.
  intros Hev Ht Hf Hno.
  unfold get_task, try_except, bind.
  rewrite (path_task_id_ok ev t w Hev), (query_task_id_ok h t w Ht Hf).
  by rewrite (filter_none_with t (table w) Hno).
Qed.

(** X18.  A [task_id] no item of the table has: [get_task] and
    [delete_task] both answer 404, after one query and with the table
    as it was. *)
Theorem unknown_task_id_is_404 (h : host) (ev : event) (w : world) (t : string) :
  names_task ev t -> t ≠ "" -> store_fault h (store_calls w) = None ->
  no_task_with t (table w) ->
  get_task h ev w = (Ok not_found, after_call w)
  /\ delete_task h ev w = (Ok not_found, after_call w).
Proof.
  intros Hev Ht Hf Hno. split; [by apply (get_task_none h ev w t)|].
  unfold delete_task, try_except, bind.
  rewrite (path_task_id_ok ev t w Hev), (query_task_id_ok h t w Ht Hf).
  by rewrite (filter_none_with t (table w) Hno).
Qed.

Lemma get_task_unique (h : host) (ev : event) (w : world) (t r : string)
      (it : item) :
  names_task ev t -> t ≠ "" -> store_fault h (store_calls w) = None ->
  only_task_with t r it (table w) ->
  get_task h ev w
  = (Ok (mk_response 200 (VMap [("task", item_value it)])), after_call w).
Proof.
  intros Hev Ht Hf Honly.
  unfold get_task, try_except, bind.
  rewrite (path_task_id_ok ev t w Hev), (query_task_id_ok h t w Ht Hf).
  by rewrite (filter_only_with t r it (table w) Honly).
Qed.

(** X19.  A [task_id] exactly one item has: [get_task] answers 200 with
    that item, whole, and changes nothing in the table. *)
Theorem get_task_returns_the_item (h : host) (ev : event) (w : world) (t r : string)
        (it : item) :
  names_task ev t -> t ≠ "" -> store_fault h (store_calls w) = None ->
  only_task_with t r it (table w) ->
  get_task h ev w
  = (Ok (mk_response 200 (VMap [("task", item_value it)])), after_call w).
Proof.
  intros Hev Ht Hf Honly. by apply (get_task_unique h ev w t r it).
Qed.

Lemma delete_item_ok (h : host) (t r : string) (w : world) :
  t ≠ "" -> r ≠ "" -> store_fault h (store_calls w) = None ->
  delete_item h (VStr t) (VStr r) w
  = (Ok tt, mk_world (delete (t, r) (table w)) (clock_reads w) (uuid_draws w)
                     (S (store_calls w)) (http_sent w) (log w)).
Proof.
  intros Ht Hr Hf. apply String.eqb_neq in Ht. apply String.eqb_neq in Hr.
  unfold delete_item, bind, serialize. cbn [first_refusal refusal].
  unfold ret, table_call, key_of. by rewrite Hf, Ht, Hr.
Qed.

(** X20.  Deleting the one item a [task_id] has, on a table that takes
    the calls: 200, the item is gone and every other item is as it was;
    a [get_task] for the same [task_id] right after answers 404. *)
Theorem delete_then_get_is_404 (h : host) (ev : event) (w : world) (t r : string)
        (it : item) :
  names_task ev t -> t ≠ "" -> r ≠ "" ->
  only_task_with t r it (table w) ->
  it !! "run_at" = Some (VStr r) ->
  store_fault h (store_calls w) = None ->
  store_fault h (S (store_calls w)) = None ->
  store_fault h (S (S (store_calls w))) = None ->
  exists w' : world,
    delete_task h ev w
    = (Ok (mk_response 200 (VMap [("message", VStr "Task deleted successfully")])),
       w')
    /\ table w' = delete (t, r) (table w)
    /\ get_task h ev w' = (Ok not_found, after_call w').
Proof.
  intros Hev Ht Hr Honly Hrun Hf1 Hf2 Hf3.
  eexists. split; [|split].
  - unfold delete_task, try_except, bind.
    rewrite (path_task_id_ok ev t w Hev), (query_task_id_ok h t w Ht Hf1).
    rewrite (filter_only_with t r it (table w) Honly).
    cbn [sort_by_sort_key fold_right insert_by_sort_key fmap list_fmap snd].
    unfold item_get. rewrite Hrun. cbn [ret].
    by rewrite (delete_item_ok h t r (after_call w) Ht Hr Hf2).
  - reflexivity.
  - apply (get_task_none h ev _ t); [exact Hev|exact Ht|exact Hf3|].
    intros k it' Hk Hfst. cbn [table] in Hk.
    destruct Honly as [_ Honly].
    destruct (decide (k = (t, r))) as [->|Hne].
    + by rewrite lookup_delete_eq in Hk.
    + rewrite lookup_delete_ne in Hk by congruence. by apply Hne, (Honly k it').
Qed.

(** X21.  A task just created can be read back: after a create that
    went through (the table client taking the values of the body, the
    table taking the put) with an identifier no item had, [get_task]
    for that identifier answers 200 with exactly the item that was
    put. *)
Theorem create_then_get (h : host) (w : world) (m : list (string * value))
        (action payload : value) (r : string) :
  dict_get "action" m = Some action ->
  dict_get "payload" m = Some payload ->
  dict_get "run_at" m = Some (VStr r) ->
  is_ok (fromisoformat (py_repr h) (PyStr.replace "Z" "+00:00" r)) = true ->
  uuid4_at h (uuid_draws w) ≠ "" ->
  no_task_with (uuid4_at h (uuid_draws w)) (table w) ->
  refusal h action = None ->
  refusal h payload = None ->
  (forall rec, dict_get "recurrence" m = Some rec -> refusal h rec = None) ->
  store_fault h (store_calls w) = None ->
  store_fault h (S (store_calls w)) = None ->
  exists w' : world,
    schedule_task h (Ok (VMap m)) w = (Ok (created_response h w), w')
    /\ forall ev : event,
         names_task ev (uuid4_at h (uuid_draws w)) ->
         get_task h ev w'
         = (Ok (mk_response 200
                  (VMap [("task",
                          item_value (created_item h w m action payload r))])),
            after_call w').
Proof.
  intros Hact Hpay Hrun Hparse Hid Hfresh Hta Htp Htr Hf1 Hf2.
  pose proof (parsed_run_at_nonempty _ _ Hparse) as Hr.
  pose proof (created_item_lookups h w m action payload r) as Hl.
  pose proof (created_item_taken h w m action payload r Hta Htp Htr) as Hser.
  cbn zeta in Hl. destruct Hl as (L1 & L2 & L3 & _).
  set (tid := uuid4_at h (uuid_draws w)) in *.
  set (it := created_item h w m action payload r) in *.
  set (w' := mk_world (<[(tid, r) := it]> (table w)) (S (clock_reads w))
                      (S (uuid_draws w)) (S (store_calls w)) (http_sent w) (log w)).
  exists w'.
  split.
  { rewrite (schedule_task_reaches_put h w m action payload r Hact Hpay Hrun Hparse).
    fold it.
    by rewrite (put_item_ok h _ it (before_put w) tid r "scheduled"
                  L1 L2 L3 Hid Hr Hser Hf1). }
  intros ev Hev.
  apply (get_task_unique h ev w' tid r it Hev Hid Hf2).
  split; [apply lookup_insert_eq|].
  intros k it' Hk Hfst. unfold w' in Hk. cbn [table] in Hk.
  destruct (decide (k = (tid, r))) as [->|Hne]; [reflexivity|].
  rewrite lookup_insert_ne in Hk by congruence.
  by destruct (Hfresh k it' Hk).
Qed.

Lemma query_task_id_table (h : host) (v : value) (w : world) :
  table (snd (query_task_id h v w)) = table w.
Proof.
  unfold query_task_id, bind, serialize.
  destruct (first_refusal h _); [reflexivity|].
  unfold ret, table_call.
  destruct (store_fault h (store_calls w)); [reflexivity|].
  destruct v; try reflexivity.
  by destruct (String.eqb s "").
Qed.

Lemma touches_only_delete_item (h : host) (tid rat : value) :
  touches_only (fun k => tid = VStr (fst k)) (delete_item h tid rat).
Proof.
  intros w k Hk. unfold delete_item, bind, serialize.
  destruct (first_refusal h _); [reflexivity|].
  unfold ret, table_call.
  destruct (store_fault h (store_calls w)); [reflexivity|].
  destruct (key_of tid rat _) as [[k0|e] w1] eqn:Hkey.
  - apply key_of_inv in Hkey as (Ht & Hr & ->). cbn.
    apply lookup_delete_ne. intros <-. by apply Hk.
  - apply (f_equal snd) in Hkey. rewrite key_of_world in Hkey.
    cbn in Hkey. by subst w1.
Qed.

(** X22.  [delete_task] never touches the items of another [task_id]:
    however the request ends, every item whose [task_id] key is not the
    one the event names is after it what it was before. *)
Theorem delete_task_leaves_other_ids (h : host) (ev : event) (w : world)
        (t : string) (k : string * string) :
  names_task ev t -> fst k ≠ t ->
  table (snd (delete_task h ev w)) !! k = table w !! k.
Proof.
  intros Hev Hk. unfold delete_task, try_except. unfold bind at 1.
  rewrite (path_task_id_ok ev t w Hev).
  assert (Hfr : touches_only (fun k => fst k = t)
            (bind (query_task_id h (VStr t))
               (fun tasks =>
                  match tasks with
                  | [] => ret not_found
                  | first :: _ =>
                      bind (item_get first "run_at")
                        (fun run_at =>
                           bind (delete_item h (VStr t) run_at)
                             (fun _ => ret (mk_response 200
                                (VMap [("message", VStr "Task deleted successfully")]))))
                  end))).
  { apply touches_only_bind.
    - intros w0 k0 _. by rewrite query_task_id_table.
    - intros [|first rest]; [apply touches_only_ret|].
      apply touches_only_bind; [apply touches_only_item_get|intros rv].
      apply touches_only_bind; [|intros _; apply touches_only_ret].
      eapply touches_only_weaken; [|apply touches_only_delete_item].
      intros k0 [= ->]. reflexivity. }
  specialize (Hfr w k Hk). revert Hfr.
  match goal with
  | |- table (snd ?x) !! k = _ -> table (snd (match ?y with _ => _ end)) !! k = _ =>
      change y with x; destruct x as [[resp|e] w1]
  end; cbn; auto.
Qed.

(** ** Listing tasks *)

Lemma in_status_partition_spec (st : string) (it : item) :
  in_status_partition st it = true
  <-> it !! "status" = Some (VStr st)
      /\ exists r : string, it !! "run_at" = Some (VStr r).
Proof.
  unfold in_status_partition.
  destruct (it !! "status") as [[s| | | | | |]|];
    destruct (it !! "run_at") as [[r| | | | | |]|];
    split; try discriminate; try (by intros [? [? ?]]); try (by intros [[=] _]).
  - intros Heq. apply String.eqb_eq in Heq as ->. eauto.
  - intros [[= ->] _]. apply String.eqb_refl.
Qed.

Lemma query_status_ok (h : host) (st : string) (w : world) :
  st ≠ "" -> store_fault h (store_calls w) = None ->
  query_status h (VStr st) w
  = (Ok (sort_by_run_at
           (filter (fun it => in_status_partition st it = true)
                   (snd <$> map_to_list (table w)))), after_call w).
Proof.
  intros Hst Hf. apply String.eqb_neq in Hst.
  unfold query_status, bind, serialize. cbn [first_refusal refusal].
  unfold ret, table_call. by rewrite Hf, Hst.
Qed.

Lemma elem_of_table_values (tbl : table_t) (it : item) :
  it ∈ snd <$> map_to_list tbl <-> exists k, tbl !! k = Some it.
Proof.
  rewrite list_elem_of_fmap. split.
  - intros ([k it'] & -> & Hin). exists k. by apply elem_of_map_to_list.
  - intros (k & Hk). exists (k, it). split; [reflexivity|].
    by apply elem_of_map_to_list.
Qed.

(** X23.  [list_tasks] with a status filter, on a table that takes the
    query: the answer is 200, and the tasks in it are exactly the items
    of the table whose [status] is the one asked for (and whose
    [run_at] is a string, as the index requires). *)
Theorem list_tasks_filters_by_status (h : host) (ev : event) (w : world)
        (qm : list (string * value)) (st : string) :
  ev_fields ev !! "queryStringParameters" = Some (VMap qm) ->
  dict_get "status" qm = Some (VStr st) ->
  st ≠ "" ->
  store_fault h (store_calls w) = None ->
  exists tasks : list item,
    list_tasks h ev w = (Ok (listed tasks), after_call w)
    /\ forall it : item,
         it ∈ tasks
         <-> (exists k, table w !! k = Some it)
             /\ it !! "status" = Some (VStr st)
             /\ exists r : string, it !! "run_at" = Some (VStr r).
Proof.
  intros Hq Hs Hst Hf.
  exists (sort_by_run_at
            (filter (fun it => in_status_partition st it = true)
                    (snd <$> map_to_list (table w)))).
  split.
  - unfold list_tasks, try_except, bind. rewrite Hq. cbn [default from_option id].
    assert (Htruthy : truthy (VMap qm) = true) by (by destruct qm).
    rewrite Htruthy. unfold value_get. rewrite Hs. cbn [default from_option id ret].
    assert (Hts : truthy (VStr st) = true)
      by (cbn; by apply negb_true_iff, String.eqb_neq).
    rewrite Hts. by rewrite (query_status_ok h st w Hst Hf).
  - intros it. rewrite elem_of_sort_by_run_at, list_elem_of_filter.
    rewrite in_status_partition_spec, elem_of_table_values. tauto.
Qed.

(** X24.  [list_tasks] without a status filter: absent or null query
    parameters, or a [status] that is absent, null or empty, all lead
    to the scan; the answer is 200 with every item of the table, each
    once. *)
Theorem list_tasks_without_filter_lists_all (h : host) (ev : event) (w : world) :
  no_status_filter ev ->
  store_fault h (store_calls w) = None ->
  exists tasks : list item,
    list_tasks h ev w = (Ok (listed tasks), after_call w)
    /\ length tasks = size (table w)
    /\ forall it : item, it ∈ tasks <-> exists k, table w !! k = Some it.
Proof.
  intros Hnf Hf.
  exists (snd <$> map_to_list (table w)).
  split; [|split].
  - assert (Hscan : scan h w = (Ok (snd <$> map_to_list (table w)), after_call w))
      by (unfold scan, bind, table_call; by rewrite Hf).
    unfold list_tasks, try_except, bind.
    destruct Hnf as [Hq|[Hq|(qm & Hq & Hs)]]; rewrite Hq;
      cbn [default from_option id truthy value_get dict_get ret].
    + by rewrite Hscan.
    + by rewrite Hscan.
    + destruct qm as [|kv qm'].
      * cbn [truthy value_get dict_get default from_option id ret].
        by rewrite Hscan.
      * cbn [truthy]. unfold value_get.
        destruct Hs as [Hs|[Hs|Hs]]; rewrite Hs;
          cbn [default from_option id ret truthy String.eqb negb];
          by rewrite Hscan.
  - rewrite length_fmap. apply length_map_to_list.
  - apply elem_of_table_values.
Qed.

(** ** The API always answers *)

Lemma try_except_answers (m : M response) (P : response -> Prop) (w : world) :
  (forall resp w1, m w = (Ok resp, w1) -> P resp) ->
  exists (resp : response) (w' : world),
    try_except m answer_500 w = (Ok resp, w')
    /\ (P resp \/ statusCode resp = 500).
Proof.
  intros Hm. unfold try_except.
  destruct (m w) as [[resp|e] w1] eqn:Hmw.
  - exists resp, w1. split; [reflexivity|]. left. by apply (Hm resp w1).
  - unfold answer_500, bind, log_msg, ret. eexists _, _.
    split; [reflexivity|]. by right.
Qed.

Lemma check_run_at_inl (h : host) (body : value) (w w' : world)
      (resp : response) :
  check_run_at h body w = (Ok (inl resp), w') -> statusCode resp = 400.
Proof.
  unfold check_run_at.
  match goal with
  | |- context [match ?m w with _ => _ end] => destruct (m w) as [[v|e] w1]
  end; [discriminate|].
  destruct (exn_cls e); try discriminate. by intros [= <- _].
Qed.

Lemma schedule_task_answers (h : host) (loaded : result value) (w : world) :
  exists (resp : response) (w' : world),
    schedule_task h loaded w = (Ok resp, w')
    /\ (statusCode resp = 201 \/ statusCode resp = 400 \/ statusCode resp = 500).
Proof.
  unfold schedule_task.
  match goal with
  | |- context [match ?m w with _ => _ end] =>
      destruct (m w) as [[resp|e] w1] eqn:Hm
  end.
  - exists resp, w1. split; [reflexivity|].
    apply bind_ok_inv in Hm as (body & w2 & _ & Hm).
    apply bind_ok_inv in Hm as ([field|] & w3 & _ & Hm).
    { apply ret_ok_inv in Hm as ->. auto. }
    apply bind_ok_inv in Hm as (tid & w4 & _ & Hm).
    apply bind_ok_inv in Hm as ([r400|run_at] & w5 & Hc & Hm).
    { apply ret_ok_inv in Hm as ->. apply check_run_at_inl in Hc. auto. }
    apply bind_ok_inv in Hm as (now & w6 & _ & Hm).
    apply bind_ok_inv in Hm as (action & w7 & _ & Hm).
    apply bind_ok_inv in Hm as (payload & w8 & _ & Hm).
    apply bind_ok_inv in Hm as (has & w9 & _ & Hm).
    apply bind_ok_inv in Hm as (it & w10 & _ & Hm).
    apply bind_ok_inv in Hm as (u & w11 & _ & Hm).
    apply ret_ok_inv in Hm as ->. auto.
  - destruct (exn_cls e); unfold bind, log_msg, ret; eexists _, _;
      (split; [reflexivity|]); auto.
Qed.

Lemma list_tasks_answers (h : host) (ev : event) (w : world) :
  exists (resp : response) (w' : world),
    list_tasks h ev w = (Ok resp, w')
    /\ (statusCode resp = 200 \/ statusCode resp = 500).
Proof.
  unfold list_tasks. apply try_except_answers. intros resp w1 Hm.
  apply bind_ok_inv in Hm as (sf & w2 & _ & Hm).
  apply bind_ok_inv in Hm as (tasks & w3 & _ & Hm).
  by apply ret_ok_inv in Hm as ->.
Qed.

Lemma get_task_answers (h : host) (ev : event) (w : world) :
  exists (resp : response) (w' : world),
    get_task h ev w = (Ok resp, w')
    /\ ((statusCode resp = 200 \/ statusCode resp = 404)
        \/ statusCode resp = 500).
Proof.
  unfold get_task. apply try_except_answers. intros resp w1 Hm.
  apply bind_ok_inv in Hm as (tid & w2 & _ & Hm).
  apply bind_ok_inv in Hm as ([|first rest] & w3 & _ & Hm);
    apply ret_ok_inv in Hm as ->; auto.
Qed.

Lemma delete_task_answers (h : host) (ev : event) (w : world) :
  exists (resp : response) (w' : world),
    delete_task h ev w = (Ok resp, w')
    /\ ((statusCode resp = 200 \/ statusCode resp = 404)
        \/ statusCode resp = 500).
Proof.
  unfold delete_task. apply try_except_answers. intros resp w1 Hm.
  apply bind_ok_inv in Hm as (tid & w2 & _ & Hm).
  apply bind_ok_inv in Hm as ([|first rest] & w3 & _ & Hm).
  - apply ret_ok_inv in Hm as ->; auto.
  - apply bind_ok_inv in Hm as (rv & w4 & _ & Hm).
    apply bind_ok_inv in Hm as (u & w5 & _ & Hm).
    apply ret_ok_inv in Hm as ->; auto.
Qed.

(** X25.  On an event that has [httpMethod] and [resource], the API
    handler always answers: whatever the route, the body, the
    parameters, the table's content and its failures, no exception
    leaves it, and the status is one of 200, 201, 400, 404 and 500. *)
Theorem api_handler_always_answers (h : host) (ev : event) (w : world) :
  is_Some (ev_fields ev !! "httpMethod") ->
  is_Some (ev_fields ev !! "resource") ->
  exists (resp : response) (w' : world),
    api_handler h ev w = (Ok resp, w')
    /\ statusCode resp ∈ [200; 201; 400; 404; 500].
Proof.
  intros [method Hmethod] [path Hpath].
  unfold api_handler. unfold bind at 1. rewrite log_msg_eq.
  set (w0 := after_log w INFO _).
  unfold bind, item_get. rewrite Hmethod, Hpath. cbn [ret].
  destruct (eq_str method "POST" && eq_str path "/tasks").
  { destruct (schedule_task_answers h (ev_body ev) w0) as (resp & w' & -> & Hc).
    exists resp, w'. split; [reflexivity|].
    destruct Hc as [-> | [-> | ->]]; set_solver. }
  destruct (eq_str method "GET" && eq_str path "/tasks").
  { destruct (list_tasks_answers h ev w0) as (resp & w' & -> & Hc).
    exists resp, w'. split; [reflexivity|].
    destruct Hc as [-> | ->]; set_solver. }
  destruct (eq_str method "GET" && eq_str path "/tasks/{task_id}").
  { destruct (get_task_answers h ev w0) as (resp & w' & -> & Hc).
    exists resp, w'. split; [reflexivity|].
    destruct Hc as [[-> | ->] | ->]; set_solver. }
  destruct (eq_str method "DELETE" && eq_str path "/tasks/{task_id}").
  { destruct (delete_task_answers h ev w0) as (resp & w' & -> & Hc).
    exists resp, w'. split; [reflexivity|].
    destruct Hc as [[-> | ->] | ->]; set_solver. }
  eexists _, _. split; [reflexivity|]. cbn. set_solver.
Qed.

(** ** The [run_at] text of a successor *)

(** What [fmt_d] prints for a number that fits the width: the loop of
    [of_nonneg] yields the digits of a number of [k + 1] digits, and
    the padding supplies the zeros in front. *)

Lemma digits_go_digits (k : nat) :
  forall (f : nat) (n : Z) (acc : string),
    (k <= f)%nat -> 0 <= n < 10 ^ Z.of_nat (S k) ->
    (k = O \/ 10 ^ Z.of_nat k <= n) ->
    PyStr.digits_go f n acc = digits (S k) n acc.
Proof.
  induction k as [|k IH]; intros f n acc Hf Hn Hlow.
  - change (10 ^ Z.of_nat 1) with 10 in Hn.
    destruct f; cbn [PyStr.digits_go digits]; [reflexivity|].
    destruct (Z.ltb_spec n 10); [reflexivity|lia].
  - destruct f as [|f]; [lia|].
    assert (Hk : 10 ^ Z.of_nat (S k) <= n) by (destruct Hlow; [discriminate|assumption]).
    assert (10 <= 10 ^ Z.of_nat (S k)).
    { rewrite Nat2Z.inj_succ, Z.pow_succ_r by lia.
      assert (0 < 10 ^ Z.of_nat k) by (apply Z.pow_pos_nonneg; lia). lia. }
    cbn [PyStr.digits_go].
    destruct (Z.ltb_spec n 10); [lia|].
    rewrite (IH f (n / 10)); [reflexivity|lia| |].
    + rewrite (Nat2Z.inj_succ (S k)), Z.pow_succ_r in Hn by lia.
      split; [apply Z.div_pos; lia|].
      apply Z.div_lt_upper_bound; lia.
    + right. rewrite Nat2Z.inj_succ, Z.pow_succ_r in Hk by lia.
      apply Z.div_le_lower_bound; lia.
Qed.

Lemma decimal_width (w : nat) (n : Z) :
  0 <= n < 10 ^ Z.of_nat (S w) ->
  exists k : nat, (k <= w)%nat /\ n < 10 ^ Z.of_nat (S k)
                  /\ (k = O \/ 10 ^ Z.of_nat k <= n).
Proof.
  induction w as [|w IH]; intros Hn.
  - exists O. split; [lia|]. split; [lia|]. left; reflexivity.
  - destruct (Z_lt_le_dec n (10 ^ Z.of_nat (S w))) as [Hlt|Hge].
    + destruct IH as (k & Hk & Hlt' & Hlow); [lia|].
      exists k. split; [lia|]. split; assumption.
    + exists (S w). split; [lia|]. split; [lia|]. right; assumption.
Qed.

Lemma zeros_shift (j : nat) (s : string) :
  PyStr.zeros j ++ String "0" s = String "0" (PyStr.zeros j ++ s).
Proof.
  induction j as [|j IH]; [reflexivity|].
  change (String "0" (PyStr.zeros j ++ String "0" s)
          = String "0" (String "0" (PyStr.zeros j ++ s))).
  now rewrite IH.
Qed.

Lemma digits_zero (j : nat) :
  forall acc, digits j 0 acc = PyStr.zeros j ++ acc.
Proof.
  induction j as [|j IH]; intros acc; cbn [digits]; [reflexivity|].
  change (0 / 10) with 0. change (PyStr.digit_char (0 mod 10)) with "0"%char.
  rewrite IH. apply zeros_shift.
Qed.

Lemma digits_pad (j m : nat) :
  forall (n : Z) (acc : string),
    0 <= n < 10 ^ Z.of_nat m ->
    digits (j + m) n acc = PyStr.zeros j ++ digits m n acc.
Proof.
  induction m as [|m IH]; intros n acc Hn.
  - change (10 ^ Z.of_nat 0) with 1 in Hn. assert (n = 0) as -> by lia.
    rewrite Nat.add_0_r. apply digits_zero.
  - rewrite Nat.add_succ_r. cbn [digits]. apply IH.
    rewrite Nat2Z.inj_succ, Z.pow_succ_r in Hn by lia.
    split; [apply Z.div_pos; lia|apply Z.div_lt_upper_bound; lia].
Qed.

Lemma length_digits (w : nat) :
  forall (n : Z) (acc : string),
    String.length (digits w n acc) = (w + String.length acc)%nat.
Proof.
  induction w as [|w IH]; intros n acc; cbn [digits]; [reflexivity|].
  rewrite IH. cbn. lia.
Qed.

Lemma fmt_d_digits (w : nat) (n : Z) :
  0 <= n < 10 ^ Z.of_nat (S w) -> PyStr.fmt_d (S w) n = digits (S w) n "".
Proof.
  intros Hn. destruct (decimal_width w n Hn) as (k & Hk & Hlt & Hlow).
  unfold PyStr.fmt_d, PyStr.of_nonneg.
  rewrite (digits_go_digits k); [|  |lia|assumption].
  - rewrite length_digits. cbn [String.length].
    replace (S w - (S k + 0))%nat with (w - k)%nat by lia.
    rewrite <- digits_pad by lia. f_equal. lia.
  - destruct Hlow as [->|Hlow]; [lia|].
    assert (0 < n) by (assert (0 < 10 ^ Z.of_nat k) by (apply Z.pow_pos_nonneg; lia); lia).
    assert (Z.of_nat k <= Z.log2 n); [|lia].
    apply Z.log2_le_pow2; [lia|].
    transitivity (10 ^ Z.of_nat k); [|assumption].
    apply Z.pow_le_mono_l; lia.
Qed.

(** The printed digits under the readers of the parser: [replace],
    the scan for a sign and [parse_digits] see a run of digits as a
    block. *)

Lemma digit_of_digit_char (a : Z) :
  0 <= a < 10 -> PyStr.digit_of (PyStr.digit_char a) = Some a.
Proof.
  intros H.
  assert (a = 0 \/ a = 1 \/ a = 2 \/ a = 3 \/ a = 4 \/ a = 5 \/ a = 6
          \/ a = 7 \/ a = 8 \/ a = 9) as Ha by lia.
  repeat (destruct Ha as [->|Ha]; [reflexivity|]). subst a; reflexivity.
Qed.

Lemma digit_char_mod (n : Z) :
  PyStr.digit_of (PyStr.digit_char (n mod 10)) = Some (n mod 10).
Proof. apply digit_of_digit_char, Z.mod_pos_bound. lia. Qed.

Lemma digit_eqb_other (c sep : ascii) (a : Z) :
  PyStr.digit_of c = Some a -> PyStr.digit_of sep = None ->
  Ascii.eqb c sep = false.
Proof.
  intros Hc Hs. destruct (Ascii.eqb_spec c sep) as [->|_]; [congruence|reflexivity].
Qed.

Lemma digits_app (w : nat) :
  forall (n : Z) (acc s : string),
    digits w n acc ++ s = digits w n (acc ++ s).
Proof.
  induction w as [|w IH]; intros n acc s; cbn [digits]; [reflexivity|].
  rewrite IH. reflexivity.
Qed.

Lemma substring_digits_skip (w : nat) :
  forall (n : Z) (acc : string) (a m : nat),
    (w <= a)%nat ->
    substring a m (digits w n acc) = substring (a - w) m acc.
Proof.
  induction w as [|w IH]; intros n acc a m Ha; cbn [digits].
  - now rewrite Nat.sub_0_r.
  - rewrite IH by lia.
    replace (a - w)%nat with (S (a - S w)) by lia. reflexivity.
Qed.

Lemma replace_from_other (a c : ascii) (old new s : string) :
  a <> c ->
  PyStr.replace_from (String a old) new 0 (String c s)
  = String c (PyStr.replace_from (String a old) new 0 s).
Proof.
  intros Hac. cbn [PyStr.replace_from String.prefix].
  destruct (ascii_dec a c); [contradiction|reflexivity].
Qed.

Lemma replace_from_digits (a : ascii) (old new : string) (w : nat) :
  PyStr.digit_of a = None ->
  forall (n : Z) (acc : string),
    PyStr.replace_from (String a old) new 0 (digits w n acc)
    = digits w n (PyStr.replace_from (String a old) new 0 acc).
Proof.
  intros Ha. induction w as [|w IH]; intros n acc; cbn [digits]; [reflexivity|].
  rewrite IH, replace_from_other; [reflexivity|].
  intros ->. pose proof (digit_char_mod n). congruence.
Qed.

Lemma tzinfo_scan_digits (w : nat) :
  forall (n : Z) (acc : string),
    tzinfo_scan (digits w n acc) = tzinfo_scan acc.
Proof.
  induction w as [|w IH]; intros n acc; cbn [digits]; [reflexivity|].
  rewrite IH. cbn [tzinfo_scan].
  rewrite (digit_eqb_other _ "+" _ (digit_char_mod n) eq_refl).
  by rewrite (digit_eqb_other _ "-" _ (digit_char_mod n) eq_refl).
Qed.

(** [parse_digits] reads [a + b] digits as [a] digits and then [b]. *)
Lemma parse_digits_add (a b : nat) :
  forall (p : string) (v : Z),
    parse_digits p v (a + b)
    = match parse_digits p v a with
      | Some (p', v') => parse_digits p' v' b
      | None => None
      end.
Proof.
  induction a as [|a IH]; intros p v; cbn [Nat.add parse_digits];
    [reflexivity|].
  destruct (PyStr.digit_of (deref p)); [apply IH|reflexivity].
Qed.

Lemma parse_digits_digits (w : nat) :
  forall (n : Z) (acc : string) (v : Z),
    0 <= n < 10 ^ Z.of_nat w ->
    parse_digits (digits w n acc) v w = Some (acc, v * 10 ^ Z.of_nat w + n).
Proof.
  induction w as [|w IH]; intros n acc v Hn; cbn [digits].
  - change (10 ^ Z.of_nat 0) with 1 in *. cbn [parse_digits]. do 2 f_equal. lia.
  - rewrite Nat2Z.inj_succ, Z.pow_succ_r in * by lia.
    replace (S w) with (w + 1)%nat by lia.
    rewrite parse_digits_add, IH
      by (split; [apply Z.div_pos; lia|apply Z.div_lt_upper_bound; lia]).
    cbn [parse_digits deref advance]. rewrite digit_char_mod.
    do 2 f_equal. pose proof (Z.div_mod n 10). lia.
Qed.

Lemma parse_digits_digits0 (w : nat) (n : Z) (acc : string) :
  0 <= n < 10 ^ Z.of_nat w ->
  parse_digits (digits w n acc) 0 w = Some (acc, n).
Proof. intros Hn. by rewrite parse_digits_digits. Qed.

Lemma substring_all (s : string) : substring 0 (String.length s) s = s.
Proof. induction s as [|c s IH]; cbn; [reflexivity|]. now rewrite IH. Qed.

(** One step of running a reader over printed text. *)
Ltac parse_step :=
  first
    [ rewrite replace_from_digits by first [assumption | reflexivity]
    | rewrite replace_from_other by assumption
    | rewrite tzinfo_scan_digits
    | rewrite parse_digits_digits0 by (cbn; lia)
    | rewrite length_digits
    | rewrite substring_all
    | rewrite substring_digits_skip by (cbn; lia)
    | progress cbn [parse_hms_go tzinfo_scan deref advance NUL Ascii.zero
                    String.length substring
                    Nat.sub Nat.add Nat.ltb Nat.leb Nat.eqb
                    Ascii.eqb Bool.eqb andb orb negb nth app] ].

(** [isoformat] prints a date and a time of that shape, and the
    functions of [fromisoformat] read them back, part by part. *)

Lemma isoformat_digits (dt : datetime) :
  valid_datetime dt ->
  isoformat dt
  = date_digits (year dt) (month dt) (day dt)
      (String "T" (time_digits (hour dt) (minute dt) (second dt)
                     (microsecond dt) (format_offset (tzinfo dt)))).
Proof.
  intros (Hy & Hm & Hd & Hh & Hmi & Hs & Hus).
  pose proof (days_in_month_bounds (year dt) (month dt)).
  unfold isoformat, date_digits, time_digits.
  rewrite !fmt_d_digits by (cbn; lia).
  destruct (microsecond dt =? 0); rewrite !digits_app; reflexivity.
Qed.

Lemma replace_from_date_time (a : ascii) (old new : string)
      (y m d h mi s us : Z) (rest : string) :
  PyStr.digit_of a = None ->
  a <> "-"%char -> a <> "T"%char -> a <> ":"%char -> a <> "."%char ->
  PyStr.replace_from (String a old) new 0
    (date_digits y m d (String "T" (time_digits h mi s us rest)))
  = date_digits y m d (String "T" (time_digits h mi s us
      (PyStr.replace_from (String a old) new 0 rest))).
Proof.
  intros Ha H1 H2 H3 H4. unfold date_digits, time_digits.
  destruct (us =? 0); repeat parse_step; reflexivity.
Qed.

Lemma slice_from_date (y m d : Z) (c : ascii) (rest : string) :
  PyStr.slice_from 10 (date_digits y m d (String c rest)) = String c rest
  /\ PyStr.slice_from 11 (date_digits y m d (String c rest)) = rest.
Proof.
  unfold PyStr.slice_from, date_digits. split; repeat parse_step.
  - reflexivity.
  - rewrite Nat.sub_0_r. apply substring_all.
Qed.

Lemma length_date_digits (y m d : Z) (rest : string) :
  String.length (date_digits y m d rest) = (10 + String.length rest)%nat.
Proof. unfold date_digits. repeat parse_step. reflexivity. Qed.

Lemma parse_isoformat_date_digits (y m d : Z) (rest : string) :
  0 <= y <= 9999 -> 0 <= m <= 99 -> 0 <= d <= 99 ->
  parse_isoformat_date (date_digits y m d rest) = Some (y, m, d).
Proof.
  intros Hy Hm Hd. unfold parse_isoformat_date, date_digits.
  repeat parse_step. reflexivity.
Qed.

Lemma tzinfo_scan_time_digits (h mi s us : Z) (off : string) :
  tzinfo_scan (time_digits h mi s us off) = tzinfo_scan off.
Proof.
  unfold time_digits. destruct (us =? 0); repeat parse_step; reflexivity.
Qed.

Lemma parse_hh_mm_ss_ff_digits (h mi s us : Z) (off : string) :
  0 <= h <= 99 -> 0 <= mi <= 99 -> 0 <= s <= 99 -> 0 <= us <= 999999 ->
  off = "" \/ off = "+00:00" ->
  parse_hh_mm_ss_ff (time_digits h mi s us off) (String.length off)
  = Some (h, mi, s, us, negb (Ascii.eqb (deref off) NUL)).
Proof.
  intros Hh Hmi Hs Hus Hoff.
  unfold parse_hh_mm_ss_ff, time_digits.
  destruct Hoff as [-> | ->];
    (destruct (Z.eqb_spec us 0) as [-> | Hne]; repeat parse_step;
     reflexivity).
Qed.

Lemma parse_utc_offset :
  parse_hh_mm_ss_ff "00:00" 0 = Some (0, 0, 0, 0, false).
Proof. reflexivity. Qed.

Lemma parse_isoformat_time_digits (h mi s us : Z) (tz : option Z) :
  0 <= h <= 99 -> 0 <= mi <= 99 -> 0 <= s <= 99 -> 0 <= us <= 999999 ->
  tz = None \/ tz = Some 0 ->
  parse_isoformat_time (time_digits h mi s us (format_offset tz))
  = Some (h, mi, s, us, match tz with None => None | Some _ => Some (0, 0) end).
Proof.
  intros Hh Hmi Hs Hus Htz. unfold parse_isoformat_time.
  rewrite tzinfo_scan_time_digits.
  destruct Htz as [-> | ->].
  - change (format_offset None) with "".
    cbn [tzinfo_scan String.length].
    pose proof (parse_hh_mm_ss_ff_digits h mi s us "" Hh Hmi Hs Hus
                  (or_introl eq_refl)) as E.
    cbn [String.length] in E. rewrite E. reflexivity.
  - change (format_offset (Some 0)) with "+00:00".
    change (tzinfo_scan "+00:00") with "+00:00".
    pose proof (parse_hh_mm_ss_ff_digits h mi s us "+00:00" Hh Hmi Hs Hus
                  (or_intror eq_refl)) as E.
    cbn [String.length] in E |- *. rewrite E.
    cbn [Nat.eqb orb negb]. rewrite parse_utc_offset. reflexivity.
Qed.

Lemma fromisoformat_isoformat (repr : string -> string) (dt : datetime) :
  valid_datetime dt -> tzinfo dt = None \/ tzinfo dt = Some 0 ->
  fromisoformat repr (isoformat dt) = Ok dt.
Proof.
  intros Hv Htz. pose proof Hv as (Hy & Hm & Hd & Hh & Hmi & Hs & Hus).
  pose proof (days_in_month_bounds (year dt) (month dt)).
  unfold fromisoformat.
  rewrite isoformat_digits, parse_isoformat_date_digits,
    length_date_digits by (assumption || lia).
  destruct (slice_from_date (year dt) (month dt) (day dt) "T"
              (time_digits (hour dt) (minute dt) (second dt) (microsecond dt)
                           (format_offset (tzinfo dt)))) as [-> E11].
  cbn [String.length Nat.add Nat.ltb Nat.leb deref].
  change (nat_of_ascii "T" <=? 127)%nat with true. cbv iota.
  rewrite E11, parse_isoformat_time_digits by (assumption || lia).
  destruct dt as [y mo d hh mi s us tz]. cbn [tzinfo] in *.
  destruct Htz as [-> | ->]; cbn [tzinfo_from_isoformat_results Z.eqb rbind];
    apply new_datetime_ok; exact Hv.
Qed.

Lemma run_at_text_round_trip (dt : datetime) :
  valid_datetime dt -> tzinfo dt = None \/ tzinfo dt = Some 0 ->
  PyStr.replace "Z" "+00:00" (PyStr.replace "+00:00" "Z" (isoformat dt))
  = isoformat dt.
Proof.
  intros Hv Htz. rewrite isoformat_digits by assumption.
  unfold PyStr.replace.
  rewrite !replace_from_date_time by (reflexivity || discriminate).
  destruct Htz as [-> | ->]; reflexivity.
Qed.

Lemma next_run_at_parses_back (h : host) (dt : datetime) :
  valid_datetime dt -> tzinfo dt = None \/ tzinfo dt = Some 0 ->
  parse_run_at h (VStr (PyStr.replace "+00:00" "Z" (isoformat dt))) = Ok dt.
Proof.
  intros Hv Htz. unfold parse_run_at.
  rewrite run_at_text_round_trip by assumption.
  apply fromisoformat_isoformat; assumption.
Qed.

(** A next run that [replace] returned went through the constructor,
    and keeps the zone. *)

Lemma replace_ok_inv (dt next : datetime) (y mo d : option Z) :
  Datetime.replace dt y mo d = Ok next ->
  valid_datetime next /\ tzinfo next = tzinfo dt.
Proof.
  unfold Datetime.replace. intros H.
  apply new_datetime_inv in H as [-> Hv]. split; [exact Hv|reflexivity].
Qed.

Lemma next_run_ok_inv (recurrence : value) (current_time next : datetime) :
  next_run recurrence current_time = Some (Ok next) ->
  valid_datetime next /\ tzinfo next = tzinfo current_time.
Proof.
  unfold next_run.
  destruct (eq_str recurrence "daily");
    [intros [= H]; exact (replace_ok_inv _ _ _ _ _ H)|].
  destruct (eq_str recurrence "weekly");
    [intros [= H]; exact (replace_ok_inv _ _ _ _ _ H)|].
  destruct (eq_str recurrence "monthly"); [|discriminate].
  destruct (month current_time =? 12);
    intros [= H]; exact (replace_ok_inv _ _ _ _ _ H).
Qed.

(** X26.  The text that [schedule_next_occurrence] stores as the
    successor's [run_at], [next_run.isoformat().replace('+00:00', 'Z')],
    is read back by [datetime.fromisoformat(run_at.replace('Z',
    '+00:00'))] as exactly the [next_run] that was computed, microsecond
    and zone included, whenever the parent's time was naive or UTC: the
    successor can be expanded in its turn from the same instant. *)
Theorem successor_run_at_parses_back
        (h : host) (recurrence : value) (current_time next : datetime) :
  next_run recurrence current_time = Some (Ok next) ->
  tzinfo current_time = None \/ tzinfo current_time = Some 0 ->
  parse_run_at h (VStr (PyStr.replace "+00:00" "Z" (isoformat next)))
  = Ok next.
Proof.
  intros Hnext Htz.
  apply next_run_ok_inv in Hnext as [Hv Hsame].
  apply next_run_at_parses_back; [exact Hv|].
  rewrite Hsame. exact Htz.
Qed.

(** ** The further statements at concrete inputs *)

Ltac concrete :=
  lazymatch goal with
  | |- _ = _ => first [reflexivity | vm_compute; reflexivity]
  | |- _ ≠ _ => discriminate
  end.

Lemma table_of_two (a b : item) (ka kb : string * string) :
  table_of [a; b] = <[ka := a]> (<[kb := b]> ∅) ->
  forall (k : string * string) (it : item),
    table_of [a; b] !! k = Some it -> (k = ka /\ it = a) \/ (k = kb /\ it = b).
Proof.
  intros -> k it Hk.
  destruct (decide (ka = k)) as [<-|Hne].
  - rewrite lookup_insert_eq in Hk. left. by injection Hk as <-.
  - rewrite lookup_insert_ne in Hk by exact Hne.
    destruct (decide (kb = k)) as [<-|Hne'].
    + rewrite lookup_insert_eq in Hk. right. by injection Hk as <-.
    + rewrite lookup_insert_ne, lookup_empty in Hk by exact Hne'. discriminate.
Qed.

(** Witness of X4: running [first_due] beside [second_due]. *)
Lemma execute_task_leaves_other_items_witness :
  table (snd (execute_task host_jan01 first_due
                           (world_of [first_due; second_due])))
    !! key_second_due
  = table (world_of [first_due; second_due]) !! key_second_due.
Proof.
  apply (execute_task_leaves_other_items host_jan01 first_due).
  - intros [H _]. vm_compute in H. discriminate.
  - intros (p & _ & H & _). vm_compute in H. discriminate.
Defined.

(** Witness of X5: a tick at midnight of 1 January 2024 over
    [first_due] and [monthly_dec15], which is not due. *)
Lemma tick_leaves_other_items_witness :
  table (snd (handler host_jan01 (world_of [first_due; monthly_dec15])))
    !! key_dec15
  = table (world_of [first_due; monthly_dec15]) !! key_dec15.
Proof.
  apply (tick_leaves_other_items host_jan01).
  intros task bound k0 Hb Hk0 Hp.
  vm_compute in Hb. injection Hb as <-.
  apply (table_of_two first_due monthly_dec15 key_first_due key_dec15 eq_refl)
    in Hk0 as [[_ ->]|[_ ->]].
  - split.
    + intros [H _]. vm_compute in H. discriminate.
    + intros (p & _ & H & _). vm_compute in H. discriminate.
  - vm_compute in Hp. discriminate.
Defined.



(** Witness of X8: the same task when the endpoint cannot be reached. *)
Lemma webhook_task_fails_witness :
  exists (w' : world) (final : item),
    execute_task host_unreachable hook_task (world_of [hook_task]) = (Ok tt, w')
    /\ final !! "status" = Some (VStr "failed")
    /\ final !! "error_message" = Some (VStr "Connection refused").
Proof.
  destruct (webhook_task_fails host_unreachable hook_task (world_of [hook_task])
              "t5" "2023-12-31T23:00:00Z" "POST"
              [("url", VStr "https://example.com/ok")] refused)
    as (w' & final & Hrun & _ & Hst & Hmsg & _); try concrete.
  { apply raises_exn. }
  exists w', final. auto.
Defined.

(** Witness of X9: the expansion of [daily_jan01]. *)
Lemma expansion_puts_successor_witness :
  exists (w' : world) (succ : item),
    schedule_next_occurrence host_jan01 daily_jan01 (world_of [daily_jan01])
    = (Ok tt, w')
    /\ succ !! "run_at" = Some (VStr "2024-01-02T00:00:00Z")
    /\ succ !! "status" = Some (VStr "scheduled")
    /\ succ !! "parent_task_id" = Some (VStr "t3").
Proof.
  destruct (expansion_puts_successor host_jan01 daily_jan01
              (world_of [daily_jan01]) (VStr "t3") (VStr "message") (VMap [])
              "2024-01-02T00:00:00Z")
    as (w' & succ & Hrun & _ & _ & _ & Hr & Hst & _ & _ & _ & Hp & _);
    try concrete.
  exists w', succ. auto.
Defined.

(** Witness of X10: the task [yearly_task]. *)
Lemma unknown_recurrence_completes_without_successor_witness :
  exists (w' : world) (final : item),
    execute_task host_jan01 yearly_task (world_of [yearly_task]) = (Ok tt, w')
    /\ final !! "status" = Some (VStr "completed")
    /\ store_calls w' = 2%nat.
Proof.
  destruct (unknown_recurrence_completes_without_successor host_jan01 yearly_task
              (world_of [yearly_task]) "t6" "2023-12-31T23:00:00Z" []
              (VStr "yearly") (mk_datetime 2023 12 31 23 0 0 0 (Some 0)))
    as (w' & final & Hrun & _ & Hst & Hcalls & _); try concrete.
  exists w', final. auto.
Defined.

(** Witness of X11: [first_due] on a table that refuses its first
    call. *)
Lemma refused_pickup_write_marks_failed_witness :
  exists (w' : world) (final : item),
    execute_task host_first_refused first_due (world_of [first_due]) = (Ok tt, w')
    /\ final !! "status" = Some (VStr "failed")
    /\ final !! "error_message" = Some (VStr (exn_msg throttled)).
Proof.
  destruct (refused_pickup_write_marks_failed host_first_refused first_due
              (world_of [first_due]) "t1" "2023-12-31T23:00:00Z"
              (VStr "message") (VMap []) throttled)
    as (w' & final & Hrun & _ & Hst & Hmsg & _); try concrete.
  exists w', final. auto.
Defined.


Lemma no_task_with_empty (t : string) : no_task_with t ∅.
Proof. intros k it Hk. by rewrite lookup_empty in Hk. Qed.

Lemma only_task_with_insert (t r : string) (it : item) (tbl : table_t) :
  no_task_with t tbl -> only_task_with t r it (<[(t, r) := it]> tbl).
Proof.
  intros Hno. split; [apply lookup_insert_eq|].
  intros k it' Hk Hfst.
  destruct (decide (k = (t, r))) as [->|Hne]; [reflexivity|].
  rewrite lookup_insert_ne in Hk by congruence. by destruct (Hno k it' Hk).
Qed.

Lemma names_task_path_event (t : string) : names_task (path_event t) t.
Proof. exists [("task_id", VStr t)]. by split. Qed.

(** Witness of X14: [message_body] on an empty table. *)
Lemma create_stores_scheduled_task_witness :
  exists (w' : world) (stored : item),
    schedule_task host_jan01 (Ok (VMap message_body)) (world_of [])
    = (Ok created_201, w')
    /\ stored !! "status" = Some (VStr "scheduled")
    /\ stored !! "recurrence" = Some (VStr "daily")
    /\ table w' = <[(sample_uuid, "2024-01-01T00:00:00Z") := stored]> ∅.
Proof.
  destruct (create_stores_scheduled_task host_jan01 (world_of []) message_body
              (VStr "message")
              (VMap [("recipient", VStr "ops"); ("message", VStr "report")])
              "2024-01-01T00:00:00Z")
    as (w' & stored & Hrun & Htab & _ & _ & _ & Hst & _ & _ & _ & _ & Hrec & _);
    try concrete.
  { intros rec H. vm_compute in H. injection H as <-. reflexivity. }
  exists w', stored. auto.
Defined.

(** Witness of X15: the same body on a table that refuses every call. *)
Lemma create_answers_500_when_put_fails_witness :
  exists w' : world,
    schedule_task host_table_down (Ok (VMap message_body)) (world_of [])
    = (Ok (mk_response 500 (error_body "Failed to schedule task")), w')
    /\ table w' = table (world_of []).
Proof.
  destruct (create_answers_500_when_put_fails host_table_down (world_of [])
              message_body (VStr "message")
              (VMap [("recipient", VStr "ops"); ("message", VStr "report")])
              "2024-01-01T00:00:00Z" throttled)
    as (w' & Hrun & Htab & _); try concrete.
  { intros rec H. vm_compute in H. injection H as <-. reflexivity. }
  exists w'. auto.
Defined.

(** Witness of X27: a payload holding a float, and one holding an
    integer of 39 digits. *)
Lemma create_refuses_unserialisable_payload_witness :
  (exists w' : world,
     schedule_task host_jan01 (Ok (VMap body_with_float)) (world_of [])
     = (Ok (mk_response 500
              (error_body
                 "Float types are not supported. Use Decimal types instead.")),
        w')
     /\ table w' = table (world_of [])
     /\ store_calls w' = 0%nat)
  /\ (exists w' : world,
        schedule_task host_jan01 (Ok (VMap body_with_wide_integer))
                      (world_of [])
        = (Ok (mk_response 500 (error_body "[<class 'decimal.Rounded'>]")),
           w')
        /\ table w' = table (world_of [])
        /\ store_calls w' = 0%nat).
Proof.
  split.
  - destruct (create_refuses_unserialisable_payload host_jan01 (world_of [])
                body_with_float (VStr "message")
                (VMap [("ratio", VFloat (S754_finite false 3 (-1)))])
                "2024-01-01T00:00:00Z"
                (Exn TypeError
                   "Float types are not supported. Use Decimal types instead."))
      as (w' & Hrun & Htab & Hcalls & _); try concrete.
    exists w'. auto.
  - destruct (create_refuses_unserialisable_payload host_jan01 (world_of [])
                body_with_wide_integer (VStr "message")
                (VMap [("count", VNum (10 ^ 38))])
                "2024-01-01T00:00:00Z"
                (Exn DecimalException "[<class 'decimal.Rounded'>]"))
      as (w' & Hrun & Htab & Hcalls & _); try concrete.
    exists w'. auto.
Defined.

(** Witness of X16: a body without [payload]. *)
Lemma create_rejects_missing_field_witness :
  schedule_task host_jan01 (Ok (VMap body_without_payload)) (world_of [])
  = (Ok (mk_response 400 (error_body "Missing required field: payload")),
     world_of []).
Proof.
  apply (create_rejects_missing_field host_jan01 (world_of [])
           body_without_payload "payload").
  reflexivity.
Defined.

(** Witness of X17: a body whose [run_at] is [tomorrow]. *)
Lemma create_rejects_bad_run_at_witness :
  fst (schedule_task host_jan01 (Ok (VMap body_with_bad_run_at)) (world_of []))
  = Ok (mk_response 400 (error_body
          "Invalid run_at format. Use ISO8601 format (YYYY-MM-DDTHH:MM:SSZ)")).
Proof.
  destruct (create_rejects_bad_run_at host_jan01 (world_of [])
              body_with_bad_run_at (VStr "message") (VMap []) (VStr "tomorrow"))
    as [Hbad _]; [concrete..|].
  rewrite (Hbad "tomorrow" eq_refl); [reflexivity|concrete].
Defined.

(** Witness of X18: an identifier asked of an empty table. *)
Lemma unknown_task_id_is_404_witness :
  get_task host_jan01 (path_event "nope") (world_of [])
  = (Ok not_found, after_call (world_of []))
  /\ delete_task host_jan01 (path_event "nope") (world_of [])
     = (Ok not_found, after_call (world_of [])).
Proof.
  apply (unknown_task_id_is_404 host_jan01 (path_event "nope") (world_of [])
           "nope").
  - apply names_task_path_event.
  - discriminate.
  - reflexivity.
  - apply no_task_with_empty.
Defined.

(** Witness of X19: reading [first_due] from the table that holds it. *)
Lemma get_task_returns_the_item_witness :
  get_task host_jan01 (path_event "t1") (world_of [first_due])
  = (Ok (mk_response 200 (VMap [("task", item_value first_due)])),
     after_call (world_of [first_due])).
Proof.
  apply (get_task_returns_the_item host_jan01 (path_event "t1")
           (world_of [first_due]) "t1" "2023-12-31T23:00:00Z" first_due).
  - apply names_task_path_event.
  - discriminate.
  - reflexivity.
  - apply (only_task_with_insert "t1" "2023-12-31T23:00:00Z" first_due ∅).
    apply no_task_with_empty.
Defined.

(** Witness of X20: deleting [first_due] and asking for it again. *)
Lemma delete_then_get_is_404_witness :
  exists w' : world,
    delete_task host_jan01 (path_event "t1") (world_of [first_due])
    = (Ok (mk_response 200 (VMap [("message", VStr "Task deleted successfully")])),
       w')
    /\ get_task host_jan01 (path_event "t1") w' = (Ok not_found, after_call w').
Proof.
  destruct (delete_then_get_is_404 host_jan01 (path_event "t1")
              (world_of [first_due]) "t1" "2023-12-31T23:00:00Z" first_due)
    as (w' & Hdel & _ & Hget); try concrete.
  - apply names_task_path_event.
  - apply (only_task_with_insert "t1" "2023-12-31T23:00:00Z" first_due ∅).
    apply no_task_with_empty.
  - exists w'. auto.
Defined.

(** Witness of X21: creating from [message_body] and reading back. *)
Lemma create_then_get_witness :
  exists w' : world,
    schedule_task host_jan01 (Ok (VMap message_body)) (world_of [])
    = (Ok created_201, w')
    /\ fst (get_task host_jan01 (path_event sample_uuid) w')
       = Ok (mk_response 200
               (VMap [("task",
                       item_value
                         (created_item host_jan01 (world_of []) message_body
                            (VStr "message")
                            (VMap [("recipient", VStr "ops");
                                   ("message", VStr "report")])
                            "2024-01-01T00:00:00Z"))])).
Proof.
  destruct (create_then_get host_jan01 (world_of []) message_body
              (VStr "message")
              (VMap [("recipient", VStr "ops"); ("message", VStr "report")])
              "2024-01-01T00:00:00Z")
    as (w' & Hrun & Hget); try concrete.
  - apply no_task_with_empty.
  - intros rec H. vm_compute in H. injection H as <-. reflexivity.
  - exists w'. split; [exact Hrun|].
    by rewrite (Hget (path_event sample_uuid) (names_task_path_event sample_uuid)).
Defined.

(** Witness of X22: deleting [t1] beside [second_due]. *)
Lemma delete_task_leaves_other_ids_witness :
  table (snd (delete_task host_jan01 (path_event "t1")
                          (world_of [first_due; second_due])))
    !! key_second_due
  = table (world_of [first_due; second_due]) !! key_second_due.
Proof.
  apply (delete_task_leaves_other_ids host_jan01 (path_event "t1")
           (world_of [first_due; second_due]) "t1" key_second_due).
  - apply names_task_path_event.
  - discriminate.
Defined.

(** Witness of X23: listing the [scheduled] tasks. *)
Lemma list_tasks_filters_by_status_witness :
  exists tasks : list item,
    list_tasks host_jan01 (status_event "scheduled")
               (world_of [first_due; second_due])
    = (Ok (listed tasks), after_call (world_of [first_due; second_due]))
    /\ forall it : item, it ∈ tasks -> it !! "status" = Some (VStr "scheduled").
Proof.
  destruct (list_tasks_filters_by_status host_jan01 (status_event "scheduled")
              (world_of [first_due; second_due])
              [("status", VStr "scheduled")] "scheduled")
    as (tasks & Hrun & Hin); try concrete.
  exists tasks. split; [exact Hrun|].
  intros it Hit. by apply Hin in Hit as (_ & Hst & _).
Defined.

(** Witness of X24: listing without parameters. *)
Lemma list_tasks_without_filter_lists_all_witness :
  exists tasks : list item,
    list_tasks host_jan01 plain_event (world_of [first_due; second_due])
    = (Ok (listed tasks), after_call (world_of [first_due; second_due]))
    /\ length tasks = size (table (world_of [first_due; second_due])).
Proof.
  destruct (list_tasks_without_filter_lists_all host_jan01 plain_event
              (world_of [first_due; second_due]))
    as (tasks & Hrun & Hlen & _); try concrete.
  - left. reflexivity.
  - exists tasks. auto.
Defined.

(** Witness of X25: [PUT /tasks], a route the API does not have. *)
Lemma api_handler_always_answers_witness :
  exists (resp : response) (w' : world),
    api_handler host_jan01 (route_event "PUT" "/tasks") (world_of [])
    = (Ok resp, w')
    /\ statusCode resp ∈ [200; 201; 400; 404; 500].
Proof.
  apply (api_handler_always_answers host_jan01 (route_event "PUT" "/tasks")).
  - exists (VStr "PUT"). reflexivity.
  - exists (VStr "/tasks"). reflexivity.
Defined.

Lemma successor_run_at_parses_back_witness :
  parse_run_at host_jan01
    (VStr (PyStr.replace "+00:00" "Z"
             (isoformat (on_date mar03 2024 3 4))))
  = Ok (on_date mar03 2024 3 4).
Proof.
  apply (successor_run_at_parses_back host_jan01 (VStr "daily") mar03).
  - reflexivity.
  - right. reflexivity.
Defined.
